(** * Augmented-Analytics: the cleaner, the profiler and the what-if engine

    A shallow embedding of [utils/cleaner.py], [utils/profiler.py],
    [Inference_agent/inference_tools.py] (outlier tool) and of
    [Orchestrator.run_what_if_scenario] from [app/orchestrator.py].

    Numbers are IEEE-754 binary64 values, as Python's [float] and numpy's
    [float64] are: the primitive [float] of the Standard Library, whose
    operations are the processor's.  A missing numeric entry is NaN.

    DataFrames live in a store of frames addressed by references, so that
    [df.copy()], column assignment and in-place filling are what they are in
    Python: effects on one frame, visible through every alias of it.

    Left out: what the functions print on the console, and the layout of the
    markdown report (the report is kept as the values formatted into it). *)

From Stdlib Require Import String Ascii ZArith Bool Floats Lia PeanoNat List.
Import ListNotations.

Set Warnings "-inexact-float".

(* ================================================================== *)
(** * Part I: definitions *)
(* ================================================================== *)

(** ** pandas and numpy, as far as the embedded functions call them *)

Module Pandas.

Local Open Scope float_scope.

(** *** Reductions of a float64 Series

    Every reduction below skips missing entries ([skipna=True] is pandas'
    default).  Sums run left to right from [0]. *)

Definition isna (x : float) : bool := is_nan x.
Definition notna (x : float) : bool := negb (isna x).
Definition dropna (v : list float) : list float := filter notna v.

Definition of_nat (n : nat) : float := of_uint63 (Uint63.of_Z (Z.of_nat n)).

Definition fsum (v : list float) : float := fold_left add v 0.

(** [Series.count()]: the number of entries that are not missing. *)
Definition count (v : list float) : nat := length (dropna v).

(** [Series.mean()]: sum over count; [0 / 0], NaN, for an empty or
    all-missing Series. *)
Definition mean (v : list float) : float := fsum (dropna v) / of_nat (count v).

Fixpoint insert_sorted (x : float) (s : list float) : list float :=
  match s with
  | [] => [x]
  | y :: s' => if x <=? y then x :: s else y :: insert_sorted x s'
  end.

Definition sort_values (v : list float) : list float :=
  fold_right insert_sorted [] v.

(** [Series.median()]: the middle of the sorted entries that are not missing,
    the mean of the two middle ones when their number is even; NaN when there
    is none. *)
Definition median (v : list float) : float :=
  let s := sort_values (dropna v) in
  let n := length s in
  match n with
  | O => nan
  | _ => if Nat.even n
         then (nth (n / 2 - 1) s nan + nth (n / 2) s nan) / 2
         else nth (n / 2) s nan
  end.

(** [Series.std()]: sample standard deviation ([ddof=1]); NaN with fewer than
    two entries. *)
Definition var (v : list float) : float :=
  let xs := dropna v in
  let n := length xs in
  if (n <=? 1)%nat then nan
  else
    let avg := fsum xs / of_nat n in
    fsum (map (fun x => (avg - x) * (avg - x)) xs) / of_nat (n - 1).

Definition std (v : list float) : float := sqrt (var v).

Definition fmin (a b : float) : float := if b <? a then b else a.
Definition fmax (a b : float) : float := if a <? b then b else a.

(** [Series.min()] and [Series.max()]; NaN when every entry is missing. *)
Definition min (v : list float) : float :=
  match dropna v with
  | [] => nan
  | x :: xs => fold_left fmin xs x
  end.

Definition max (v : list float) : float :=
  match dropna v with
  | [] => nan
  | x :: xs => fold_left fmax xs x
  end.

(** The integer part of a non-negative float, read off its binary
    representation. *)
Definition floor_index (x : float) : nat :=
  match Prim2SF x with
  | S754_finite false m (Zneg p) => Z.to_nat (Z.shiftr (Zpos m) (Zpos p))
  | S754_finite false m e => Z.to_nat (Z.shiftl (Zpos m) e)
  | _ => O
  end.

(** numpy's interpolation between two neighbours. *)
Definition lerp (a b t : float) : float :=
  if 0.5 <=? t then b - (b - a) * (1 - t) else a + (b - a) * t.

(** [Series.quantile(q)], [interpolation='linear']: position [(n - 1) * q] in
    the sorted entries that are not missing, interpolated between its two
    neighbours; NaN when there is no entry. *)
Definition quantile (q : float) (v : list float) : float :=
  let s := sort_values (dropna v) in
  match s with
  | [] => nan
  | _ =>
    let n := length s in
    let virtual_index := of_nat (n - 1) * q in
    let previous := Nat.min (floor_index virtual_index) (n - 1) in
    let next := Nat.min (previous + 1) (n - 1) in
    let gamma := virtual_index - of_nat previous in
    lerp (nth previous s nan) (nth next s nan) gamma
  end.

(** [Series.corr(other)]: Pearson's coefficient over the rows where both
    entries are present, computed as [numpy.corrcoef] does (covariance matrix
    with [ddof=1], divided by both standard deviations, clipped to [-1, 1]);
    NaN when no row is complete. *)
Definition pairwise_valid (a b : list float) : list (float * float) :=
  filter (fun p => notna (fst p) && notna (snd p)) (combine a b).

Definition average (v : list float) : float := fsum v / of_nat (length v).

Definition dot (a b : list float) : float :=
  fsum (map (fun p => fst p * snd p) (combine a b)).

Definition clip (x : float) : float :=
  if x <? -1 then -1 else if 1 <? x then 1 else x.

Definition corr (a b : list float) : float :=
  match pairwise_valid a b with
  | [] => nan
  | rows =>
    let x := map fst rows in
    let y := map snd rows in
    let dx := map (fun t => t - average x) x in
    let dy := map (fun t => t - average y) y in
    let fact := of_nat (length rows - 1) in
    let cxx := dot dx dx * (1 / fact) in
    let cyy := dot dy dy * (1 / fact) in
    let cxy := dot dx dy * (1 / fact) in
    clip (cxy / sqrt cxx / sqrt cyy)
  end.

(** *** Columns and frames

    A column is a list of entries with the dtype pandas gave it.  [Number]
    stands for the dtypes that [select_dtypes(include=["number"])] selects
    (int64, float64), held as the float64 values every reduction above works
    on; an int64 column has no missing entry.  [None] is the missing entry of
    an object, category or datetime column ([None]/[NaN]/[NaT]); a bool column
    has none. *)

Inductive Series : Type :=
| Number (v : list float)
| Boolean (v : list bool)
| Object (v : list (option string))
| Category (v : list (option string))
| Datetime (v : list (option Z)).

(** A frame: its columns in order, by name.  The names of a frame are
    distinct ([read_csv] renames repeated headers); the theorems say so with
    [NoDup (columns df)]. *)
Definition DataFrame : Type := list (string * Series).

(** [df.columns] *)
Definition columns (df : DataFrame) : list string := map fst df.

(** [df[col]] *)
Fixpoint getitem (df : DataFrame) (col : string) : option Series :=
  match df with
  | [] => None
  | (n, c) :: df' => if String.eqb col n then Some c else getitem df' col
  end.

(** [df[col] = c]: replaces the column in place, appends a new one. *)
Fixpoint setitem (df : DataFrame) (col : string) (c : Series) : DataFrame :=
  match df with
  | [] => [(col, c)]
  | (n, c0) :: df' =>
    if String.eqb col n then (n, c) :: df' else (n, c0) :: setitem df' col c
  end.

(** [pd.api.types.is_numeric_dtype]: true of bool as well. *)
Definition is_numeric_dtype (c : Series) : bool :=
  match c with
  | Number _ | Boolean _ => true
  | _ => false
  end.

(** The predicate of [select_dtypes(include=["number"])]: bool is left out. *)
Definition is_number (c : Series) : bool :=
  match c with
  | Number _ => true
  | _ => false
  end.

(** The predicate of [select_dtypes(include=["object", "category"])]. *)
Definition is_object_or_category (c : Series) : bool :=
  match c with
  | Object _ | Category _ => true
  | _ => false
  end.

Definition select_dtypes (include : Series -> bool) (df : DataFrame) : DataFrame :=
  filter (fun nc => include (snd nc)) df.

(** The float64 values a numeric column enters arithmetic with. *)
Definition to_float (c : Series) : option (list float) :=
  match c with
  | Number v => Some v
  | Boolean v => Some (map (fun b : bool => if b then 1 else 0) v)
  | _ => None
  end.

Definition isnull {A : Type} (x : option A) : bool :=
  match x with
  | None => true
  | Some _ => false
  end.

(** [series.isnull().any()] *)
Definition isnull_any (c : Series) : bool :=
  match c with
  | Number v => existsb isna v
  | Boolean _ => false
  | Object v | Category v => existsb isnull v
  | Datetime v => existsb isnull v
  end.

(** The entries that are present. *)
Fixpoint present {A : Type} (v : list (option A)) : list A :=
  match v with
  | [] => []
  | Some x :: v' => x :: present v'
  | None :: v' => present v'
  end.

(** *** Mode and value counts *)

Section Counting.
Context {A : Type}.
Variable eqb : A -> A -> bool.
Variable leb : A -> A -> bool.

Definition occurrences (x : A) (v : list A) : nat :=
  length (filter (eqb x) v).

Definition max_occurrences (v : list A) : nat :=
  fold_right (fun x m => Nat.max (occurrences x v) m) O v.

Definition least (x : A) (v : list A) : A :=
  fold_left (fun a b => if leb a b then a else b) v x.

(** [series.mode()[0]]: [mode()] holds the most frequent present values in
    ascending order, so its first element is the least of them.  [None]
    stands for the [KeyError] that indexing an empty result raises. *)
Definition mode_first (v : list A) : option A :=
  match filter (fun x => (occurrences x v =? max_occurrences v)%nat) v with
  | [] => None
  | x :: rest => Some (least x rest)
  end.

Fixpoint unique (v : list A) : list A :=
  match v with
  | [] => []
  | x :: v' => x :: filter (fun y => negb (eqb x y)) (unique v')
  end.

(** [series.value_counts().to_dict()]: each distinct present value with the
    number of its occurrences. *)
Definition value_counts (v : list A) : list (A * nat) :=
  map (fun x => (x, occurrences x v)) (unique v).

(** [series.nunique()] *)
Definition nunique (v : list A) : nat := length (unique v).
End Counting.

(** A scalar taken from a column, to fill it with. *)
Inductive scalar : Type :=
| Float (x : float)
| Str (s : string)
| Timestamp (t : Z).

(** [series.mode()[0]] of a column that is not numeric. *)
Definition mode0 (c : Series) : option scalar :=
  match c with
  | Object v | Category v =>
    option_map Str (mode_first String.eqb String.leb (present v))
  | Datetime v => option_map Timestamp (mode_first Z.eqb Z.leb (present v))
  | Number v => option_map Float (mode_first PrimFloat.eqb PrimFloat.leb (dropna v))
  | Boolean v =>
    option_map (fun b : bool => Float (if b then 1 else 0))
               (mode_first Bool.eqb implb v)
  end.

Definition fill {A : Type} (x : A) (v : list (option A)) : list (option A) :=
  map (fun e => match e with None => Some x | Some _ => e end) v.

(** [series.fillna(value)]: every missing entry becomes [value], the others
    stay.  The cleaner fills a column with a scalar of the column's own kind;
    other combinations do not arise. *)
Definition fillna (c : Series) (value : scalar) : Series :=
  match c, value with
  | Number v, Float m => Number (map (fun x => if isna x then m else x) v)
  | Object v, Str m => Object (fill m v)
  | Category v, Str m => Category (fill m v)
  | Datetime v, Timestamp m => Datetime (fill m v)
  | _, _ => c
  end.

(** *** [describe()] *)

Record description : Type := {
  d_count : float;
  d_mean : float;
  d_std : float;
  d_min : float;
  d_25 : float;
  d_50 : float;
  d_75 : float;
  d_max : float
}.

Definition describe_series (v : list float) : description :=
  {| d_count := of_nat (count v);
     d_mean := mean v;
     d_std := std v;
     d_min := min v;
     d_25 := quantile 0.25 v;
     d_50 := quantile 0.5 v;
     d_75 := quantile 0.75 v;
     d_max := max v |}.

(** The number columns of a frame with their values, in column order:
    [df.select_dtypes(include=["number"])]. *)
Fixpoint number_columns (df : DataFrame) : list (string * list float) :=
  match df with
  | [] => []
  | (n, Number v) :: df' => (n, v) :: number_columns df'
  | _ :: df' => number_columns df'
  end.

(** The object and category columns with their entries:
    [df.select_dtypes(include=["object", "category"])]. *)
Fixpoint label_columns (df : DataFrame) : list (string * list (option string)) :=
  match df with
  | [] => []
  | (n, Object v) :: df' => (n, v) :: label_columns df'
  | (n, Category v) :: df' => (n, v) :: label_columns df'
  | _ :: df' => label_columns df'
  end.

(** A Python dict as the list of its items in insertion order: assignment to
    a key that is present replaces its value and keeps its place. *)
Fixpoint dict_set {V : Type} (d : list (string * V)) (k : string) (x : V)
  : list (string * V) :=
  match d with
  | [] => [(k, x)]
  | (k0, x0) :: d' =>
    if String.eqb k k0 then (k0, x) :: d' else (k0, x0) :: dict_set d' k x
  end.

Fixpoint dict_get {V : Type} (d : list (string * V)) (k : string) : option V :=
  match d with
  | [] => None
  | (k0, x0) :: d' => if String.eqb k k0 then Some x0 else dict_get d' k
  end.

Definition keys {V : Type} (d : list (string * V)) : list string := map fst d.

End Pandas.

(** ** The Python store: frames by reference, exceptions, library calls *)

Module Runtime.

Import Pandas.
Local Open Scope string_scope.

(** The exceptions the embedded code can meet. *)
Inductive exn : Type :=
| KeyError (key : string)
| ValueError (msg : string)
| TypeError (msg : string)
| ExternalError (msg : string).

(** [str(e)] *)
Definition str (e : exn) : string :=
  match e with
  | KeyError key => key
  | ValueError msg | TypeError msg | ExternalError msg => msg
  end.

Inductive outcome (A : Type) : Type :=
| Ok (a : A)
| Raise (e : exn).
Arguments Ok {A} a.
Arguments Raise {A} e.

(** The statistical work a run asks of pandas and of the analyzer, in the
    order it is asked. *)
Inductive event : Type :=
| Reduction (op col : string)
| Correlation (col other : string)
| Profiling
| Analysis.

Definition ref : Type := nat.

Record world : Type := {
  frames : list DataFrame;
  calls : list event
}.

Definition M (A : Type) : Type := world -> outcome A * world.

Definition ret {A : Type} (a : A) : M A := fun w => (Ok a, w).

Definition bind {A B : Type} (m : M A) (k : A -> M B) : M B :=
  fun w =>
    match m w with
    | (Ok a, w') => k a w'
    | (Raise e, w') => (Raise e, w')
    end.

Definition raise {A : Type} (e : exn) : M A := fun w => (Raise e, w).

(** [try: m  except Exception as e: h e] *)
Definition try_except {A : Type} (m : M A) (h : exn -> M A) : M A :=
  fun w =>
    match m w with
    | (Ok a, w') => (Ok a, w')
    | (Raise e, w') => h e w'
    end.

Declare Scope py_scope.
Delimit Scope py_scope with py.
Notation "x <- m ;; k" := (bind m (fun x => k))
  (at level 61, m at next level, right associativity) : py_scope.
Notation "m ;;; k" := (bind m (fun _ => k))
  (at level 61, right associativity) : py_scope.
Local Open Scope py_scope.

Definition lift {A : Type} (o : outcome A) : M A := fun w => (o, w).

Definition log (e : event) : M unit :=
  fun w => (Ok tt, {| frames := frames w; calls := calls w ++ [e] |}).

Definition frame_at (w : world) (r : ref) : option DataFrame :=
  nth_error (frames w) r.

Definition deref (r : ref) : M DataFrame :=
  fun w =>
    match frame_at w r with
    | Some df => (Ok df, w)
    | None => (Raise (ValueError "no such frame"), w)
    end.

Fixpoint replace_nth {A : Type} (n : nat) (x : A) (l : list A) : list A :=
  match l, n with
  | [], _ => []
  | _ :: l', O => x :: l'
  | y :: l', S n' => y :: replace_nth n' x l'
  end.

Definition store (r : ref) (df : DataFrame) : M unit :=
  fun w => (Ok tt, {| frames := replace_nth r df (frames w); calls := calls w |}).

(** [df.copy()]: a new frame with the same columns. *)
Definition copy (r : ref) : M ref :=
  df <- deref r ;;
  fun w => (Ok (length (frames w)),
            {| frames := frames w ++ [df]; calls := calls w |}).

(** [df.columns] *)
Definition columns_of (r : ref) : M (list string) :=
  df <- deref r ;; ret (columns df).

(** [df[col]]; a [KeyError] when there is no such column. *)
Definition column_of (r : ref) (col : string) : M Series :=
  df <- deref r ;;
  match getitem df col with
  | Some c => ret c
  | None => raise (KeyError ("'" ++ col ++ "'"))
  end.

(** [df[col] = c] *)
Definition assign (r : ref) (col : string) (c : Series) : M unit :=
  df <- deref r ;; store r (setitem df col c).

(** [df[col].op()] for a reduction [op] of the numeric column [col]. *)
Definition reduce (op : string) (f : list float -> float) (r : ref) (col : string)
  : M float :=
  c <- column_of r col ;;
  match to_float c with
  | Some v => log (Reduction op col) ;;; ret (f v)
  | None => raise (TypeError ("Could not convert to numeric: " ++ col))
  end.

Fixpoint for_each {A : Type} (l : list A) (body : A -> M unit) : M unit :=
  match l with
  | [] => ret tt
  | x :: l' => body x ;;; for_each l' body
  end.

(** A loop that updates a local variable [acc]. *)
Fixpoint for_fold {A S : Type} (l : list A) (body : S -> A -> M S) (acc : S) : M S :=
  match l with
  | [] => ret acc
  | x :: l' => acc' <- body acc x ;; for_fold l' body acc'
  end.

End Runtime.

(** ** utils/cleaner.py *)

Module Cleaner.

Import Pandas Runtime.
Local Open Scope string_scope.
Local Open Scope py_scope.

(** [cleaned_df[column].fillna(value, inplace=True)]: the column selected
    from the frame is filled in place, and the frame sees it (pandas 1.x and
    2.x, where the selected column shares the frame's data). *)
Definition fillna_inplace (r : ref) (column : string) (value : scalar) : M unit :=
  c <- column_of r column ;; assign r column (fillna c value).

(** [cleaned_df[column].mode()[0]] *)
Definition mode_of (r : ref) (column : string) : M scalar :=
  c <- column_of r column ;;
  log (Reduction "mode" column) ;;;
  match mode0 c with
  | Some x => ret x
  | None => raise (KeyError "0")
  end.

(** The body of the loop over [cleaned_df.columns]. *)
Definition clean_column (cleaned_df : ref) (column : string) : M unit :=
  c <- column_of cleaned_df column ;;
  if isnull_any c then
    if is_numeric_dtype c then
      median_val <- reduce "median" median cleaned_df column ;;
      fillna_inplace cleaned_df column (Float median_val)
    else
      mode_val <- mode_of cleaned_df column ;;
      fillna_inplace cleaned_df column mode_val
  else ret tt.

Definition clean_dataframe (df : ref) : M ref :=
  cleaned_df <- copy df ;;
  cols <- columns_of cleaned_df ;;
  for_each cols (clean_column cleaned_df) ;;;
  ret cleaned_df.

End Cleaner.

(** ** utils/profiler.py and the outlier tool of inference_tools.py *)

Module Profiler.

Import Pandas Runtime.
Local Open Scope float_scope.

Record categorical : Type := {
  value_counts : list (string * nat);
  unique_values_count : nat
}.

Record full_profile : Type := {
  basic_statistics : list (string * description);
  outliers_count : list (string * nat);
  categorical_analysis : list (string * categorical)
}.

(** The body of the outlier loop: the entries of [df[col]] outside the fences
    [Q1 - 1.5 * IQR] and [Q3 + 1.5 * IQR], counted. *)
Definition outliers (v : list float) : nat :=
  let Q1 := quantile 0.25 v in
  let Q3 := quantile 0.75 v in
  let IQR := Q3 - Q1 in
  let outlier_condition :=
    map (fun x => (x <? Q1 - 1.5 * IQR) || (Q3 + 1.5 * IQR <? x)) v in
  length (filter (fun b : bool => b) outlier_condition).

(** The body of the categorical loop. *)
Definition analyze (v : list (option string)) : categorical :=
  {| value_counts := Pandas.value_counts String.eqb (present v);
     unique_values_count := nunique String.eqb (present v) |}.

(** A dict filled by a loop over columns. *)
Definition dict_of {V W : Type} (f : V -> W) (cols : list (string * V))
  : list (string * W) :=
  fold_left (fun d nc => dict_set d (fst nc) (f (snd nc))) cols [].

(** [profile_dataframe(df)].  [describe()] refuses a frame without columns,
    which is what [df[numerical_cols]] is when no column is a number. *)
Definition profile_dataframe (df : DataFrame) : outcome full_profile :=
  let numerical_cols := number_columns df in
  match numerical_cols with
  | [] => Raise (ValueError "Cannot describe a DataFrame without columns")
  | _ =>
    let stats := dict_of describe_series numerical_cols in
    let outliers_summary := dict_of outliers numerical_cols in
    let categorical_cols := label_columns df in
    let categorical_analysis := dict_of analyze categorical_cols in
    Ok {| basic_statistics := stats;
          outliers_count := outliers_summary;
          categorical_analysis := categorical_analysis |}
  end.

(** [InferenceToolSet.detect_outliers]: the same loop, behind a guard for
    frames without number columns. *)
Inductive tool_result : Type :=
| ToolMessage (message : string)
| OutliersCount (outliers_count : list (string * nat)).

Definition detect_outliers (df : DataFrame) : tool_result :=
  let numerical_cols := number_columns df in
  if (length numerical_cols =? 0)%nat
  then ToolMessage "No numerical columns found for outlier detection."
  else OutliersCount (dict_of outliers numerical_cols).

End Profiler.

(** ** app/orchestrator.py: [Orchestrator.run_what_if_scenario] *)

Module Orchestrator.

Import Pandas Runtime Profiler.
Local Open Scope string_scope.
Local Open Scope py_scope.

(** The [modifications] dict: its three entries.  [value] is the number the
    caller entered, as a float. *)
Record Modifications : Type := {
  column : string;
  change_type : string;
  value : float
}.

(** The five statistics of the target column. *)
Record stats : Type := {
  s_mean : float;
  s_median : float;
  s_std : float;
  s_min : float;
  s_max : float
}.

Record impact : Type := {
  correlation : float;
  estimated_impact : float
}.

(** [change_description], by the values its text is made of. *)
Inductive description : Type :=
| Increased (col : string) (val : float)
| Decreased (col : string) (val : float)
| SetTo (col : string) (val : float).

(** The markdown report, by the values that are formatted into it: the
    scenario line, the table of the target column, the list of related
    variables in the order the report lists them, and the analyzer's text. *)
Record what_if_report : Type := {
  change_description : description;
  original_stats : stats;
  new_stats : stats;
  stats_changes : stats;
  impact_analysis : list (string * impact);
  scenario_report : string
}.

(** What the function returns: always text, either a one-line message or the
    report. *)
Inductive text : Type :=
| Message (s : string)
| Report (r : what_if_report).

Definition column_not_found (col : string) : string :=
  "❌ Error: Column '" ++ col ++ "' not found in the dataset.".

Definition column_not_numerical (col : string) : string :=
  "❌ Error: Column '" ++ col
  ++ "' is not numerical. What-if analysis requires numerical columns.".

Definition unknown_change_type (change_type : string) : string :=
  "❌ Error: Unknown change type '" ++ change_type ++ "'".

Definition error_during_analysis (e : exn) : string :=
  "❌ Error during what-if analysis: " ++ str e.

(** The dict of the five statistics of [df[col]]. *)
Definition five_stats (df : ref) (col : string) : M stats :=
  mean <- reduce "mean" Pandas.mean df col ;;
  median <- reduce "median" Pandas.median df col ;;
  std <- reduce "std" Pandas.std df col ;;
  min <- reduce "min" Pandas.min df col ;;
  max <- reduce "max" Pandas.max df col ;;
  ret {| s_mean := mean; s_median := median; s_std := std;
         s_min := min; s_max := max |}.

(** [modified_df[col] = modified_df[col] * factor] *)
Definition scale (df : ref) (col : string) (factor : float) : M unit :=
  c <- column_of df col ;;
  match to_float c with
  | Some v => assign df col (Number (map (fun x => (x * factor)%float) v))
  | None => raise (TypeError ("can't multiply: " ++ col))
  end.

(** [modified_df[col] = val]: the scalar in every row. *)
Definition set_all (df : ref) (col : string) (val : float) : M unit :=
  c <- column_of df col ;;
  match to_float c with
  | Some v => assign df col (Number (map (fun _ => val) v))
  | None => raise (TypeError ("not a numeric column: " ++ col))
  end.

(** One entry of [stats_changes]. *)
Definition percentage_change (original new : float) : float :=
  if negb (original =? 0)%float
  then ((new - original) / abs original * 100)%float
  else 0%float.

Definition changes (original new : stats) : stats :=
  {| s_mean := percentage_change (s_mean original) (s_mean new);
     s_median := percentage_change (s_median original) (s_median new);
     s_std := percentage_change (s_std original) (s_std new);
     s_min := percentage_change (s_min original) (s_min new);
     s_max := percentage_change (s_max original) (s_max new) |}.

(** [df.select_dtypes(include=['number']).columns.tolist()] *)
Definition numerical_columns_of (df : ref) : M (list string) :=
  d <- deref df ;; ret (map fst (number_columns d)).

(** [df[col].corr(df[other_col])] *)
Definition corr_of (df : ref) (col other_col : string) : M float :=
  a <- column_of df col ;;
  b <- column_of df other_col ;;
  match to_float a, to_float b with
  | Some x, Some y => log (Correlation col other_col) ;;; ret (corr x y)
  | _, _ => raise (TypeError "unsupported operand for corr")
  end.

Definition is_percentage (change_type : string) : bool :=
  (change_type =? "Percentage Increase") || (change_type =? "Percentage Decrease").

(** The estimate for one related column. *)
Definition estimate (change_type : string) (val mean correlation : float) : float :=
  if is_percentage change_type then
    let sign := if change_type =? "Percentage Increase" then 1%float else (-1)%float in
    (correlation * val * sign)%float
  else
    let percentage_change := ((val - mean) / mean * 100)%float in
    (correlation * percentage_change)%float.

(** The body of the loop over [numerical_cols]. *)
Definition impact_step (original_df : ref) (col change_type : string)
           (val mean : float) (impact_analysis : list (string * impact))
           (other_col : string) : M (list (string * impact)) :=
  if negb (other_col =? col) then
    correlation <- corr_of original_df col other_col ;;
    if (0.1 <? abs correlation)%float then
      let estimated_impact := estimate change_type val mean correlation in
      ret (dict_set impact_analysis other_col
                    {| correlation := correlation;
                       estimated_impact := estimated_impact |})
    else ret impact_analysis
  else ret impact_analysis.

Section WhatIf.

(** [create_analyzer_chain().invoke({"stats_json": stats_json})]: the hosted
    model's text, or the exception the call ends with. *)
Variable analyzer_chain : full_profile -> outcome string.

Definition invoke (stats_json : full_profile) : M string :=
  log Analysis ;;; lift (analyzer_chain stats_json).

(** [profile_dataframe(modified_df)] *)
Definition profile_of (df : ref) : M full_profile :=
  d <- deref df ;; log Profiling ;;; lift (profile_dataframe d).

(** The modification; [None] for a change type that is none of the three. *)
Definition apply_modification (modified_df : ref) (col change_type : string)
           (val : float) : M (option description) :=
  if change_type =? "Percentage Increase" then
    scale modified_df col (1 + val / 100)%float ;;;
    ret (Some (Increased col val))
  else if change_type =? "Percentage Decrease" then
    scale modified_df col (1 - val / 100)%float ;;;
    ret (Some (Decreased col val))
  else if change_type =? "Set to Value" then
    set_all modified_df col val ;;;
    ret (Some (SetTo col val))
  else ret None.

(** Lines 65 to 183: the statistics before and after, the propagated
    impact, the profile of the modified frame and the analyzer's text. *)
Definition analyse (original_df modified_df : ref) (col change_type : string)
           (val : float) : M text :=
  original_stats <- five_stats original_df col ;;
  applied <- apply_modification modified_df col change_type val ;;
  match applied with
  | None => ret (Message (unknown_change_type change_type))
  | Some change_description =>
    new_stats <- five_stats modified_df col ;;
    let stats_changes := changes original_stats new_stats in
    numerical_cols <- numerical_columns_of modified_df ;;
    impact_analysis <-
      for_fold numerical_cols
               (impact_step original_df col change_type val
                            (s_mean original_stats)) [] ;;
    stats_json <- profile_of modified_df ;;
    scenario_report <- invoke stats_json ;;
    ret (Report {| change_description := change_description;
                   original_stats := original_stats;
                   new_stats := new_stats;
                   stats_changes := stats_changes;
                   impact_analysis := impact_analysis;
                   scenario_report := scenario_report |})
  end.

(** The statements of the [try] block: the two copies, the validation of
    the target column, then the analysis. *)
Definition what_if_body (df : ref) (modifications : Modifications) : M text :=
  modified_df <- copy df ;;
  original_df <- copy df ;;
  let col := column modifications in
  let change_type := change_type modifications in
  let val := value modifications in
  cols <- columns_of modified_df ;;
  if negb (existsb (String.eqb col) cols) then
    ret (Message (column_not_found col))
  else
    target <- column_of modified_df col ;;
    if negb (is_numeric_dtype target) then
      ret (Message (column_not_numerical col))
    else
      analyse original_df modified_df col change_type val.

Definition run_what_if_scenario (df : ref) (modifications : Modifications)
  : M text :=
  try_except (what_if_body df modifications)
             (fun e => ret (Message (error_during_analysis e))).

End WhatIf.

End Orchestrator.

(** ** Reference descriptions

    What the functions above are compared with: the values a run is expected
    to produce, written as plain functions of the input frame. *)

Module Spec.

Import Pandas Runtime Profiler Orchestrator.
Local Open Scope string_scope.

(** A numeric entry is a finite number or missing. *)
Definition finite_or_missing (x : float) : bool := isna x || is_finite x.

Definition finite_column (c : Series) : Prop :=
  match c with
  | Number v => Forall (fun x => finite_or_missing x = true) v
  | _ => True
  end.

(** The column has an entry that is not missing. *)
Definition has_present (c : Series) : bool :=
  match c with
  | Number v => existsb notna v
  | Boolean v => negb (length v =? 0)%nat
  | Object v | Category v => existsb (fun e => negb (isnull e)) v
  | Datetime v => existsb (fun e => negb (isnull e)) v
  end.

(** A column that is not numeric and has a missing entry can be filled when
    it has a present one: its mode exists. *)
Definition fillable (c : Series) : Prop :=
  is_numeric_dtype c = false -> isnull_any c = true -> has_present c = true.

(** The column with its missing entries replaced: by the median of the
    present ones when numeric, by the most frequent present value (the least
    one on ties) otherwise. *)
Definition imputed (c : Series) : Series :=
  match c with
  | Number v => Number (map (fun x => if isna x then median v else x) v)
  | Boolean v => Boolean v
  | Object v =>
    match mode_first String.eqb String.leb (present v) with
    | Some m => Object (fill m v)
    | None => c
    end
  | Category v =>
    match mode_first String.eqb String.leb (present v) with
    | Some m => Category (fill m v)
    | None => c
    end
  | Datetime v =>
    match mode_first Z.eqb Z.leb (present v) with
    | Some m => Datetime (fill m v)
    | None => c
    end
  end.

Definition imputed_frame (df : DataFrame) : DataFrame :=
  map (fun nc => (fst nc, imputed (snd nc))) df.

(** The five statistics of a Series. *)
Definition five (v : list float) : stats :=
  {| s_mean := mean v; s_median := median v; s_std := std v;
     s_min := Pandas.min v; s_max := Pandas.max v |}.

(** The target column after the modification. *)
Definition new_values (change_type : string) (val : float) (v : list float)
  : list float :=
  if change_type =? "Percentage Increase" then
    map (fun x => (x * (1 + val / 100))%float) v
  else if change_type =? "Percentage Decrease" then
    map (fun x => (x * (1 - val / 100))%float) v
  else map (fun _ => val) v.

Definition known_change (change_type : string) : bool :=
  (change_type =? "Percentage Increase")
  || (change_type =? "Percentage Decrease")
  || (change_type =? "Set to Value").

Definition describe_change (col change_type : string) (val : float) : description :=
  if change_type =? "Percentage Increase" then Increased col val
  else if change_type =? "Percentage Decrease" then Decreased col val
  else SetTo col val.

Definition modified_frame (df : DataFrame) (m : Modifications) (t : list float)
  : DataFrame :=
  setitem df (column m) (Number (new_values (change_type m) (value m) t)).

(** [abs(correlation) > 0.1] *)
Definition material (c : float) : bool := (0.1 <? abs c)%float.

(** The entry of [impact_analysis] for the number column [nv]. *)
Definition impact_of (change_type : string) (val mean : float) (t : list float)
           (nv : string * list float) : string * impact :=
  (fst nv, {| correlation := corr t (snd nv);
              estimated_impact :=
                estimate change_type val mean (corr t (snd nv)) |}).

(** The number column [nv] is not the target and its correlation with the
    target values [t] is material. *)
Definition related (col : string) (t : list float) (nv : string * list float)
  : bool :=
  negb (fst nv =? col) && material (corr t (snd nv)).

(** The impact entries of a run: the related number columns of the frame, in
    column order. *)
Definition impacts (df : DataFrame) (m : Modifications) (t : list float)
  : list (string * impact) :=
  map (impact_of (change_type m) (value m) (mean t) t)
      (filter (related (column m) t) (number_columns df)).

(** The report of a run whose analyzer answered [narrative]. *)
Definition expected_report (df : DataFrame) (m : Modifications) (t : list float)
           (narrative : string) : what_if_report :=
  let t' := new_values (change_type m) (value m) t in
  {| change_description := describe_change (column m) (change_type m) (value m);
     original_stats := five t;
     new_stats := five t';
     stats_changes := changes (five t) (five t');
     impact_analysis := impacts df m t;
     scenario_report := narrative |}.

(** The column [n] of the frame is another number column whose correlation
    with the target values [t] is material. *)
Definition in_impact_set (df : DataFrame) (col : string) (t : list float)
           (n : string) : bool :=
  match getitem df n with
  | Some (Number v) => negb (n =? col) && material (corr t v)
  | _ => false
  end.

(** The list is in descending order of [abs(correlation)]. *)
Fixpoint descending (l : list (string * impact)) : bool :=
  match l with
  | [] => true
  | (_, i) :: l' =>
    match l' with
    | [] => true
    | (_, j) :: _ =>
      (abs (correlation j) <=? abs (correlation i))%float && descending l'
    end
  end.

End Spec.

(** ** Sample data *)

Module Examples.

Import Pandas Runtime Profiler Orchestrator.
Local Open Scope string_scope.
Local Open Scope float_scope.

Definition store_of (df : DataFrame) : world := {| frames := [df]; calls := [] |}.

(** The analyzer answering, and the analyzer failing. *)
Definition answering (stats_json : full_profile) : outcome string := Ok "narrative".
Definition failing (stats_json : full_profile) : outcome string :=
  Raise (ExternalError "504 Deadline Exceeded").

Definition salary : list float := [30000; 32000; 31000; 1000000; 33000].

Definition staff : DataFrame :=
  [("salary", Number salary);
   ("bonus", Number [3000; 3200; 3100; 100000; 3300]);
   ("city", Object [Some "Pune"; None; Some "Delhi"; Some "Pune"; Some "Delhi"]);
   ("remote", Boolean [true; false; true; true; false])].

(** Two related columns, the weaker one first. *)
Definition ranking : DataFrame :=
  [("t", Number [1; 2; 3; 4]);
   ("a", Number [1; 3; 2; 4]);
   ("b", Number [2; 4; 6; 8])].

(** A target whose mean is 0. *)
Definition centred : DataFrame :=
  [("a", Number [-1; 1]); ("b", Number [-1; 1])].

Definition one_row : DataFrame := [("salary", Number [30000])].

Definition revenue : DataFrame := [("revenue", Number [100000001; 300000007])].

Definition gaps : DataFrame :=
  [("x", Number [1; nan; 3; 10]);
   ("city", Object [Some "b"; None; Some "a"; Some "b"]);
   ("seen", Datetime [Some 5%Z; None; Some 5%Z; Some 2%Z])].

Definition unbounded : DataFrame :=
  [("x", Number [neg_infinity; infinity; nan])].

Definition empty_columns : DataFrame :=
  [("z", Number [nan; nan]); ("note", Object [None; None])].

Definition unmeasured : DataFrame :=
  [("z", Number [nan; nan]); ("city", Object [Some "Pune"; None])].

Definition increase (col : string) (p : float) : Modifications :=
  {| column := col; change_type := "Percentage Increase"; value := p |}.

Definition decrease (col : string) (p : float) : Modifications :=
  {| column := col; change_type := "Percentage Decrease"; value := p |}.

Definition set_to (col : string) (v : float) : Modifications :=
  {| column := col; change_type := "Set to Value"; value := v |}.

End Examples.

(** ** app/orchestrator.py: [Orchestrator.run_pipeline] *)

Module Pipeline.

Import Pandas Runtime Cleaner Profiler Orchestrator.
Local Open Scope string_scope.
Local Open Scope py_scope.

(** Clean, profile, analyze.  Nothing is caught here: an exception of any of
    the three steps leaves the function. *)
Definition run_pipeline (analyzer_chain : full_profile -> outcome string)
           (df : ref) : M (string * ref) :=
  cleaned_df <- clean_dataframe df ;;
  stats_json <- profile_of cleaned_df ;;
  insights_report <- invoke analyzer_chain stats_json ;;
  ret (insights_report, cleaned_df).

End Pipeline.

(** ** Inference_agent/inference_tools.py: the other tools of
    [InferenceToolSet] *)

Module InferenceTools.

Import Pandas Runtime Profiler.
Local Open Scope string_scope.
Local Open Scope py_scope.

(** [InferenceToolSet(df)]: the tool set keeps a copy of the frame,
    [self.df]. *)
Definition InferenceToolSet (df : ref) : M ref := copy df.

(** The dict a tool returns: a message, or its result. *)
Inductive statistics_result : Type :=
| StatisticsMessage (message : string)
| Statistics (stats : list (string * description)).

Inductive categorical_result : Type :=
| CategoricalMessage (message : string)
| CategoricalAnalysis (categorical_analysis : list (string * categorical)).

Definition get_basic_statistics (df : DataFrame) : statistics_result :=
  let numerical_cols := number_columns df in
  if (length numerical_cols =? 0)%nat
  then StatisticsMessage "No numerical columns found."
  else Statistics (dict_of describe_series numerical_cols).

Definition analyze_categorical_data (df : DataFrame) : categorical_result :=
  let categorical_cols := label_columns df in
  if (length categorical_cols =? 0)%nat
  then CategoricalMessage "No categorical columns found."
  else CategoricalAnalysis (dict_of analyze categorical_cols).

(** The tools as methods: they read [self.df]. *)
Definition get_basic_statistics_of (self_df : ref) : M statistics_result :=
  d <- deref self_df ;; ret (get_basic_statistics d).

Definition detect_outliers_of (self_df : ref) : M tool_result :=
  d <- deref self_df ;; ret (detect_outliers d).

Definition analyze_categorical_data_of (self_df : ref) : M categorical_result :=
  d <- deref self_df ;; ret (analyze_categorical_data d).

End InferenceTools.

(** ** app/orchestrator.py: the labels of a related variable in the report *)

Module Formatter.

Local Open Scope string_scope.

(** ["Strong" if abs(correlation) > 0.7 else "Moderate" if abs(correlation) >
    0.3 else "Weak"] *)
Definition correlation_strength (correlation : float) : string :=
  if (0.7 <? abs correlation)%float then "Strong"
  else if (0.3 <? abs correlation)%float then "Moderate"
  else "Weak".

(** ["positive" if correlation > 0 else "negative"] *)
Definition direction (correlation : float) : string :=
  if (0 <? correlation)%float then "positive" else "negative".

End Formatter.

(** ** app/app.py: the controls of the what-if tab *)

Module App.

Import Pandas Runtime Orchestrator.
Local Open Scope string_scope.

(** [cleaned_df.select_dtypes(include=['number']).columns.tolist()]: the
    columns the first select box offers. *)
Definition numerical_columns (cleaned_df : DataFrame) : list string :=
  map fst (number_columns cleaned_df).

(** The options of the second select box. *)
Definition change_types : list string :=
  ["Percentage Increase"; "Percentage Decrease"; "Set to Value"].

(** The [modifications] dict built when the button is pressed. *)
Definition modifications (selected_column change_type : string)
           (change_value : float) : Modifications :=
  {| column := selected_column;
     change_type := change_type;
     value := change_value |}.

End App.

(** ** Shapes

    What two columns have in common when one is the other with entries filled
    in or replaced. *)

Module Shape.

Import Pandas Orchestrator.

(** The number of rows of a column. *)
Definition rows (c : Series) : nat :=
  match c with
  | Number v => length v
  | Boolean v => length v
  | Object v | Category v => length v
  | Datetime v => length v
  end.

(** [c'] has the dtype of [c] and, row by row, every entry of [c] that is
    present. *)
Definition keeps_present (c c' : Series) : Prop :=
  match c, c' with
  | Number v, Number v' =>
    forall i x, nth_error v i = Some x -> isna x = false -> nth_error v' i = Some x
  | Boolean v, Boolean v' => v' = v
  | Object v, Object v' | Category v, Category v' =>
    forall i s, nth_error v i = Some (Some s) -> nth_error v' i = Some (Some s)
  | Datetime v, Datetime v' =>
    forall i s, nth_error v i = Some (Some s) -> nth_error v' i = Some (Some s)
  | _, _ => False
  end.

(** A column that is not numeric, has a missing entry and no present one:
    its mode does not exist. *)
Definition unfillable (c : Series) : bool :=
  negb (is_numeric_dtype c) && isnull_any c && negb (Spec.has_present c).

(** An impact entry with the sign of its estimate turned. *)
Definition negated (i : impact) : impact :=
  {| correlation := correlation i;
     estimated_impact := (- estimated_impact i)%float |}.

End Shape.

(* ================================================================== *)
(** * Part II: facts and theorems *)
(* ================================================================== *)

(** ** binary64 arithmetic

    Facts about the primitive operations, derived from their specification
    in [SpecFloat]. *)

Module FloatFacts.

Local Open Scope float_scope.

Lemma SFcompare_refl (s : spec_float) : s <> S754_nan -> SFcompare s s = Some Eq.
Proof.
  destruct s as [[]|[]| |[] m e]; simpl; intros H; try reflexivity; try congruence.
  - rewrite Z.compare_refl. now rewrite Pos.compare_cont_refl.
  - rewrite Z.compare_refl. now rewrite Pos.compare_cont_refl.
Qed.

Lemma is_nan_spec (x : float) : is_nan x = true <-> Prim2SF x = S754_nan.
Proof.
  unfold is_nan. rewrite eqb_spec. unfold SFeqb. split.
  - intros H. destruct (Prim2SF x) eqn:E; try reflexivity;
      rewrite SFcompare_refl in H by discriminate; discriminate.
  - intros ->. reflexivity.
Qed.

Lemma is_nan_eq (x : float) : is_nan x = true -> x = nan.
Proof.
  intros H. apply is_nan_spec in H. apply Prim2SF_inj. rewrite H. reflexivity.
Qed.

Lemma ltb_nan_l (x y : float) : is_nan x = true -> (x <? y) = false.
Proof.
  intros H. apply is_nan_spec in H. rewrite ltb_spec, H. reflexivity.
Qed.

Lemma ltb_nan_r (x y : float) : is_nan y = true -> (x <? y) = false.
Proof.
  intros H. apply is_nan_spec in H. rewrite ltb_spec, H. unfold SFltb.
  destruct (Prim2SF x); reflexivity.
Qed.

Lemma one_SF : Prim2SF 1 = S754_finite false 4503599627370496 (-52).
Proof. reflexivity. Qed.

Lemma shr_fexp_canonical m e :
  canonical_mantissa prec emax m e = true ->
  shr_fexp prec emax (Zpos m) e loc_Exact
  = ({| shr_m := Zpos m; shr_r := false; shr_s := false |}, e).
Proof.
  unfold canonical_mantissa, shr_fexp. intros H. apply Z.eqb_eq in H.
  simpl Zdigits2. rewrite H, Z.sub_diag. reflexivity.
Qed.

Lemma binary_round_aux_canonical s m e :
  bounded prec emax m e = true ->
  binary_round_aux prec emax s (Zpos m) e loc_Exact = S754_finite s m e.
Proof.
  unfold bounded. intros H. apply andb_true_iff in H as [Hc He].
  unfold binary_round_aux. rewrite (shr_fexp_canonical m e Hc). simpl.
  rewrite (shr_fexp_canonical m e Hc). simpl. 
  change (e <=? 971)%Z with (e <=? emax - prec)%Z. now rewrite He.
Qed.
Lemma digits_shift52 m :
  Zpos (digits2_pos (4503599627370496 * m)) = (Zpos (digits2_pos m) + 52)%Z.
Proof.
  cbn [Pos.mul digits2_pos]. lia.
Qed.

Lemma iter_shr_52 m :
  iter_pos shr_1 52 {| shr_m := Zpos (4503599627370496 * m); shr_r := false; shr_s := false |}
  = {| shr_m := Zpos m; shr_r := false; shr_s := false |}.
Proof. reflexivity. Qed.

Lemma shr_fexp_shift52 m e :
  canonical_mantissa prec emax m e = true ->
  shr_fexp prec emax (Zpos (m * 4503599627370496)) (e + -52) loc_Exact
  = ({| shr_m := Zpos m; shr_r := false; shr_s := false |}, e).
Proof.
  unfold canonical_mantissa, shr_fexp. intros H. apply Z.eqb_eq in H.
  rewrite Pos.mul_comm. unfold Zdigits2. rewrite digits_shift52.
  replace (Z.pos (digits2_pos m) + 52 + (e + -52))%Z with (Z.pos (digits2_pos m) + e)%Z by lia.
  rewrite H. replace (e - (e + -52))%Z with 52%Z by lia.
  unfold shr, shr_record_of_loc. rewrite iter_shr_52. f_equal. lia.
Qed.

Lemma mul_one_r (x : float) : x * 1 = x.
Proof.
  apply Prim2SF_inj. rewrite mul_spec, one_SF.
  pose proof (Prim2SF_valid x) as V.
  destruct (Prim2SF x) as [s|s| |s m e]; unfold SF64mul, SFmul;
    rewrite ?xorb_false_r; try reflexivity.
  simpl in V. pose proof V as B. unfold bounded in B. apply andb_true_iff in B as [Hc He].
  unfold binary_round_aux. rewrite (shr_fexp_shift52 m e Hc). simpl.
  rewrite (shr_fexp_canonical m e Hc). simpl.
  change (e <=? 971)%Z with (e <=? emax - prec)%Z. now rewrite He.
Qed.
Lemma is_nan_false (x : float) : is_nan x = false <-> Prim2SF x <> S754_nan.
Proof.
  rewrite <- is_nan_spec. destruct (is_nan x); split; congruence.
Qed.

Lemma is_finite_spec (x : float) :
  is_finite x = true ->
  (exists s, Prim2SF x = S754_zero s) \/
  (exists s m e, Prim2SF x = S754_finite s m e /\ bounded prec emax m e = true).
Proof.
  unfold is_finite. intros H. apply negb_true_iff, orb_false_iff in H as [Hn Hi].
  apply is_nan_false in Hn. unfold is_infinity in Hi.
  rewrite eqb_spec, abs_spec in Hi.
  pose proof (Prim2SF_valid x) as V.
  destruct (Prim2SF x) as [s|s| |s m e]; try congruence.
  - left. now exists s.
  - destruct s; discriminate.
  - right. exists s, m, e. split; [reflexivity | exact V].
Qed.

Lemma sub_diag_finite (x : float) : is_finite x = true -> x - x = 0.
Proof.
  intros H. apply Prim2SF_inj. rewrite sub_spec.
  destruct (is_finite_spec x H) as [[s ->] | (s & m & e & -> & _)].
  - destruct s; reflexivity.
  - unfold SF64sub, SFsub. rewrite Z.min_id. unfold shl_align.
    rewrite Z.sub_diag. reflexivity.
Qed.

Lemma zero_div_finite (y : float) :
  is_finite y = true -> (y =? 0) = false -> 0 / abs y = 0.
Proof.
  intros H Hz. apply Prim2SF_inj. rewrite div_spec, abs_spec.
  rewrite eqb_spec in Hz.
  destruct (is_finite_spec y H) as [[s E] | (s & m & e & E & _)]; rewrite E in *.
  - destruct s; discriminate.
  - reflexivity.
Qed.

Lemma percentage_of_no_change (x : float) :
  is_finite x = true ->
  (if negb (x =? 0) then (x - x) / abs x * 100 else 0) = 0.
Proof.
  intros H. destruct (x =? 0) eqn:E; [reflexivity|]. cbn [negb].
  rewrite (sub_diag_finite x H), (zero_div_finite x H E). reflexivity.
Qed.

(** Rounding a non-negative mantissa never yields NaN. *)
Lemma shr_1_nonneg mrs : (0 <= shr_m mrs)%Z -> (0 <= shr_m (shr_1 mrs))%Z.
Proof.
  destruct mrs as [m r s]. cbn [shr_m]. intros H.
  destruct m as [|[p|p|]|p]; cbn; lia.
Qed.

Lemma iter_shr_1_nonneg p : forall mrs,
  (0 <= shr_m mrs)%Z -> (0 <= shr_m (iter_pos shr_1 p mrs))%Z.
Proof.
  induction p as [p IH|p IH|]; intros mrs H; cbn [iter_pos].
  - apply IH, IH, shr_1_nonneg, H.
  - apply IH, IH, H.
  - apply shr_1_nonneg, H.
Qed.

Lemma shr_fexp_nonneg m e l :
  (0 <= m)%Z -> (0 <= shr_m (fst (shr_fexp prec emax m e l)))%Z.
Proof.
  intros H. unfold shr_fexp, shr.
  assert (H0 : (0 <= shr_m (shr_record_of_loc m l))%Z)
    by (destruct l as [|[]]; exact H).
  destruct (fexp prec emax (Zdigits2 m + e) - e)%Z; cbn [fst]; try exact H0.
  now apply iter_shr_1_nonneg.
Qed.

Lemma round_nearest_even_nonneg m l : (0 <= m)%Z -> (0 <= round_nearest_even m l)%Z.
Proof.
  intros H. destruct l as [|[]]; cbn; try lia. destruct (Z.even m); lia.
Qed.

Lemma binary_round_aux_not_nan s m e l :
  (0 <= m)%Z -> binary_round_aux prec emax s m e l <> S754_nan.
Proof.
  intros H. unfold binary_round_aux.
  pose proof (shr_fexp_nonneg m e l H) as H1.
  destruct (shr_fexp prec emax m e l) as [mrs' e']. cbn [fst] in H1.
  pose proof (shr_fexp_nonneg _ e' loc_Exact
                (round_nearest_even_nonneg _ (loc_of_shr_record mrs') H1)) as H2.
  destruct (shr_fexp prec emax _ e' loc_Exact) as [mrs'' e'']. cbn [fst] in H2.
  destruct (shr_m mrs'') as [|q|q]; try discriminate; try lia.
  destruct (e'' <=? emax - prec)%Z; discriminate.
Qed.

Lemma binary_normalize_not_nan m e sz :
  binary_normalize prec emax m e sz <> S754_nan.
Proof.
  unfold binary_normalize, binary_round.
  destruct m as [|p|p]; try discriminate.
  - destruct (shl_align p e _) as [mz ez]. apply binary_round_aux_not_nan. lia.
  - destruct (shl_align p e _) as [mz ez]. apply binary_round_aux_not_nan. lia.
Qed.

Lemma add_finite_not_nan (a b : float) :
  is_finite a = true -> is_finite b = true -> is_nan (a + b) = false.
Proof.
  intros Ha Hb. apply is_nan_false. rewrite add_spec.
  destruct (is_finite_spec a Ha) as [[s ->] | (s & m & e & -> & _)];
    destruct (is_finite_spec b Hb) as [[s' ->] | (s' & m' & e' & -> & _)].
  - destruct s, s'; discriminate.
  - discriminate.
  - discriminate.
  - apply binary_normalize_not_nan.
Qed.

Lemma two_SF : Prim2SF 2 = S754_finite false 4503599627370496 (-51).
Proof. reflexivity. Qed.

Lemma div_two_not_nan (x : float) : is_nan x = false -> is_nan (x / 2) = false.
Proof.
  intros H. apply is_nan_false in H. apply is_nan_false.
  rewrite div_spec, two_SF.
  destruct (Prim2SF x) as [s|s| |s m e]; try discriminate; try congruence.
  unfold SF64div, SFdiv, SFdiv_core_binary.
  set (m' := match _ with Zpos _ => _ | Z0 => _ | Zneg _ => _ end).
  assert (Hm : (0 <= m')%Z).
  { subst m'. destruct (_ - _ - _)%Z; try lia. apply Z.shiftl_nonneg. lia. }
  pose proof (Z_div_mod m' 4503599627370496 eq_refl) as D.
  destruct (Z.div_eucl m' 4503599627370496) as [q r].
  apply binary_round_aux_not_nan. nia.
Qed.

End FloatFacts.
(** ** Frames, dicts and the store *)

Module FrameFacts.

Import Pandas Runtime.
Local Open Scope string_scope.
Local Open Scope list_scope.

Lemma getitem_app_skip (pre rest : DataFrame) (n : string) :
  ~ In n (columns pre) -> getitem (pre ++ rest) n = getitem rest n.
Proof.
  induction pre as [|[n0 c0] pre IH]; cbn; intros H; [reflexivity|].
  destruct (String.eqb_spec n n0) as [->|Hne]; [tauto|].
  apply IH. tauto.
Qed.

Lemma setitem_app_skip (pre rest : DataFrame) (n : string) (c : Series) :
  ~ In n (columns pre) -> setitem (pre ++ rest) n c = pre ++ setitem rest n c.
Proof.
  induction pre as [|[n0 c0] pre IH]; cbn; intros H; [reflexivity|].
  destruct (String.eqb_spec n n0) as [->|Hne]; [tauto|].
  f_equal. apply IH. tauto.
Qed.

Lemma getitem_In (df : DataFrame) (n : string) (c : Series) :
  getitem df n = Some c -> In (n, c) df.
Proof.
  induction df as [|[n0 c0] df IH]; cbn; [discriminate|].
  destruct (String.eqb_spec n n0) as [->|Hne].
  - intros [= ->]. now left.
  - intros H. right. now apply IH.
Qed.

Lemma In_getitem (df : DataFrame) (n : string) (c : Series) :
  NoDup (columns df) -> In (n, c) df -> getitem df n = Some c.
Proof.
  induction df as [|[n0 c0] df IH]; cbn; intros ND H; [tauto|].
  inversion ND as [|? ? Hnotin ND']; subst.
  destruct H as [[= -> ->]|H].
  - now rewrite String.eqb_refl.
  - destruct (String.eqb_spec n n0) as [->|Hne].
    + exfalso. apply Hnotin. change n0 with (fst (n0, c)). now apply in_map.
    + now apply IH.
Qed.

Lemma has_column_getitem (df : DataFrame) (n : string) :
  existsb (String.eqb n) (columns df) = false <-> getitem df n = None.
Proof.
  induction df as [|[n0 c0] df IH]; cbn; [tauto|].
  destruct (n =? n0); cbn; [split; discriminate | exact IH].
Qed.

Lemma getitem_setitem_same (df : DataFrame) (n : string) (c : Series) :
  getitem (setitem df n c) n = Some c.
Proof.
  induction df as [|[n0 c0] df IH]; cbn.
  - now rewrite String.eqb_refl.
  - destruct (String.eqb_spec n n0) as [->|Hne]; cbn.
    + now rewrite String.eqb_refl.
    + destruct (String.eqb_spec n n0); [contradiction | exact IH].
Qed.

Lemma getitem_setitem_other (df : DataFrame) (n n' : string) (c : Series) :
  n' <> n -> getitem (setitem df n c) n' = getitem df n'.
Proof.
  intros Hne. induction df as [|[n0 c0] df IH]; cbn.
  - destruct (String.eqb_spec n' n); [contradiction | reflexivity].
  - destruct (String.eqb_spec n n0) as [->|Hn]; cbn.
    + destruct (String.eqb_spec n' n0); [contradiction | reflexivity].
    + destruct (n' =? n0); [reflexivity | exact IH].
Qed.

Lemma setitem_same (df : DataFrame) (n : string) (c : Series) :
  getitem df n = Some c -> setitem df n c = df.
Proof.
  induction df as [|[n0 c0] df IH]; cbn; [discriminate|].
  destruct (String.eqb_spec n n0) as [->|Hne].
  - now intros [= ->].
  - intros H. f_equal. now apply IH.
Qed.

Lemma columns_setitem (df : DataFrame) (n : string) (c c' : Series) :
  getitem df n = Some c -> columns (setitem df n c') = columns df.
Proof.
  induction df as [|[n0 c0] df IH]; cbn; [discriminate|].
  destruct (String.eqb_spec n n0) as [->|Hne]; cbn; [reflexivity|].
  intros H. f_equal. now apply IH.
Qed.

(** The store. *)

Lemma replace_nth_same {A : Type} (l : list A) (n : nat) (x : A) :
  nth_error l n = Some x -> replace_nth n x l = l.
Proof.
  revert n. induction l as [|y l IH]; intros [|n]; cbn; try discriminate.
  - now intros [= ->].
  - intros H. f_equal. now apply IH.
Qed.

Lemma replace_nth_last {A : Type} (l : list A) (x y : A) :
  replace_nth (length l) y (l ++ [x]) = l ++ [y].
Proof.
  induction l as [|z l IH]; cbn; [reflexivity | now rewrite IH].
Qed.

Lemma nth_error_last {A : Type} (l : list A) (x : A) :
  nth_error (l ++ [x]) (length l) = Some x.
Proof.
  rewrite nth_error_app2 by lia. now rewrite Nat.sub_diag.
Qed.

Lemma nth_error_old {A : Type} (l l' : list A) (n : nat) (x : A) :
  nth_error l n = Some x -> nth_error (l ++ l') n = Some x.
Proof.
  intros H. rewrite nth_error_app1; [exact H|].
  apply nth_error_Some. congruence.
Qed.

Lemma nth_error_below {A : Type} (l l' : list A) (n : nat) :
  n < length l -> nth_error (l ++ l') n = nth_error l n.
Proof. intros H. now apply nth_error_app1. Qed.

End FrameFacts.
(** ** The cleaner *)

Module CleanerFacts.

Import Pandas Runtime Cleaner Spec FloatFacts FrameFacts.
Local Open Scope string_scope.
Local Open Scope list_scope.

(** *** Most frequent value *)

Section ModeFacts.
Context {A : Type}.
Variable eqb : A -> A -> bool.
Variable leb : A -> A -> bool.

Lemma max_attained (base l : list A) :
  l <> [] ->
  exists x, In x l /\
    occurrences eqb x base
    = fold_right (fun x m => Nat.max (occurrences eqb x base) m) O l.
Proof.
  induction l as [|x l IH]; [congruence|]. intros _. cbn [fold_right].
  destruct l as [|y l].
  - exists x. split; [now left | cbn; lia].
  - destruct IH as (z & Hz & E); [discriminate|].
    set (M := fold_right _ _ (y :: l)) in *.
    destruct (Nat.le_ge_cases (occurrences eqb x base) M) as [Hle|Hge].
    + exists z. split; [now right | lia].
    + exists x. split; [now left | lia].
Qed.

Lemma mode_first_Some (v : list A) :
  v <> [] -> exists m, mode_first eqb leb v = Some m.
Proof.
  intros H. destruct (max_attained v v H) as (x & Hx & E).
  unfold mode_first.
  destruct (filter _ v) as [|y rest] eqn:F.
  - exfalso.
    assert (Hin : In x (filter (fun x => (occurrences eqb x v =? max_occurrences eqb v)%nat) v)).
    { apply filter_In. split; [exact Hx|]. apply Nat.eqb_eq. exact E. }
    rewrite F in Hin. exact Hin.
  - eauto.
Qed.
End ModeFacts.

Lemma present_nonempty {A : Type} (v : list (option A)) :
  existsb (fun e => negb (isnull e)) v = true -> present v <> [].
Proof.
  induction v as [|[x|] v IH]; cbn; try discriminate. exact IH.
Qed.

Lemma fill_no_missing {A : Type} (m : A) (v : list (option A)) :
  existsb isnull v = false -> fill m v = v.
Proof.
  induction v as [|[x|] v IH]; cbn; try discriminate; [reflexivity|].
  intros H. f_equal. now apply IH.
Qed.

Lemma fill_complete {A : Type} (m : A) (v : list (option A)) :
  existsb isnull (fill m v) = false.
Proof.
  induction v as [|[x|] v IH]; cbn; auto.
Qed.

Lemma fillna_no_missing (m : float) (v : list float) :
  existsb isna v = false -> map (fun x => if isna x then m else x) v = v.
Proof.
  induction v as [|x v IH]; cbn; [reflexivity|].
  intros H. apply orb_false_iff in H as [Hx Hv]. rewrite Hx. f_equal. now apply IH.
Qed.

Lemma fillna_complete (m : float) (v : list float) :
  isna m = false -> existsb isna (map (fun x => if isna x then m else x) v) = false.
Proof.
  intros Hm. induction v as [|x v IH]; cbn; [reflexivity|].
  rewrite IH, orb_false_r. destruct (isna x) eqn:E; [exact Hm | exact E].
Qed.

(** Columns without a missing entry are left as they are. *)
Lemma imputed_unchanged (c : Series) : isnull_any c = false -> imputed c = c.
Proof.
  destruct c as [v|v|v|v|v]; cbn; intros H.
  - now rewrite fillna_no_missing.
  - reflexivity.
  - destruct (mode_first _ _ _); [now rewrite fill_no_missing | reflexivity].
  - destruct (mode_first _ _ _); [now rewrite fill_no_missing | reflexivity].
  - destruct (mode_first _ _ _); [now rewrite fill_no_missing | reflexivity].
Qed.

Lemma mode0_fillna (c : Series) :
  is_numeric_dtype c = false -> has_present c = true ->
  exists m, mode0 c = Some m /\ fillna c m = imputed c.
Proof.
  destruct c as [v|v|v|v|v]; cbn; try discriminate; intros _ H;
    apply present_nonempty in H.
  - destruct (mode_first_Some String.eqb String.leb _ H) as [m E].
    rewrite E. cbn. eauto.
  - destruct (mode_first_Some String.eqb String.leb _ H) as [m E].
    rewrite E. cbn. eauto.
  - destruct (mode_first_Some Z.eqb Z.leb _ H) as [m E].
    rewrite E. cbn. eauto.
Qed.

(** *** One pass of the loop *)

Lemma clean_column_run (Fs : list DataFrame) (C : list event) (r : ref)
      (d : DataFrame) (n : string) (c : Series) :
  nth_error Fs r = Some d -> getitem d n = Some c -> fillable c ->
  exists C',
    clean_column r n {| frames := Fs; calls := C |}
    = (Ok tt, {| frames := replace_nth r (setitem d n (imputed c)) Fs;
                 calls := C' |}).
Proof.
  intros HF Hg Hfill.
  unfold clean_column, bind, column_of, bind, deref, frame_at. cbn [frames].
  rewrite HF, Hg. cbn [ret].
  destruct (isnull_any c) eqn:Hnull.
  - destruct (is_numeric_dtype c) eqn:Hnum.
    + destruct c as [v|v|v|v|v]; try discriminate.
      unfold reduce, bind, column_of, bind, deref, frame_at, fillna_inplace,
        bind, column_of, assign, bind, deref, frame_at, store, log, ret.
      cbn [frames calls]. rewrite HF, Hg. cbn [to_float frames calls].
      rewrite HF, Hg. cbn. rewrite HF. eauto.
    + destruct (mode0_fillna c Hnum (Hfill Hnum Hnull)) as (m & Em & Ef).
      unfold mode_of, bind, column_of, bind, deref, frame_at, fillna_inplace,
        bind, column_of, assign, bind, deref, frame_at, store, log, ret.
      cbn [frames calls]. rewrite HF, Hg. cbn [frames calls]. rewrite Em.
      cbn [frames calls]. rewrite HF, Hg. cbn [frames calls]. rewrite HF, Ef. eauto.
  - exists C. rewrite (imputed_unchanged c Hnull), (setitem_same d n c Hg).
    now rewrite (replace_nth_same Fs r d HF).
Qed.

Lemma columns_imputed_frame (d : DataFrame) : columns (imputed_frame d) = columns d.
Proof.
  unfold imputed_frame, columns. rewrite map_map. reflexivity.
Qed.

(** The loop over the columns that remain, [post], when those before them,
    [pre], are done. *)
Lemma clean_loop (F : list DataFrame) (post : DataFrame) :
  forall (pre : DataFrame) (C : list event),
    NoDup (columns (pre ++ post)) ->
    (forall n c, In (n, c) post -> fillable c) ->
    exists C',
      for_each (columns post) (clean_column (length F))
               {| frames := F ++ [imputed_frame pre ++ post]; calls := C |}
      = (Ok tt, {| frames := F ++ [imputed_frame (pre ++ post)]; calls := C' |}).
Proof.
  induction post as [|[n c] post IH]; intros pre C ND Hfill.
  - exists C. cbn. now rewrite !app_nil_r.
  - cbn [columns map fst for_each]. unfold bind.
    assert (Hnotin : ~ In n (columns (imputed_frame pre))).
    { rewrite columns_imputed_frame. unfold columns in *. rewrite map_app in ND.
      cbn in ND. apply NoDup_remove_2 in ND. intros Hin. apply ND.
      apply in_or_app. now left. }
    assert (Hg : getitem (imputed_frame pre ++ (n, c) :: post) n = Some c).
    { rewrite getitem_app_skip by exact Hnotin. cbn. now rewrite String.eqb_refl. }
    destruct (clean_column_run (F ++ [imputed_frame pre ++ (n, c) :: post]) C
                (length F) _ n c (nth_error_last F _) Hg) as [C1 E].
    { apply (Hfill n c). now left. }
    rewrite E. rewrite replace_nth_last.
    rewrite setitem_app_skip by exact Hnotin. cbn [setitem].
    rewrite String.eqb_refl.
    specialize (IH (pre ++ [(n, c)]) C1).
    replace (imputed_frame pre ++ (n, imputed c) :: post)
      with (imputed_frame (pre ++ [(n, c)]) ++ post).
    2:{ unfold imputed_frame. rewrite map_app. cbn. now rewrite <- app_assoc. }
    rewrite <- app_assoc in IH. cbn [app] in IH.
    apply IH; [exact ND|].
    intros n' c' Hin. apply (Hfill n' c'). now right.
Qed.

(** What [clean_dataframe] does to the store: one new frame, the input with
    every column imputed. *)
Lemma clean_dataframe_run (F : list DataFrame) (C : list event) (r : ref)
      (df : DataFrame) :
  nth_error F r = Some df ->
  NoDup (columns df) ->
  (forall n c, In (n, c) df -> fillable c) ->
  exists C',
    clean_dataframe r {| frames := F; calls := C |}
    = (Ok (length F), {| frames := F ++ [imputed_frame df]; calls := C' |}).
Proof.
  intros HF ND Hfill.
  unfold clean_dataframe, bind, copy, bind, deref, frame_at. cbn [frames].
  rewrite HF. cbn [frames calls].
  unfold columns_of, bind, deref, frame_at. cbn [frames].
  rewrite nth_error_last. cbn [ret].
  destruct (clean_loop F df [] C ND Hfill) as [C' E].
  change (imputed_frame [] ++ df) with df in E. unfold DataFrame in *.
  rewrite E. exists C'. reflexivity.
Qed.

End CleanerFacts.

Module CleanerTheorems.

Import Pandas Runtime Cleaner Spec FloatFacts FrameFacts CleanerFacts.
Local Open Scope string_scope.
Local Open Scope list_scope.

(** *** The median of finite entries *)

Lemma insert_sorted_In (x y : float) (s : list float) :
  In x (insert_sorted y s) -> x = y \/ In x s.
Proof.
  induction s as [|z s IH]; cbn.
  - intros [->|[]]. now left.
  - destruct (y <=? z)%float; cbn.
    + intros [->|H]; [now left | now right].
    + intros [->|H]; [right; now left|].
      destruct (IH H) as [->|H']; [now left | right; now right].
Qed.

Lemma sort_values_In (x : float) (v : list float) :
  In x (sort_values v) -> In x v.
Proof.
  unfold sort_values. induction v as [|y v IH]; cbn; [tauto|].
  intros H. destruct (insert_sorted_In _ _ _ H) as [->|H']; [now left|].
  right. now apply IH.
Qed.

Lemma length_insert_sorted (y : float) (s : list float) :
  length (insert_sorted y s) = S (length s).
Proof.
  induction s as [|z s IH]; cbn; [reflexivity|].
  destruct (y <=? z)%float; cbn; [reflexivity | now rewrite IH].
Qed.

Lemma length_sort_values (v : list float) : length (sort_values v) = length v.
Proof.
  unfold sort_values. induction v as [|y v IH]; cbn; [reflexivity|].
  now rewrite length_insert_sorted, IH.
Qed.

Lemma is_finite_not_nan (x : float) : is_finite x = true -> is_nan x = false.
Proof.
  unfold is_finite. intros H. apply negb_true_iff, orb_false_iff in H. tauto.
Qed.

Lemma median_not_nan (v : list float) :
  Forall (fun x => finite_or_missing x = true) v ->
  existsb notna v = true ->
  isna (median v) = false.
Proof.
  intros Hfin Hex. unfold median.
  set (s := sort_values (dropna v)).
  assert (Hs : forall x, In x s -> is_finite x = true).
  { intros x Hx. apply sort_values_In in Hx. apply filter_In in Hx as [Hx Hn].
    rewrite Forall_forall in Hfin. specialize (Hfin x Hx).
    unfold finite_or_missing in Hfin. unfold notna in Hn.
    destruct (isna x); [discriminate | exact Hfin]. }
  assert (Hlen : length s <> O).
  { subst s. rewrite length_sort_values. unfold dropna.
    apply existsb_exists in Hex as (x & Hx & Hn).
    assert (Hin : In x (filter notna v)) by (apply filter_In; tauto).
    destruct (filter notna v); [contradiction | discriminate]. }
  destruct (length s) as [|k] eqn:E; [congruence|]. clear Hlen.
  assert (Hnth : forall i, i < S k -> is_finite (nth i s nan) = true).
  { intros i Hi. apply Hs, nth_In. lia. }
  assert (Hhalf : S k / 2 < S k) by (apply Nat.div_lt; lia).
  destruct (Nat.even (S k)).
  - apply div_two_not_nan, add_finite_not_nan; apply Hnth; lia.
  - apply is_finite_not_nan, Hnth, Hhalf.
Qed.

Lemma median_all_missing (v : list float) :
  forallb isna v = true -> median v = nan.
Proof.
  intros H. unfold median.
  assert (E : dropna v = []).
  { induction v as [|x v IH]; cbn in *; [reflexivity|].
    apply andb_true_iff in H as [Hx Hv]. unfold notna. rewrite Hx. cbn. now apply IH. }
  rewrite E. reflexivity.
Qed.

Lemma fillna_all_missing (v : list float) :
  forallb isna v = true ->
  map (fun x => if isna x then median v else x) v = v.
Proof.
  intros H. rewrite (median_all_missing v H).
  clear H. induction v as [|x v IH]; cbn; [reflexivity|].
  rewrite IH. destruct (isna x) eqn:E; [|reflexivity].
  now rewrite (is_nan_eq x E).
Qed.

Lemma getitem_imputed_frame (df : DataFrame) (n : string) :
  getitem (imputed_frame df) n = option_map imputed (getitem df n).
Proof.
  induction df as [|[n0 c0] df IH]; cbn; [reflexivity|].
  destruct (n =? n0); [reflexivity | exact IH].
Qed.

(** After imputation no entry is missing, when numeric entries are finite
    and every column with a missing entry has a present one. *)
Lemma imputed_complete (c : Series) :
  finite_column c ->
  (isnull_any c = true -> has_present c = true) ->
  isnull_any (imputed c) = false.
Proof.
  intros Hfin Hp. destruct (isnull_any c) eqn:Hnull.
  2:{ now rewrite imputed_unchanged. }
  specialize (Hp eq_refl).
  destruct c as [v|v|v|v|v]; cbn in *.
  - apply fillna_complete, median_not_nan; assumption.
  - discriminate.
  - apply present_nonempty in Hp.
    destruct (mode_first_Some String.eqb String.leb _ Hp) as [m ->].
    apply fill_complete.
  - apply present_nonempty in Hp.
    destruct (mode_first_Some String.eqb String.leb _ Hp) as [m ->].
    apply fill_complete.
  - apply present_nonempty in Hp.
    destruct (mode_first_Some Z.eqb Z.leb _ Hp) as [m ->].
    apply fill_complete.
Qed.

(** *** The store after [clean_dataframe] *)

Lemma frame_at_fresh (F : list DataFrame) (C : list event) :
  frame_at {| frames := F; calls := C |} (length F) = None.
Proof. unfold frame_at. cbn. apply nth_error_None. lia. Qed.

(** C7 (as amended).  For every dataset in which numeric entries are finite
    or missing and no column with a missing entry is entirely missing,
    [clean_dataframe] returns a new frame without missing values: each column
    is the input column with its missing entries replaced by the column's
    median over the present entries (numeric) or by its most frequent present
    value, the least one on ties (otherwise); a column without missing values
    is unchanged; the input frame and every other frame of the store stay as
    they were. *)
Theorem clean_dataframe_imputes (w : world) (r : ref) (df : DataFrame) :
  frame_at w r = Some df ->
  NoDup (columns df) ->
  (forall n c, In (n, c) df -> finite_column c) ->
  (forall n c, In (n, c) df -> isnull_any c = true -> has_present c = true) ->
  exists (r' : ref) (w' : world),
    clean_dataframe r w = (Ok r', w')
    /\ frame_at w r' = None
    /\ frame_at w' r = Some df
    /\ (forall r0 d, frame_at w r0 = Some d -> frame_at w' r0 = Some d)
    /\ frame_at w' r' = Some (imputed_frame df)
    /\ (forall n c, In (n, c) (imputed_frame df) -> isnull_any c = false)
    /\ (forall n c, getitem df n = Some c ->
                    getitem (imputed_frame df) n = Some (imputed c))
    /\ (forall n c, In (n, c) df -> isnull_any c = false -> imputed c = c).
Proof.
  destruct w as [F C]. unfold frame_at at 1. cbn [frames].
  intros HF ND Hfin Hpresent.
  destruct (clean_dataframe_run F C r df HF ND) as [C' E].
  { intros n c Hin _ Hnull. now apply (Hpresent n c). }
  exists (length F), {| frames := F ++ [imputed_frame df]; calls := C' |}.
  split; [exact E|]. split; [apply frame_at_fresh|].
  assert (Hold : forall r0 d, frame_at {| frames := F; calls := C |} r0 = Some d ->
                 frame_at {| frames := F ++ [imputed_frame df]; calls := C' |} r0 = Some d).
  { unfold frame_at. cbn [frames]. intros r0 d H. now apply nth_error_old. }
  split; [now apply Hold|]. split; [exact Hold|].
  split; [unfold frame_at; cbn [frames]; apply nth_error_last|].
  split; [|split].
  - intros n c Hin. unfold imputed_frame in Hin. apply in_map_iff in Hin as ([n0 c0] & [= <- <-] & Hin).
    apply imputed_complete; [now apply (Hfin n0) | now apply (Hpresent n0)].
  - intros n c Hg. now rewrite getitem_imputed_frame, Hg.
  - intros n c _ Hnull. now apply imputed_unchanged.
Qed.

(** C10 (as amended).  For every dataset with a numeric column [name] all of
    whose entries are missing, and in which no column that is not numeric
    has a missing entry without having a present one, [clean_dataframe]
    returns normally; the median of the column is itself missing, and the
    column is in the result as it was, entirely missing. *)
Theorem clean_dataframe_all_missing_numeric
        (w : world) (r : ref) (df : DataFrame) (name : string) (v : list float) :
  frame_at w r = Some df ->
  NoDup (columns df) ->
  getitem df name = Some (Number v) ->
  forallb isna v = true ->
  (forall n c, In (n, c) df -> is_numeric_dtype c = false ->
               isnull_any c = true -> has_present c = true) ->
  exists (r' : ref) (w' : world) (df' : DataFrame),
    clean_dataframe r w = (Ok r', w')
    /\ isna (median v) = true
    /\ frame_at w' r' = Some df'
    /\ getitem df' name = Some (Number v).
Proof.
  destruct w as [F C]. unfold frame_at at 1. cbn [frames].
  intros HF ND Hg Hall Hfill.
  destruct (clean_dataframe_run F C r df HF ND Hfill) as [C' E].
  exists (length F), {| frames := F ++ [imputed_frame df]; calls := C' |},
    (imputed_frame df).
  split; [exact E|]. split; [now rewrite median_all_missing|].
  split; [unfold frame_at; cbn [frames]; apply nth_error_last|].
  rewrite getitem_imputed_frame, Hg. cbn. now rewrite fillna_all_missing.
Qed.

End CleanerTheorems.

(** ** The profiler *)

Module ProfilerFacts.

Import Pandas Runtime Profiler Spec FloatFacts FrameFacts.
Local Open Scope string_scope.
Local Open Scope list_scope.

(** *** Python dicts *)

Lemma dict_set_fresh {V : Type} (d : list (string * V)) (k : string) (x : V) :
  ~ In k (keys d) -> dict_set d k x = d ++ [(k, x)].
Proof.
  induction d as [|[k0 x0] d IH]; cbn; intros H; [reflexivity|].
  destruct (String.eqb_spec k k0) as [->|Hne]; [tauto|].
  f_equal. apply IH. tauto.
Qed.

(** A dict filled from items with distinct keys holds the items in order. *)
Lemma fold_dict_set {A V : Type} (key : A -> string) (val : A -> V)
      (keep : A -> bool) (l : list A) :
  forall acc : list (string * V),
    NoDup (keys acc ++ map key l) ->
    fold_left (fun d a => if keep a then dict_set d (key a) (val a) else d) l acc
    = acc ++ map (fun a => (key a, val a)) (filter keep l).
Proof.
  induction l as [|a l IH]; intros acc ND; cbn.
  - now rewrite app_nil_r.
  - cbn in ND. destruct (keep a) eqn:K.
    + rewrite dict_set_fresh.
      2:{ apply NoDup_remove_2 in ND. intros Hin. apply ND, in_or_app. now left. }
      rewrite IH.
      * cbn. now rewrite <- app_assoc.
      * unfold keys. rewrite map_app. cbn. rewrite <- app_assoc. exact ND.
    + apply IH. now apply NoDup_remove_1 in ND.
Qed.

Lemma dict_of_map {V W : Type} (f : V -> W) (cols : list (string * V)) :
  NoDup (map fst cols) ->
  dict_of f cols = map (fun nc => (fst nc, f (snd nc))) cols.
Proof.
  intros ND. unfold dict_of.
  rewrite (fold_dict_set fst (fun nc => f (snd nc)) (fun _ => true) cols []).
  - cbn. f_equal. clear ND. induction cols; cbn; congruence.
  - exact ND.
Qed.

Lemma dict_get_map {V W : Type} (f : V -> W) (cols : list (string * V))
      (k : string) (x : V) :
  NoDup (map fst cols) -> In (k, x) cols ->
  dict_get (map (fun nc => (fst nc, f (snd nc))) cols) k = Some (f x).
Proof.
  induction cols as [|[k0 x0] cols IH]; cbn; intros ND H; [tauto|].
  inversion ND as [|? ? Hnotin ND']; subst.
  destruct H as [[= -> ->]|H].
  - now rewrite String.eqb_refl.
  - destruct (String.eqb_spec k k0) as [->|Hne].
    + exfalso. apply Hnotin. change k0 with (fst (k0, x)). now apply in_map.
    + now apply IH.
Qed.

Lemma keys_map {V W : Type} (f : V -> W) (cols : list (string * V)) :
  keys (map (fun nc => (fst nc, f (snd nc))) cols) = map fst cols.
Proof. unfold keys. rewrite map_map. reflexivity. Qed.

(** *** Selection by dtype *)

Lemma number_columns_names (df : DataFrame) :
  map fst (number_columns df) = columns (select_dtypes is_number df).
Proof.
  induction df as [|[n c] df IH]; [reflexivity|].
  destruct c; cbn; rewrite ?IH; reflexivity.
Qed.

Lemma label_columns_names (df : DataFrame) :
  map fst (label_columns df) = columns (select_dtypes is_object_or_category df).
Proof.
  induction df as [|[n c] df IH]; [reflexivity|].
  destruct c; cbn; rewrite ?IH; reflexivity.
Qed.

Lemma In_number_columns (df : DataFrame) (n : string) (v : list float) :
  In (n, v) (number_columns df) <-> In (n, Number v) df.
Proof.
  induction df as [|[n0 c0] df IH]; cbn; [tauto|].
  destruct c0; cbn; rewrite IH; split;
    try (intros [H|H]; [inversion H; subst; now left | now right]);
    try (intros H; now right);
    intros [H|H]; try discriminate; exact H.
Qed.

Lemma In_select_dtypes (include : Series -> bool) (df : DataFrame) (n : string) :
  In n (columns (select_dtypes include df))
  <-> exists c, In (n, c) df /\ include c = true.
Proof.
  unfold columns, select_dtypes. rewrite in_map_iff. split.
  - intros ([n0 c] & <- & H). apply filter_In in H. exists c. exact H.
  - intros (c & H & I). exists (n, c). split; [reflexivity|].
    apply filter_In. split; assumption.
Qed.

Lemma NoDup_select_dtypes (include : Series -> bool) (df : DataFrame) :
  NoDup (columns df) -> NoDup (columns (select_dtypes include df)).
Proof.
  induction df as [|[n c] df IH]; cbn; intros ND; [constructor|].
  inversion ND as [|? ? Hnotin ND']; subst.
  destruct (include c); cbn; [|now apply IH].
  constructor; [|now apply IH].
  intros Hin. apply Hnotin. apply In_select_dtypes in Hin as (c' & H & _).
  change n with (fst (n, c')). now apply in_map.
Qed.

Lemma selected_iff (include : Series -> bool) (df : DataFrame) (n : string)
      (c : Series) :
  NoDup (columns df) -> getitem df n = Some c ->
  (In n (columns (select_dtypes include df)) <-> include c = true).
Proof.
  intros ND Hg. rewrite In_select_dtypes. split.
  - intros (c' & Hin & I). apply (In_getitem df n c' ND) in Hin. congruence.
  - intros I. exists c. split; [now apply getitem_In | exact I].
Qed.

(** *** The outlier loop *)

Lemma length_filter_map {A : Type} (f : A -> bool) (l : list A) :
  length (filter (fun b : bool => b) (map f l)) = length (filter f l).
Proof.
  induction l as [|x l IH]; cbn; [reflexivity|].
  destruct (f x); cbn; now rewrite IH.
Qed.

(** Missing entries are on neither side of a fence. *)
Lemma filter_fences_dropna (lo hi : float) (v : list float) :
  filter (fun x => (x <? lo) || (hi <? x))%float v
  = filter (fun x => (x <? lo) || (hi <? x))%float (dropna v).
Proof.
  induction v as [|x v IH]; cbn; [reflexivity|].
  unfold notna, isna. destruct (is_nan x) eqn:E; cbn.
  - now rewrite (ltb_nan_l x lo E), (ltb_nan_r hi x E).
  - now rewrite IH.
Qed.

Lemma dropna_idempotent (v : list float) : dropna (dropna v) = dropna v.
Proof.
  unfold dropna. induction v as [|x v IH]; cbn; [reflexivity|].
  destruct (notna x) eqn:E; cbn; rewrite ?E, IH; reflexivity.
Qed.

Lemma quantile_dropna (q : float) (v : list float) :
  quantile q (dropna v) = quantile q v.
Proof. unfold quantile. now rewrite dropna_idempotent. Qed.

Lemma profile_ok (df : DataFrame) :
  NoDup (columns df) ->
  number_columns df <> [] ->
  profile_dataframe df
  = Ok {| basic_statistics :=
            map (fun nc => (fst nc, describe_series (snd nc))) (number_columns df);
          outliers_count :=
            map (fun nc => (fst nc, outliers (snd nc))) (number_columns df);
          categorical_analysis :=
            map (fun nc => (fst nc, analyze (snd nc))) (label_columns df) |}.
Proof.
  intros ND Hne. unfold profile_dataframe.
  assert (NDn : NoDup (map fst (number_columns df)))
    by (rewrite number_columns_names; now apply NoDup_select_dtypes).
  assert (NDl : NoDup (map fst (label_columns df)))
    by (rewrite label_columns_names; now apply NoDup_select_dtypes).
  destruct (number_columns df) as [|nv nvs] eqn:E; [congruence|].
  now rewrite !dict_of_map.
Qed.

End ProfilerFacts.

Module ProfilerTheorems.

Import Pandas Runtime Profiler Spec FloatFacts FrameFacts ProfilerFacts.
Local Open Scope string_scope.
Local Open Scope list_scope.

(** C4 (as amended).  For every dataset with a number column,
    [profile_dataframe] returns a profile whose numeric summaries (statistics
    and outlier counts) hold exactly the int64/float64 columns and whose
    categorical summary holds exactly the object and category columns, each
    once and in column order; no column is in both, and a column of another
    dtype (bool, datetime) is in neither. *)
Theorem profile_partitions_by_dtype (df : DataFrame) :
  NoDup (columns df) ->
  existsb (fun nc => is_number (snd nc)) df = true ->
  exists p : full_profile,
    profile_dataframe df = Ok p
    /\ keys (basic_statistics p) = columns (select_dtypes is_number df)
    /\ keys (outliers_count p) = columns (select_dtypes is_number df)
    /\ keys (categorical_analysis p)
       = columns (select_dtypes is_object_or_category df)
    /\ NoDup (keys (basic_statistics p))
    /\ NoDup (keys (categorical_analysis p))
    /\ forall n c, getitem df n = Some c ->
         (In n (keys (basic_statistics p)) <-> is_number c = true)
         /\ (In n (keys (categorical_analysis p))
             <-> is_object_or_category c = true)
         /\ ~ (In n (keys (basic_statistics p))
               /\ In n (keys (categorical_analysis p)))
         /\ (is_number c = false -> is_object_or_category c = false ->
             ~ In n (keys (basic_statistics p))
             /\ ~ In n (keys (categorical_analysis p))).
Proof.
  intros ND Hnum.
  assert (Hne : number_columns df <> []).
  { apply existsb_exists in Hnum as ([n c] & Hin & Hc). cbn in Hc.
    destruct c; try discriminate. apply In_number_columns in Hin.
    intros E. rewrite E in Hin. exact Hin. }
  eexists. split; [apply (profile_ok df ND Hne)|]. cbn [basic_statistics outliers_count categorical_analysis].
  rewrite !keys_map, number_columns_names, label_columns_names.
  repeat split; try (now apply NoDup_select_dtypes).
  - now apply (selected_iff is_number df n c ND).
  - now apply (selected_iff is_number df n c ND).
  - now apply (selected_iff is_object_or_category df n c ND).
  - now apply (selected_iff is_object_or_category df n c ND).
  - intros [H1 H2]. apply (selected_iff is_number df n c ND) in H1; [|assumption].
    apply (selected_iff is_object_or_category df n c ND) in H2; [|assumption].
    destruct c; discriminate.
  - intros Hin. apply (selected_iff is_number df n c ND) in Hin; congruence.
  - intros Hin. apply (selected_iff is_object_or_category df n c ND) in Hin; congruence.
Qed.

(** C8.  For every number column of a dataset, the outlier count that
    [profile_dataframe] reports (and [detect_outliers] with it) is the number
    of present entries strictly below [Q1 - 1.5 * IQR] or strictly above
    [Q3 + 1.5 * IQR], where [Q1] and [Q3] are the 0.25 and 0.75 quantiles of
    the present entries by linear interpolation and [IQR = Q3 - Q1]; for
    salary = [30000, 32000, 31000, 1000000, 33000] the count is 1. *)
Theorem outliers_count_is_iqr_rule (df : DataFrame) (name : string) (v : list float) :
  NoDup (columns df) ->
  getitem df name = Some (Number v) ->
  exists p : full_profile,
    profile_dataframe df = Ok p
    /\ (let Q1 := quantile 0.25 (dropna v) in
        let Q3 := quantile 0.75 (dropna v) in
        let IQR := (Q3 - Q1)%float in
        dict_get (outliers_count p) name
        = Some (length (filter (fun x => (x <? Q1 - 1.5 * IQR)
                                         || (Q3 + 1.5 * IQR <? x))%float
                               (dropna v))))
    /\ detect_outliers df = OutliersCount (outliers_count p)
    /\ outliers [30000; 32000; 31000; 1000000; 33000]%float = 1.
Proof.
  intros ND Hg.
  assert (Hin : In (name, v) (number_columns df))
    by (apply In_number_columns; now apply getitem_In).
  assert (Hne : number_columns df <> [])
    by (intros E; rewrite E in Hin; exact Hin).
  assert (NDn : NoDup (map fst (number_columns df)))
    by (rewrite number_columns_names; now apply NoDup_select_dtypes).
  eexists. split; [apply (profile_ok df ND Hne)|]. cbn [outliers_count].
  split; [|split].
  - cbn zeta. rewrite (dict_get_map outliers _ name v NDn Hin). f_equal.
    unfold outliers. rewrite length_filter_map, !quantile_dropna.
    now rewrite filter_fences_dropna.
  - unfold detect_outliers. rewrite (dict_of_map outliers _ NDn).
    destruct (number_columns df); [congruence | reflexivity].
  - vm_compute. reflexivity.
Qed.

End ProfilerTheorems.

(** ** The what-if engine *)

Module OrchestratorFacts.

Import Pandas Runtime Profiler Orchestrator Spec FloatFacts FrameFacts ProfilerFacts.
Local Open Scope string_scope.
Local Open Scope list_scope.

Lemma bind_ok {A B : Type} (m : M A) (k : A -> M B) (w w' : world) (a : A) :
  m w = (Ok a, w') -> bind m k w = k a w'.
Proof. unfold bind. now intros ->. Qed.

Lemma bind_raise {A B : Type} (m : M A) (k : A -> M B) (w w' : world) (e : exn) :
  m w = (Raise e, w') -> bind m k w = (Raise e, w').
Proof. unfold bind. now intros ->. Qed.

Lemma deref_run (Fs : list DataFrame) (C : list event) (r : ref) (d : DataFrame) :
  nth_error Fs r = Some d ->
  deref r {| frames := Fs; calls := C |} = (Ok d, {| frames := Fs; calls := C |}).
Proof. unfold deref, frame_at. cbn [frames]. now intros ->. Qed.

Lemma column_of_run (Fs : list DataFrame) (C : list event) (r : ref)
      (d : DataFrame) (col : string) (c : Series) :
  nth_error Fs r = Some d -> getitem d col = Some c ->
  column_of r col {| frames := Fs; calls := C |}
  = (Ok c, {| frames := Fs; calls := C |}).
Proof.
  intros HF Hg. unfold column_of. rewrite (bind_ok _ _ _ _ _ (deref_run Fs C r d HF)).
  now rewrite Hg.
Qed.

Lemma assign_run (Fs : list DataFrame) (C : list event) (r : ref)
      (d : DataFrame) (col : string) (c : Series) :
  nth_error Fs r = Some d ->
  assign r col c {| frames := Fs; calls := C |}
  = (Ok tt, {| frames := replace_nth r (setitem d col c) Fs; calls := C |}).
Proof.
  intros HF. unfold assign. now rewrite (bind_ok _ _ _ _ _ (deref_run Fs C r d HF)).
Qed.

Lemma reduce_run (op : string) (f : list float -> float) (Fs : list DataFrame)
      (C : list event) (r : ref) (d : DataFrame) (col : string) (c : Series)
      (v : list float) :
  nth_error Fs r = Some d -> getitem d col = Some c -> to_float c = Some v ->
  reduce op f r col {| frames := Fs; calls := C |}
  = (Ok (f v), {| frames := Fs; calls := C ++ [Reduction op col] |}).
Proof.
  intros HF Hg Hv. unfold reduce.
  rewrite (bind_ok _ _ _ _ _ (column_of_run Fs C r d col c HF Hg)). now rewrite Hv.
Qed.

Lemma five_stats_run (Fs : list DataFrame) (C : list event) (r : ref)
      (d : DataFrame) (col : string) (c : Series) (v : list float) :
  nth_error Fs r = Some d -> getitem d col = Some c -> to_float c = Some v ->
  exists C',
    five_stats r col {| frames := Fs; calls := C |}
    = (Ok (five v), {| frames := Fs; calls := C' |}).
Proof.
  intros HF Hg Hv. unfold five_stats.
  repeat (erewrite bind_ok; [|now apply (reduce_run _ _ Fs _ r d col c v)]).
  eexists. reflexivity.
Qed.

Lemma corr_of_run (Fs : list DataFrame) (C : list event) (r : ref)
      (d : DataFrame) (col other : string) (c : Series) (t v : list float) :
  nth_error Fs r = Some d -> getitem d col = Some c -> to_float c = Some t ->
  getitem d other = Some (Number v) ->
  corr_of r col other {| frames := Fs; calls := C |}
  = (Ok (corr t v), {| frames := Fs; calls := C ++ [Correlation col other] |}).
Proof.
  intros HF Hc Ht Ho. unfold corr_of.
  rewrite (bind_ok _ _ _ _ _ (column_of_run Fs C r d col c HF Hc)).
  rewrite (bind_ok _ _ _ _ _ (column_of_run Fs C r d other _ HF Ho)).
  now rewrite Ht.
Qed.

(** *** The modification *)

Lemma known_change_cases (ct : string) :
  known_change ct = true ->
  ct = "Percentage Increase" \/ ct = "Percentage Decrease" \/ ct = "Set to Value".
Proof.
  unfold known_change. intros H.
  apply orb_true_iff in H as [H|H]; [apply orb_true_iff in H as [H|H]|];
    apply String.eqb_eq in H; auto.
Qed.

Lemma scale_run (Fs : list DataFrame) (C : list event) (r : ref)
      (d : DataFrame) (col : string) (factor : float) (c : Series)
      (t : list float) :
  nth_error Fs r = Some d -> getitem d col = Some c -> to_float c = Some t ->
  scale r col factor {| frames := Fs; calls := C |}
  = (Ok tt,
     {| frames := replace_nth r (setitem d col (Number (map (fun x => (x * factor)%float) t))) Fs;
        calls := C |}).
Proof.
  intros HF Hg Ht. unfold scale.
  rewrite (bind_ok _ _ _ _ _ (column_of_run Fs C r d col c HF Hg)).
  now rewrite Ht, (assign_run Fs C r d col _ HF).
Qed.

Lemma set_all_run (Fs : list DataFrame) (C : list event) (r : ref)
      (d : DataFrame) (col : string) (val : float) (c : Series)
      (t : list float) :
  nth_error Fs r = Some d -> getitem d col = Some c -> to_float c = Some t ->
  set_all r col val {| frames := Fs; calls := C |}
  = (Ok tt,
     {| frames := replace_nth r (setitem d col (Number (map (fun _ => val) t))) Fs;
        calls := C |}).
Proof.
  intros HF Hg Ht. unfold set_all.
  rewrite (bind_ok _ _ _ _ _ (column_of_run Fs C r d col c HF Hg)).
  now rewrite Ht, (assign_run Fs C r d col _ HF).
Qed.

Lemma apply_modification_run (Fs : list DataFrame) (C : list event) (r : ref)
      (d : DataFrame) (col ct : string) (val : float) (c : Series)
      (t : list float) :
  nth_error Fs r = Some d -> getitem d col = Some c -> to_float c = Some t ->
  known_change ct = true ->
  apply_modification r col ct val {| frames := Fs; calls := C |}
  = (Ok (Some (describe_change col ct val)),
     {| frames := replace_nth r (setitem d col (Number (new_values ct val t))) Fs;
        calls := C |}).
Proof.
  intros HF Hg Ht Hk.
  unfold apply_modification, describe_change, new_values.
  unfold known_change in Hk.
  destruct (ct =? "Percentage Increase").
  { now rewrite (bind_ok _ _ _ _ _ (scale_run Fs C r d col _ c t HF Hg Ht)). }
  destruct (ct =? "Percentage Decrease").
  { now rewrite (bind_ok _ _ _ _ _ (scale_run Fs C r d col _ c t HF Hg Ht)). }
  destruct (ct =? "Set to Value").
  { now rewrite (bind_ok _ _ _ _ _ (set_all_run Fs C r d col _ c t HF Hg Ht)). }
  discriminate.
Qed.

(** *** The loop over the number columns *)

Lemma impact_loop (Fs : list DataFrame) (ro : ref) (d : DataFrame)
      (col ct : string) (val mean : float) (c : Series) (t : list float)
      (nvs : list (string * list float)) :
  nth_error Fs ro = Some d -> getitem d col = Some c -> to_float c = Some t ->
  (forall n v, In (n, v) nvs -> n <> col -> getitem d n = Some (Number v)) ->
  forall (acc : list (string * impact)) (C : list event),
  exists C',
    for_fold (map fst nvs) (impact_step ro col ct val mean) acc
             {| frames := Fs; calls := C |}
    = (Ok (fold_left (fun a nv =>
                        if related col t nv
                        then dict_set a (fst (impact_of ct val mean t nv))
                                      (snd (impact_of ct val mean t nv))
                        else a) nvs acc),
       {| frames := Fs; calls := C' |}).
Proof.
  intros HF Hc Ht. induction nvs as [|[n v] nvs IH]; intros Hin acc C.
  - exists C. reflexivity.
  - cbn [map fst for_fold fold_left].
    assert (Hin' : forall n0 v0, In (n0, v0) nvs -> n0 <> col ->
                                 getitem d n0 = Some (Number v0))
      by (intros n0 v0 H; apply Hin; now right).
    assert (R : related col t (n, v) = negb (n =? col) && material (corr t v))
      by reflexivity.
    rewrite R. clear R.
    destruct (String.eqb_spec n col) as [->|Hne].
    + unfold impact_step at 1. rewrite String.eqb_refl. cbn [negb andb].
      apply (IH Hin').
    + assert (Ho : getitem d n = Some (Number v)) by (apply Hin; [now left | exact Hne]).
      unfold impact_step at 1.
      destruct (String.eqb_spec n col) as [|_]; [contradiction|]. cbn [negb andb].
      unfold bind at 1.
      rewrite (bind_ok _ _ _ _ _ (corr_of_run Fs C ro d col n c t v HF Hc Ht Ho)).
      unfold material. destruct (0.1 <? abs (corr t v))%float; cbn [ret]; apply (IH Hin').
Qed.

Lemma number_columns_setitem (df : DataFrame) (col : string) (v : list float) :
  filter (fun nv : string * list float => negb (fst nv =? col))
         (number_columns (setitem df col (Number v)))
  = filter (fun nv => negb (fst nv =? col)) (number_columns df).
Proof.
  induction df as [|[n c] df IH]; cbn.
  - now rewrite String.eqb_refl.
  - destruct (String.eqb_spec col n) as [->|Hne].
    + cbn [number_columns filter fst]. rewrite String.eqb_refl. cbn [negb].
      destruct c; cbn [number_columns filter fst]; rewrite ?String.eqb_refl;
        reflexivity.
    + destruct c; cbn [number_columns filter fst]; rewrite ?IH; reflexivity.
Qed.

Lemma filter_related (col : string) (t : list float)
      (l : list (string * list float)) :
  filter (related col t) l
  = filter (related col t) (filter (fun nv => negb (fst nv =? col)) l).
Proof.
  induction l as [|nv l IH]; [reflexivity|]. cbn [filter].
  assert (R : related col t nv = negb (fst nv =? col) && material (corr t (snd nv)))
    by reflexivity.
  destruct (negb (fst nv =? col)) eqn:E.
  - cbn [filter]. destruct (related col t nv); now rewrite IH.
  - rewrite R. cbn [andb]. exact IH.
Qed.

(** *** The store during a run: the input frames, then the two copies *)

Lemma nth_error_first_copy {A : Type} (F : list A) (a b : A) :
  nth_error ((F ++ [a]) ++ [b]) (length F) = Some a.
Proof. apply nth_error_old, nth_error_last. Qed.

Lemma nth_error_second_copy {A : Type} (F : list A) (a a' b : A) :
  nth_error ((F ++ [a]) ++ [b]) (length (F ++ [a'])) = Some b.
Proof.
  rewrite nth_error_app2 by (rewrite !length_app; cbn; lia).
  rewrite !length_app. cbn. now rewrite Nat.sub_diag.
Qed.

Lemma replace_first_copy {A : Type} (F : list A) (a a' b : A) :
  replace_nth (length F) a' ((F ++ [a]) ++ [b]) = (F ++ [a']) ++ [b].
Proof.
  induction F as [|x F IH]; cbn; [reflexivity | now rewrite IH].
Qed.

Lemma impacts_fold (df mf : DataFrame) (m : Modifications) (c : Series)
      (t t' : list float) :
  NoDup (columns df) -> getitem df (column m) = Some c ->
  mf = setitem df (column m) (Number t') ->
  fold_left (fun a nv =>
               if related (column m) t nv
               then dict_set a (fst (impact_of (change_type m) (value m) (mean t) t nv))
                             (snd (impact_of (change_type m) (value m) (mean t) t nv))
               else a)
            (number_columns mf) []
  = impacts df m t.
Proof.
  intros ND Hg ->.
  rewrite (fold_dict_set (fun nv => fst (impact_of (change_type m) (value m) (mean t) t nv))
                         (fun nv => snd (impact_of (change_type m) (value m) (mean t) t nv))).
  - cbn [app]. unfold impacts.
    rewrite (filter_related (column m) t (number_columns (setitem _ _ _))).
    rewrite number_columns_setitem, <- filter_related.
    apply map_ext. intros [n v]. reflexivity.
  - cbn [keys map app].
    change (map (fun nv => fst (impact_of (change_type m) (value m) (mean t) t nv)))
      with (map (@fst string (list float))).
    rewrite number_columns_names. apply NoDup_select_dtypes.
    now rewrite (columns_setitem df (column m) c).
Qed.

Lemma profile_of_run (Fs : list DataFrame) (C : list event) (r : ref)
      (d : DataFrame) (p : full_profile) :
  nth_error Fs r = Some d -> profile_dataframe d = Ok p ->
  profile_of r {| frames := Fs; calls := C |}
  = (Ok p, {| frames := Fs; calls := C ++ [Profiling] |}).
Proof.
  intros HF Hp. unfold profile_of.
  rewrite (bind_ok _ _ _ _ _ (deref_run Fs C r d HF)).
  unfold bind, log, lift. now rewrite Hp.
Qed.

Section Run.

Variable analyzer_chain : full_profile -> outcome string.

Lemma invoke_run (Fs : list DataFrame) (C : list event) (p : full_profile) :
  invoke analyzer_chain p {| frames := Fs; calls := C |}
  = (analyzer_chain p, {| frames := Fs; calls := C ++ [Analysis] |}).
Proof. reflexivity. Qed.

(** The analysis, from the store that holds the two copies. *)
Lemma analyse_run (F : list DataFrame) (C : list event) (df : DataFrame)
      (m : Modifications) (c : Series) (t : list float) :
  NoDup (columns df) ->
  getitem df (column m) = Some c -> to_float c = Some t ->
  known_change (change_type m) = true ->
  exists (p : full_profile) (C' : list event),
    profile_dataframe (modified_frame df m t) = Ok p
    /\ analyse analyzer_chain (length (F ++ [df])) (length F)
               (column m) (change_type m) (value m)
               {| frames := (F ++ [df]) ++ [df]; calls := C |}
       = (match analyzer_chain p with
          | Ok narrative => Ok (Report (expected_report df m t narrative))
          | Raise e => Raise e
          end,
          {| frames := (F ++ [modified_frame df m t]) ++ [df]; calls := C' |}).
Proof.
  intros ND Hg Ht Hk.
  set (t' := new_values (change_type m) (value m) t).
  set (mf := modified_frame df m t).
  assert (Hmf : getitem mf (column m) = Some (Number t')) by apply getitem_setitem_same.
  assert (NDm : NoDup (columns mf))
    by (unfold mf, modified_frame; now rewrite (columns_setitem df (column m) c)).
  assert (Hne : number_columns mf <> []).
  { intros E. assert (Hin : In (column m, t') (number_columns mf))
      by (apply In_number_columns; now apply getitem_In).
    rewrite E in Hin. exact Hin. }
  exists {| basic_statistics :=
              map (fun nc => (fst nc, describe_series (snd nc))) (number_columns mf);
            outliers_count :=
              map (fun nc => (fst nc, outliers (snd nc))) (number_columns mf);
            categorical_analysis :=
              map (fun nc => (fst nc, analyze (snd nc))) (label_columns mf) |}.
  set (p := Build_full_profile _ _ _).
  assert (Hp : profile_dataframe mf = Ok p) by apply (profile_ok mf NDm Hne).
  unfold analyse.
  destruct (five_stats_run ((F ++ [df]) ++ [df]) C (length (F ++ [df])) df (column m) c t
              (nth_error_second_copy F df df df) Hg Ht) as [C1 E1].
  rewrite (bind_ok _ _ _ _ _ E1).
  rewrite (bind_ok _ _ _ _ _
             (apply_modification_run _ C1 (length F) df (column m) (change_type m) (value m) c t
                (nth_error_first_copy F df df) Hg Ht Hk)).
  rewrite replace_first_copy.
  change (setitem df (column m) (Number (new_values (change_type m) (value m) t)))
    with mf.
  destruct (five_stats_run ((F ++ [mf]) ++ [df]) C1 (length F) mf (column m) (Number t') t'
              (nth_error_first_copy F mf df) Hmf eq_refl) as [C2 E2].
  rewrite (bind_ok _ _ _ _ _ E2).
  unfold numerical_columns_of.
  rewrite (bind_ok _ _ _ _ _
             (bind_ok _ _ _ _ _ (deref_run _ C2 (length F) mf (nth_error_first_copy F mf df)))).
  cbn [ret].
  destruct (impact_loop ((F ++ [mf]) ++ [df]) (length (F ++ [df])) df (column m) (change_type m) (value m)
              (s_mean (five t)) c t (number_columns mf)
              (nth_error_second_copy F mf df df) Hg Ht) with (acc := @nil (string * impact)) (C := C2)
    as [C3 E3].
  { intros n v Hin Hn. apply In_number_columns in Hin.
    apply (In_getitem mf n _ NDm) in Hin.
    unfold mf, modified_frame in Hin. fold (column m) in Hin.
    now rewrite getitem_setitem_other in Hin. }
  rewrite (bind_ok _ _ _ _ _ E3).
  change (s_mean (five t)) with (mean t).
  rewrite (impacts_fold df mf m c t t' ND Hg eq_refl).
  rewrite (bind_ok _ _ _ _ _
             (profile_of_run _ C3 (length F) mf p (nth_error_first_copy F mf df) Hp)).
  unfold bind. rewrite invoke_run.
  exists ((C3 ++ [Profiling]) ++ [Analysis]). split; [exact Hp|].
  destruct (analyzer_chain p); reflexivity.
Qed.

(** A whole run on a valid request. *)
Lemma what_if_run (F : list DataFrame) (C : list event) (r : ref)
      (df : DataFrame) (m : Modifications) (c : Series) (t : list float) :
  nth_error F r = Some df ->
  NoDup (columns df) ->
  getitem df (column m) = Some c -> to_float c = Some t ->
  known_change (change_type m) = true ->
  exists (p : full_profile) (C' : list event),
    profile_dataframe (modified_frame df m t) = Ok p
    /\ run_what_if_scenario analyzer_chain r m {| frames := F; calls := C |}
       = (Ok (match analyzer_chain p with
              | Ok narrative => Report (expected_report df m t narrative)
              | Raise e => Message (error_during_analysis e)
              end),
          {| frames := (F ++ [modified_frame df m t]) ++ [df]; calls := C' |}).
Proof.
  intros HF ND Hg Ht Hk.
  destruct (analyse_run F C df m c t ND Hg Ht Hk) as (p & C' & Hp & E).
  exists p, C'. split; [exact Hp|].
  unfold run_what_if_scenario, try_except, what_if_body.
  unfold copy at 1. rewrite (bind_ok _ _ _ _ _ (bind_ok _ _ _ _ _ (deref_run F C r df HF))).
  cbn [frames calls].
  unfold copy at 1.
  rewrite (bind_ok _ _ _ _ _
             (bind_ok _ _ _ _ _ (deref_run (F ++ [df]) C r df (nth_error_old F [df] r df HF)))).
  cbn [frames calls].
  unfold columns_of.
  rewrite (bind_ok _ _ _ _ _
             (bind_ok _ _ _ _ _ (deref_run _ C (length F) df (nth_error_first_copy F df df)))).
  cbn [ret].
  assert (Hex : existsb (String.eqb (column m)) (columns df) = true).
  { destruct (existsb _ _) eqn:X; [reflexivity|].
    apply has_column_getitem in X. congruence. }
  rewrite Hex. cbn [negb].
  rewrite (bind_ok _ _ _ _ _
             (column_of_run _ C (length F) df (column m) c (nth_error_first_copy F df df) Hg)).
  assert (Hnum : is_numeric_dtype c = true) by (destruct c; cbn in *; congruence).
  rewrite Hnum. cbn [negb].
  rewrite E. destruct (analyzer_chain p); reflexivity.
Qed.

End Run.

End OrchestratorFacts.

Module OrchestratorTheorems.

Import Pandas Runtime Profiler Orchestrator Spec Examples.
Import FloatFacts FrameFacts ProfilerFacts OrchestratorFacts.
Local Open Scope string_scope.
Local Open Scope list_scope.

(** *** The impact entries *)

Lemma keys_impacts (df : DataFrame) (m : Modifications) (t : list float) :
  keys (impacts df m t)
  = map fst (filter (related (column m) t) (number_columns df)).
Proof.
  unfold impacts, keys. rewrite map_map. apply map_ext. now intros [n v].
Qed.

Lemma NoDup_number_columns (df : DataFrame) :
  NoDup (columns df) -> NoDup (map fst (number_columns df)).
Proof.
  intros ND. rewrite number_columns_names. now apply NoDup_select_dtypes.
Qed.

Lemma dict_get_absent {V W : Type} (f : string * V -> string * W)
      (keep : string * V -> bool) (l : list (string * V)) (k : string) :
  (forall a, fst (f a) = fst a) ->
  ~ In k (map fst l) ->
  dict_get (map f (filter keep l)) k = None.
Proof.
  intros Hf. induction l as [|[k0 x0] l IH]; cbn [map filter fst];
    intros Hnotin; [reflexivity|].
  assert (Hl : ~ In k (map fst l)) by (intros H; apply Hnotin; now right).
  destruct (keep (k0, x0)); [|now apply IH].
  cbn [map dict_get]. destruct (f (k0, x0)) as [k' y'] eqn:F.
  pose proof (Hf (k0, x0)) as Hk. rewrite F in Hk. cbn in Hk. subst k'.
  destruct (String.eqb_spec k k0) as [->|_]; [|now apply IH].
  exfalso. apply Hnotin. now left.
Qed.

Lemma dict_get_filter_map {V W : Type} (f : string * V -> string * W)
      (keep : string * V -> bool) (l : list (string * V)) (k : string) (x : V) :
  (forall a, fst (f a) = fst a) ->
  NoDup (map fst l) -> In (k, x) l ->
  dict_get (map f (filter keep l)) k
  = if keep (k, x) then Some (snd (f (k, x))) else None.
Proof.
  intros Hf. induction l as [|[k0 x0] l IH]; cbn [map filter fst];
    intros ND Hin; [destruct Hin|].
  inversion ND as [|? ? Hnotin ND']; subst.
  destruct Hin as [[= -> ->]|Hin].
  - destruct (keep (k, x)) eqn:K.
    + cbn [map dict_get]. destruct (f (k, x)) as [k' y'] eqn:F.
      pose proof (Hf (k, x)) as Hk. rewrite F in Hk. cbn in Hk. subst k'.
      now rewrite String.eqb_refl.
    + now apply dict_get_absent.
  - assert (Hne : k <> k0).
    { intros ->. apply Hnotin. change k0 with (fst (k0, x)). now apply in_map. }
    destruct (keep (k0, x0)); [|now apply IH].
    cbn [map dict_get]. destruct (f (k0, x0)) as [k' y'] eqn:F.
    pose proof (Hf (k0, x0)) as Hk. rewrite F in Hk. cbn in Hk. subst k'.
    destruct (String.eqb_spec k k0); [contradiction|]. now apply IH.
Qed.

Lemma dict_get_impacts (df : DataFrame) (m : Modifications) (t v : list float)
      (other : string) :
  NoDup (columns df) -> getitem df other = Some (Number v) ->
  dict_get (impacts df m t) other
  = if related (column m) t (other, v)
    then Some {| correlation := corr t v;
                 estimated_impact :=
                   estimate (change_type m) (value m) (mean t) (corr t v) |}
    else None.
Proof.
  intros ND Hg. unfold impacts.
  rewrite (dict_get_filter_map _ _ _ other v).
  - reflexivity.
  - now intros [n x].
  - now apply NoDup_number_columns.
  - apply In_number_columns. now apply getitem_In.
Qed.

Lemma In_keys_impacts (df : DataFrame) (m : Modifications) (t : list float)
      (other : string) :
  In other (keys (impacts df m t)) <->
  exists v, In (other, Number v) df /\ related (column m) t (other, v) = true.
Proof.
  rewrite keys_impacts, in_map_iff. split.
  - intros ([n v] & <- & H). apply filter_In in H as [H R].
    exists v. split; [now apply In_number_columns | exact R].
  - intros (v & H & R). exists (other, v). split; [reflexivity|].
    apply filter_In. split; [now apply In_number_columns | exact R].
Qed.

(** The impact entries follow the column order of the frame. *)
Lemma keys_impacts_column_order (df : DataFrame) (m : Modifications)
      (t : list float) :
  NoDup (columns df) ->
  keys (impacts df m t) = filter (in_impact_set df (column m) t) (columns df).
Proof.
  intros ND. rewrite keys_impacts.
  assert (G : forall l : DataFrame,
             (forall n c, In (n, c) l -> getitem df n = Some c) ->
             map fst (filter (related (column m) t) (number_columns l))
             = filter (in_impact_set df (column m) t) (columns l)).
  { induction l as [|[n c] l IH]; intros Hl; [reflexivity|].
    assert (Hn : getitem df n = Some c) by (apply Hl; now left).
    assert (Hl' : forall n0 c0, In (n0, c0) l -> getitem df n0 = Some c0)
      by (intros n0 c0 H; apply Hl; now right).
    cbn [columns map fst filter]. unfold in_impact_set at 1. rewrite Hn.
    destruct c; cbn [number_columns]; try (now apply IH).
    cbn [filter]. unfold related at 1. cbn [fst snd].
    destruct (negb (n =? column m) && material (corr t v)); cbn [map fst];
      f_equal; now apply IH. }
  apply G. intros n c H. now apply In_getitem.
Qed.

(** *** Validation *)

Lemma validation_run (analyzer_chain : full_profile -> outcome string)
      (F : list DataFrame) (C : list event) (r : ref) (df : DataFrame)
      (m : Modifications) :
  nth_error F r = Some df ->
  (forall c, getitem df (column m) = Some c -> is_numeric_dtype c = false) ->
  run_what_if_scenario analyzer_chain r m {| frames := F; calls := C |}
  = (Ok (Message (match getitem df (column m) with
                  | None => column_not_found (column m)
                  | Some _ => column_not_numerical (column m)
                  end)),
     {| frames := (F ++ [df]) ++ [df]; calls := C |}).
Proof.
  intros HF Hbad.
  unfold run_what_if_scenario, try_except, what_if_body.
  unfold copy at 1. rewrite (bind_ok _ _ _ _ _ (bind_ok _ _ _ _ _ (deref_run F C r df HF))).
  cbn [frames calls].
  unfold copy at 1.
  rewrite (bind_ok _ _ _ _ _
             (bind_ok _ _ _ _ _ (deref_run (F ++ [df]) C r df (nth_error_old F [df] r df HF)))).
  cbn [frames calls].
  unfold columns_of.
  rewrite (bind_ok _ _ _ _ _
             (bind_ok _ _ _ _ _ (deref_run _ C (length F) df (nth_error_first_copy F df df)))).
  cbn [ret].
  destruct (getitem df (column m)) as [c|] eqn:Hg.
  - assert (Hex : existsb (String.eqb (column m)) (columns df) = true).
    { destruct (existsb _ _) eqn:X; [reflexivity|].
      apply has_column_getitem in X. congruence. }
    rewrite Hex. cbn [negb].
    rewrite (bind_ok _ _ _ _ _
               (column_of_run _ C (length F) df (column m) c (nth_error_first_copy F df df) Hg)).
    now rewrite (Hbad c eq_refl).
  - apply has_column_getitem in Hg. now rewrite Hg.
Qed.

Lemma frames_kept (F : list DataFrame) (C C' : list event) (a b : DataFrame)
      (r0 : ref) (d : DataFrame) :
  frame_at {| frames := F; calls := C |} r0 = Some d ->
  frame_at {| frames := (F ++ [a]) ++ [b]; calls := C' |} r0 = Some d.
Proof.
  unfold frame_at. cbn [frames]. intros H. now apply nth_error_old, nth_error_old.
Qed.

(** C1.  For every dataset and every request whose target column is not in
    the dataset, or is there but not numeric, [run_what_if_scenario] returns
    the validation message that names the column and says which of the two
    it is; no reduction, correlation, profile or analyzer call is made, and
    every frame of the store, the input among them, is as it was. *)
Theorem what_if_rejects_invalid_column
        (analyzer_chain : full_profile -> outcome string)
        (w : world) (r : ref) (df : DataFrame) (m : Modifications) :
  frame_at w r = Some df ->
  (forall c, getitem df (column m) = Some c -> is_numeric_dtype c = false) ->
  exists w' : world,
    run_what_if_scenario analyzer_chain r m w
    = (Ok (Message (match getitem df (column m) with
                    | None =>
                      "❌ Error: Column '" ++ column m
                      ++ "' not found in the dataset."
                    | Some _ =>
                      "❌ Error: Column '" ++ column m
                      ++ "' is not numerical. What-if analysis requires numerical columns."
                    end)), w')
    /\ calls w' = calls w
    /\ frame_at w' r = Some df
    /\ (forall r0 d, frame_at w r0 = Some d -> frame_at w' r0 = Some d).
Proof.
  destruct w as [F C]. unfold frame_at at 1. cbn [frames].
  intros HF Hbad. eexists. split; [apply (validation_run _ F C r df m HF Hbad)|].
  split; [reflexivity|]. split.
  - now apply (frames_kept F C C df df r df).
  - intros r0 d. apply frames_kept.
Qed.

Section ValidRequest.

Variable analyzer_chain : full_profile -> outcome string.
Variables (w : world) (r : ref) (df : DataFrame) (m : Modifications).
Variables (c : Series) (t : list float).

Hypothesis input : frame_at w r = Some df.
Hypothesis unique : NoDup (columns df).
Hypothesis target : getitem df (column m) = Some c.
Hypothesis numeric : to_float c = Some t.

Lemma answered_run (narrative : string) :
  known_change (change_type m) = true ->
  (forall p, profile_dataframe (modified_frame df m t) = Ok p ->
             analyzer_chain p = Ok narrative) ->
  exists C',
    run_what_if_scenario analyzer_chain r m w
    = (Ok (Report (expected_report df m t narrative)),
       {| frames := (frames w ++ [modified_frame df m t]) ++ [df]; calls := C' |}).
Proof.
  intros Hk Hchain. destruct w as [F C]. unfold frame_at in input. cbn [frames] in *.
  destruct (what_if_run analyzer_chain F C r df m c t input unique target numeric Hk)
    as (p & C' & Hp & E).
  exists C'. rewrite E. now rewrite (Hchain p Hp).
Qed.

Lemma failed_run (e : exn) :
  known_change (change_type m) = true ->
  (forall p, profile_dataframe (modified_frame df m t) = Ok p ->
             analyzer_chain p = Raise e) ->
  exists C',
    run_what_if_scenario analyzer_chain r m w
    = (Ok (Message (error_during_analysis e)),
       {| frames := (frames w ++ [modified_frame df m t]) ++ [df]; calls := C' |}).
Proof.
  intros Hk Hchain. destruct w as [F C]. unfold frame_at in input. cbn [frames] in *.
  destruct (what_if_run analyzer_chain F C r df m c t input unique target numeric Hk)
    as (p & C' & Hp & E).
  exists C'. rewrite E. now rewrite (Hchain p Hp).
Qed.

End ValidRequest.

Lemma percentage_is_known (ct : string) :
  is_percentage ct = true -> known_change ct = true.
Proof. unfold is_percentage, known_change. now intros ->. Qed.

Lemma estimate_percentage (ct : string) (val mean corr : float) :
  is_percentage ct = true ->
  estimate ct val mean corr
  = if ct =? "Percentage Increase" then (corr * val)%float
    else (corr * val * -1)%float.
Proof.
  intros H. unfold estimate. rewrite H.
  destruct (ct =? "Percentage Increase"); [apply mul_one_r | reflexivity].
Qed.

Lemma scale_by_one (t : list float) :
  map (fun x => (x * (1 + 0 / 100))%float) t = t.
Proof.
  change (1 + 0 / 100)%float with 1%float.
  induction t as [|x t IH]; cbn; [reflexivity|]. now rewrite mul_one_r, IH.
Qed.

Lemma no_change_when_finite (x : float) :
  is_finite x = true -> percentage_change x x = 0%float.
Proof. apply percentage_of_no_change. Qed.

(** C3 (as amended).  For every dataset and every valid modification whose
    run the analyzer answers, the impact entries of the report are in the
    column order of the dataset: their names are the columns of the dataset,
    in order, restricted to the other number columns with a material
    correlation.  (They are not sorted by correlation.) *)
Theorem impact_list_follows_column_order
        (analyzer_chain : full_profile -> outcome string)
        (w : world) (r : ref) (df : DataFrame) (m : Modifications)
        (c : Series) (t : list float) (narrative : string) :
  frame_at w r = Some df ->
  NoDup (columns df) ->
  getitem df (column m) = Some c ->
  to_float c = Some t ->
  known_change (change_type m) = true ->
  (forall p, profile_dataframe (modified_frame df m t) = Ok p ->
             analyzer_chain p = Ok narrative) ->
  exists (rep : what_if_report) (w' : world),
    run_what_if_scenario analyzer_chain r m w = (Ok (Report rep), w')
    /\ keys (impact_analysis rep)
       = filter (in_impact_set df (column m) t) (columns df).
Proof.
  intros Hw ND Hg Ht Hk Hchain.
  destruct (answered_run analyzer_chain w r df m c t Hw ND Hg Ht narrative Hk Hchain)
    as [C' E].
  eexists. eexists. split; [exact E|].
  cbn [expected_report impact_analysis]. now apply keys_impacts_column_order.
Qed.

(** C5.  For every dataset and every valid percentage modification of
    magnitude [p] whose run the analyzer answers, another number column is in
    the impact entries iff the absolute value of its correlation with the
    target, computed on the unmodified data, exceeds 0.1; its entry holds
    that correlation and the estimate [correlation * p] for an increase,
    [correlation * p * (-1)] for a decrease; nothing else is in the entries.
    A column of correlation 1 under a 20% increase gets the estimate 20. *)
Theorem percentage_impact_estimates
        (analyzer_chain : full_profile -> outcome string)
        (w : world) (r : ref) (df : DataFrame) (m : Modifications)
        (c : Series) (t : list float) (narrative : string) :
  frame_at w r = Some df ->
  NoDup (columns df) ->
  getitem df (column m) = Some c ->
  to_float c = Some t ->
  is_percentage (change_type m) = true ->
  (forall p, profile_dataframe (modified_frame df m t) = Ok p ->
             analyzer_chain p = Ok narrative) ->
  exists (rep : what_if_report) (w' : world),
    run_what_if_scenario analyzer_chain r m w = (Ok (Report rep), w')
    /\ (forall other v,
           getitem df other = Some (Number v) -> other <> column m ->
           dict_get (impact_analysis rep) other
           = if (0.1 <? abs (corr t v))%float
             then Some {| correlation := corr t v;
                          estimated_impact :=
                            if change_type m =? "Percentage Increase"
                            then (corr t v * value m)%float
                            else (corr t v * value m * -1)%float |}
             else None)
    /\ (forall other,
           In other (keys (impact_analysis rep)) ->
           other <> column m
           /\ exists v, getitem df other = Some (Number v)
                        /\ (0.1 <? abs (corr t v))%float = true)
    /\ (forall other v,
           getitem df other = Some (Number v) -> other <> column m ->
           corr t v = 1%float ->
           change_type m = "Percentage Increase" -> value m = 20%float ->
           dict_get (impact_analysis rep) other
           = Some {| correlation := 1; estimated_impact := 20 |}).
Proof.
  intros Hw ND Hg Ht Hp Hchain.
  destruct (answered_run analyzer_chain w r df m c t Hw ND Hg Ht narrative
              (percentage_is_known _ Hp) Hchain) as [C' E].
  eexists. eexists. split; [exact E|].
  cbn [expected_report impact_analysis].
  assert (D : forall other v,
             getitem df other = Some (Number v) -> other <> column m ->
             dict_get (impacts df m t) other
             = if (0.1 <? abs (corr t v))%float
               then Some {| correlation := corr t v;
                            estimated_impact :=
                              if change_type m =? "Percentage Increase"
                              then (corr t v * value m)%float
                              else (corr t v * value m * -1)%float |}
               else None).
  { intros other v Ho Hne. rewrite (dict_get_impacts df m t v other ND Ho).
    unfold related, material. cbn [fst snd].
    destruct (String.eqb_spec other (column m)); [contradiction|]. cbn [negb andb].
    now rewrite (estimate_percentage _ _ _ _ Hp). }
  split; [exact D|]. split.
  - intros other Hin. apply In_keys_impacts in Hin as (v & Hin & R).
    unfold related, material in R. cbn [fst snd] in R.
    apply andb_true_iff in R as [Rn Rm]. split.
    + intros ->. rewrite String.eqb_refl in Rn. discriminate.
    + exists v. split; [now apply In_getitem | exact Rm].
  - intros other v Ho Hne Hc Hinc Hval. rewrite (D other v Ho Hne).
    rewrite Hc, Hinc, Hval. reflexivity.
Qed.

(** C6 (as amended).  When the analyzer call fails on a valid request, the
    run does not raise: it returns, as its whole result, the one-line message
    that carries the text of the failure.  The statistics and impact entries
    computed before the call are not part of what is returned.  The input
    frame is as it was. *)
Theorem analyzer_failure_returns_message_only
        (analyzer_chain : full_profile -> outcome string)
        (w : world) (r : ref) (df : DataFrame) (m : Modifications)
        (c : Series) (t : list float) (e : exn) :
  frame_at w r = Some df ->
  NoDup (columns df) ->
  getitem df (column m) = Some c ->
  to_float c = Some t ->
  known_change (change_type m) = true ->
  (forall p, profile_dataframe (modified_frame df m t) = Ok p ->
             analyzer_chain p = Raise e) ->
  exists w' : world,
    run_what_if_scenario analyzer_chain r m w
    = (Ok (Message ("❌ Error during what-if analysis: " ++ str e)), w')
    /\ frame_at w' r = Some df.
Proof.
  intros Hw ND Hg Ht Hk Hchain.
  destruct (failed_run analyzer_chain w r df m c t Hw ND Hg Ht e Hk Hchain)
    as [C' E].
  eexists. split; [exact E|].
  destruct w as [F C]. now apply (frames_kept F C C').
Qed.

(** C9 (as amended).  For every dataset, numeric target column and
    percentage increase [p] whose run the analyzer answers, the modified copy
    holds the target column with every value multiplied by [1 + p / 100], the
    input frame is as it was, and the new statistics are those of the
    multiplied values.  With [p = 0] the values and the five statistics are
    unchanged, and the reported percentage change of every statistic whose
    baseline value is finite is 0.  For the salary column and [p = 10] the
    new mean is within 1e-9 of the old mean times 1.10. *)
Theorem percentage_increase_scales_column
        (analyzer_chain : full_profile -> outcome string)
        (w : world) (r : ref) (df : DataFrame) (m : Modifications)
        (c : Series) (t : list float) (narrative : string) :
  frame_at w r = Some df ->
  NoDup (columns df) ->
  getitem df (column m) = Some c ->
  to_float c = Some t ->
  change_type m = "Percentage Increase" ->
  (forall p, profile_dataframe (modified_frame df m t) = Ok p ->
             analyzer_chain p = Ok narrative) ->
  let scaled := map (fun x => (x * (1 + value m / 100))%float) t in
  exists (rep : what_if_report) (w' : world),
    run_what_if_scenario analyzer_chain r m w = (Ok (Report rep), w')
    /\ frame_at w' (length (frames w))
       = Some (setitem df (column m) (Number scaled))
    /\ frame_at w' r = Some df
    /\ original_stats rep = five t
    /\ new_stats rep = five scaled
    /\ stats_changes rep = changes (five t) (five scaled)
    /\ (value m = 0%float ->
        scaled = t
        /\ new_stats rep = original_stats rep
        /\ (is_finite (mean t) = true -> s_mean (stats_changes rep) = 0%float)
        /\ (is_finite (median t) = true -> s_median (stats_changes rep) = 0%float)
        /\ (is_finite (std t) = true -> s_std (stats_changes rep) = 0%float)
        /\ (is_finite (Pandas.min t) = true -> s_min (stats_changes rep) = 0%float)
        /\ (is_finite (Pandas.max t) = true -> s_max (stats_changes rep) = 0%float))
    /\ (abs (mean (map (fun x => x * (1 + 10 / 100)) salary) - mean salary * 1.10)
        <=? 1e-9)%float = true.
Proof.
  intros Hw ND Hg Ht Hct Hchain scaled.
  assert (Hk : known_change (change_type m) = true) by now rewrite Hct.
  destruct (answered_run analyzer_chain w r df m c t Hw ND Hg Ht narrative Hk Hchain)
    as [C' E].
  assert (Hs : new_values (change_type m) (value m) t = scaled)
    by (unfold new_values; now rewrite Hct).
  eexists. eexists. split; [exact E|].
  cbn [expected_report original_stats new_stats stats_changes].
  unfold modified_frame. rewrite Hs.
  split; [unfold frame_at; cbn [frames]; apply nth_error_first_copy|].
  split; [destruct w as [F C]; now apply (frames_kept F C C')|].
  split; [reflexivity|]. split; [reflexivity|]. split; [reflexivity|].
  split; [|vm_compute; reflexivity].
  intros Hzero.
  assert (Hid : scaled = t) by (unfold scaled; rewrite Hzero; apply scale_by_one).
  rewrite Hid. split; [reflexivity|]. split; [reflexivity|].
  cbn [changes five s_mean s_median s_std s_min s_max].
  repeat split; apply no_change_when_finite.
Qed.

End OrchestratorTheorems.

(** ** The theorems at sample data, and the runs that refute the claims the
    code does not meet *)

Module Scenarios.

Import Pandas Runtime Cleaner Profiler Orchestrator Spec Examples.
Import CleanerTheorems ProfilerTheorems OrchestratorTheorems.
Local Open Scope string_scope.
Local Open Scope list_scope.

Ltac distinct :=
  repeat (apply NoDup_cons; [cbn; intuition discriminate|]); apply NoDup_nil.

Ltac each_column H :=
  cbn in H;
  repeat (destruct H as [H|H]; [injection H as <- <-|]); [..|destruct H].

Ltac run_in E := vm_compute in E; injection E as <- <-.

(** *** C1 *)

(** A column that is not there, and a column of labels. *)
Lemma what_if_rejects_invalid_column_witness :
  (exists w',
      run_what_if_scenario answering 0 (increase "overtime" 10) (store_of staff)
      = (Ok (Message "❌ Error: Column 'overtime' not found in the dataset."), w')
      /\ calls w' = [] /\ frame_at w' 0 = Some staff)
  /\ (exists w',
         run_what_if_scenario answering 0 (increase "city" 10) (store_of staff)
         = (Ok (Message "❌ Error: Column 'city' is not numerical. What-if analysis requires numerical columns."), w')
         /\ calls w' = [] /\ frame_at w' 0 = Some staff).
Proof.
  split.
  - destruct (what_if_rejects_invalid_column
                answering (store_of staff) 0 staff (increase "overtime" 10))
      as (w' & E & Hc & Hf & _).
    + reflexivity.
    + cbn. intros c H. discriminate.
    + exists w'. split; [exact E|]. split; assumption.
  - destruct (what_if_rejects_invalid_column
                answering (store_of staff) 0 staff (increase "city" 10))
      as (w' & E & Hc & Hf & _).
    + reflexivity.
    + cbn. intros c H. injection H as <-. reflexivity.
    + exists w'. split; [exact E|]. split; assumption.
Defined.

(** *** C2 *)

(** C2 (the run that shows the defect).  For the frame whose column [a] has
    mean 0, setting [a] to 5 returns a report, not a failure: the baseline
    mean in it is 0 and the estimated impact on [b] is infinite. *)
Lemma zero_mean_set_to_value_reports_infinite_impact :
  exists (rep : what_if_report) (w' : world),
    run_what_if_scenario answering 0 (set_to "a" 5) (store_of centred)
    = (Ok (Report rep), w')
    /\ s_mean (original_stats rep) = 0%float
    /\ map (fun ni => (fst ni, estimated_impact (snd ni))) (impact_analysis rep)
       = [("b", infinity)].
Proof.
  destruct (run_what_if_scenario answering 0 (set_to "a" 5) (store_of centred))
    as [o w'] eqn:E.
  run_in E. eexists. eexists. split; [reflexivity|]. split; reflexivity.
Qed.

(** *** C3 *)

(** C3 fails as stated: the weaker correlation is listed first. *)
Lemma ranking_impacts_not_sorted :
  exists (rep : what_if_report) (w' : world),
    run_what_if_scenario answering 0 (increase "t" 20) (store_of ranking)
    = (Ok (Report rep), w')
    /\ keys (impact_analysis rep) = ["a"; "b"]
    /\ descending (impact_analysis rep) = false.
Proof.
  destruct (run_what_if_scenario answering 0 (increase "t" 20) (store_of ranking))
    as [o w'] eqn:E.
  run_in E. eexists. eexists. split; [reflexivity|]. split; reflexivity.
Qed.

(** The same run, by the amended statement. *)
Lemma impact_list_follows_column_order_witness :
  exists (rep : what_if_report) (w' : world),
    run_what_if_scenario answering 0 (increase "t" 20) (store_of ranking)
    = (Ok (Report rep), w')
    /\ keys (impact_analysis rep) = ["a"; "b"].
Proof.
  destruct (impact_list_follows_column_order
              answering (store_of ranking) 0 ranking (increase "t" 20)
              (Number [1; 2; 3; 4]%float) [1; 2; 3; 4]%float "narrative")
    as (rep & w' & E & K).
  - reflexivity.
  - distinct.
  - reflexivity.
  - reflexivity.
  - reflexivity.
  - intros p _. reflexivity.
  - exists rep, w'. split; [exact E|]. rewrite K. vm_compute. reflexivity.
Defined.

(** *** C4 *)

(** C4 fails as stated: the bool column [remote] is in no summary. *)
Lemma boolean_column_in_neither_partition :
  exists p : full_profile,
    profile_dataframe staff = Ok p
    /\ In "remote" (columns staff)
    /\ ~ In "remote" (keys (basic_statistics p))
    /\ ~ In "remote" (keys (outliers_count p))
    /\ ~ In "remote" (keys (categorical_analysis p)).
Proof.
  destruct (profile_dataframe staff) as [p|e] eqn:E; vm_compute in E;
    [injection E as <-|discriminate].
  eexists. split; [reflexivity|].
  split; [cbn; tauto|].
  repeat split; cbn; intuition discriminate.
Qed.

(** The numeric and the categorical columns of [staff]. *)
Lemma profile_partitions_by_dtype_witness :
  exists p : full_profile,
    profile_dataframe staff = Ok p
    /\ keys (basic_statistics p) = ["salary"; "bonus"]
    /\ keys (categorical_analysis p) = ["city"].
Proof.
  destruct (profile_partitions_by_dtype staff) as (p & E & K1 & _ & K2 & _).
  - distinct.
  - reflexivity.
  - exists p. split; [exact E|]. split; [exact K1 | exact K2].
Defined.

(** *** C5 *)

(** Two perfectly correlated columns under a 20% increase. *)
Lemma percentage_impact_estimates_witness :
  exists (rep : what_if_report) (w' : world),
    run_what_if_scenario answering 0 (increase "t" 20) (store_of ranking)
    = (Ok (Report rep), w')
    /\ dict_get (impact_analysis rep) "b"
       = Some {| correlation := 1; estimated_impact := 20 |}.
Proof.
  destruct (percentage_impact_estimates
              answering (store_of ranking) 0 ranking (increase "t" 20)
              (Number [1; 2; 3; 4]%float) [1; 2; 3; 4]%float "narrative")
    as (rep & w' & E & _ & _ & P).
  - reflexivity.
  - distinct.
  - reflexivity.
  - reflexivity.
  - reflexivity.
  - intros p _. reflexivity.
  - exists rep, w'. split; [exact E|].
    apply (P "b" [2; 4; 6; 8]%float); try reflexivity.
    cbn. discriminate.
Defined.

(** *** C6 *)

(** C6 fails as stated: the result of a run whose analyzer call fails is the
    message alone, not a report. *)
Lemma analyzer_failure_drops_numeric_sections :
  fst (run_what_if_scenario failing 0 (increase "salary" 20) (store_of staff))
  = Ok (Message "❌ Error during what-if analysis: 504 Deadline Exceeded")
  /\ forall rep : what_if_report,
      fst (run_what_if_scenario failing 0 (increase "salary" 20) (store_of staff))
      <> Ok (Report rep).
Proof.
  destruct (run_what_if_scenario failing 0 (increase "salary" 20) (store_of staff))
    as [o w'] eqn:E.
  run_in E. split; [reflexivity|]. intros rep. cbn. discriminate.
Qed.

(** The same run, by the amended statement. *)
Lemma analyzer_failure_returns_message_only_witness :
  exists w' : world,
    run_what_if_scenario failing 0 (increase "salary" 20) (store_of staff)
    = (Ok (Message "❌ Error during what-if analysis: 504 Deadline Exceeded"), w')
    /\ frame_at w' 0 = Some staff.
Proof.
  destruct (analyzer_failure_returns_message_only
              failing (store_of staff) 0 staff (increase "salary" 20)
              (Number salary) salary (ExternalError "504 Deadline Exceeded"))
    as (w' & E & Hf).
  - reflexivity.
  - distinct.
  - reflexivity.
  - reflexivity.
  - reflexivity.
  - intros p _. reflexivity.
  - exists w'. split; [exact E | exact Hf].
Defined.

(** *** C7 *)

(** C7 fails as stated: the column has present entries, yet their median,
    the mean of [-inf] and [inf], is NaN, and the missing entry stays. *)
Lemma clean_leaves_missing_between_infinities :
  (forall n c, In (n, c) unbounded -> isnull_any c = true -> has_present c = true)
  /\ exists (r' : ref) (w' : world) (df' : DataFrame),
      clean_dataframe 0 (store_of unbounded) = (Ok r', w')
      /\ frame_at w' r' = Some df'
      /\ getitem df' "x" = Some (Number [neg_infinity; infinity; nan])
      /\ isnull_any (Number [neg_infinity; infinity; nan]) = true.
Proof.
  split.
  - intros n c H _. each_column H. reflexivity.
  - destruct (clean_dataframe 0 (store_of unbounded)) as [o w'] eqn:E.
    run_in E. eexists. eexists. eexists.
    split; [reflexivity|]. split; [reflexivity|]. split; reflexivity.
Qed.

(** A frame with a gap in a number, an object and a datetime column. *)
Lemma clean_dataframe_imputes_witness :
  exists (r' : ref) (w' : world),
    clean_dataframe 0 (store_of gaps) = (Ok r', w')
    /\ frame_at w' 0 = Some gaps
    /\ frame_at w' r'
       = Some [("x", Number [1; 3; 3; 10]%float);
               ("city", Object [Some "b"; Some "b"; Some "a"; Some "b"]);
               ("seen", Datetime [Some 5%Z; Some 5%Z; Some 5%Z; Some 2%Z])].
Proof.
  destruct (clean_dataframe_imputes (store_of gaps) 0 gaps)
    as (r' & w' & E & _ & Hin & _ & Hout & _).
  - reflexivity.
  - distinct.
  - intros n c H. each_column H; cbn; repeat constructor.
  - intros n c H _. each_column H; reflexivity.
  - exists r', w'. split; [exact E|]. split; [exact Hin|]. exact Hout.
Defined.

(** *** C8 *)

(** The salary column inside a frame. *)
Lemma outliers_count_is_iqr_rule_witness :
  exists p : full_profile,
    profile_dataframe staff = Ok p
    /\ dict_get (outliers_count p) "salary" = Some 1.
Proof.
  destruct (outliers_count_is_iqr_rule staff "salary" salary)
    as (p & E & Hcount & _).
  - distinct.
  - reflexivity.
  - exists p. split; [exact E|]. exact Hcount.
Defined.

(** *** C9 *)

(** C9 fails as stated: with one row the baseline std is NaN, and so is its
    reported change under a 0% increase. *)
Lemma one_row_zero_change_reports_nan :
  exists (rep : what_if_report) (w' : world),
    run_what_if_scenario answering 0 (increase "salary" 0) (store_of one_row)
    = (Ok (Report rep), w')
    /\ is_nan (s_std (original_stats rep)) = true
    /\ is_nan (s_std (stats_changes rep)) = true
    /\ (s_std (stats_changes rep) =? 0)%float = false.
Proof.
  destruct (run_what_if_scenario answering 0 (increase "salary" 0) (store_of one_row))
    as [o w'] eqn:E.
  run_in E. eexists. eexists. split; [reflexivity|]. repeat split; reflexivity.
Qed.

(** The new mean of a two-row column, against its old mean times 1.10: off
    by more than 1e-9. *)
Lemma mean_relation_beyond_absolute_tolerance :
  exists (rep : what_if_report) (w' : world),
    run_what_if_scenario answering 0 (increase "revenue" 10) (store_of revenue)
    = (Ok (Report rep), w')
    /\ (abs (s_mean (new_stats rep) - s_mean (original_stats rep) * 1.10)
        <=? 1e-9)%float = false.
Proof.
  destruct (run_what_if_scenario answering 0 (increase "revenue" 10) (store_of revenue))
    as [o w'] eqn:E.
  run_in E. eexists. eexists. split; [reflexivity|]. reflexivity.
Qed.

(** A 0% increase of the salary column. *)
Lemma percentage_increase_scales_column_witness :
  exists (rep : what_if_report) (w' : world),
    run_what_if_scenario answering 0 (increase "salary" 0) (store_of staff)
    = (Ok (Report rep), w')
    /\ new_stats rep = original_stats rep
    /\ s_mean (stats_changes rep) = 0%float.
Proof.
  destruct (percentage_increase_scales_column
              answering (store_of staff) 0 staff (increase "salary" 0)
              (Number salary) salary "narrative")
    as (rep & w' & E & _ & _ & _ & _ & _ & Z & _).
  - reflexivity.
  - distinct.
  - reflexivity.
  - reflexivity.
  - reflexivity.
  - intros p _. reflexivity.
  - destruct (Z eq_refl) as (_ & Hs & Hm & _).
    exists rep, w'. split; [exact E|]. split; [exact Hs|]. apply Hm. reflexivity.
Defined.

(** *** C10 *)

(** C10 fails as stated: next to the all-missing number column, an
    all-missing object column makes [mode()[0]] raise. *)
Lemma clean_raises_on_empty_object_column :
  getitem empty_columns "z" = Some (Number [nan; nan])
  /\ exists w' : world,
      clean_dataframe 0 (store_of empty_columns) = (Raise (KeyError "0"), w').
Proof.
  split; [reflexivity|].
  destruct (clean_dataframe 0 (store_of empty_columns)) as [o w'] eqn:E.
  run_in E. eexists. reflexivity.
Qed.

(** An all-missing number column next to an object column with a gap. *)
Lemma clean_dataframe_all_missing_numeric_witness :
  exists (r' : ref) (w' : world) (df' : DataFrame),
    clean_dataframe 0 (store_of unmeasured) = (Ok r', w')
    /\ frame_at w' r' = Some df'
    /\ getitem df' "z" = Some (Number [nan; nan]).
Proof.
  destruct (clean_dataframe_all_missing_numeric
              (store_of unmeasured) 0 unmeasured "z" [nan; nan])
    as (r' & w' & df' & E & _ & Hf & Hz).
  - reflexivity.
  - distinct.
  - reflexivity.
  - reflexivity.
  - intros n c H Hnum _. each_column H; [discriminate Hnum | reflexivity].
  - exists r', w', df'. split; [exact E|]. split; [exact Hf | exact Hz].
Defined.

End Scenarios.

(* ================================================================== *)
(** * Part III: further properties of the code *)
(* ================================================================== *)

(** ** The cleaner, beyond its contract *)

Module CleanerExtras.

Import Pandas Runtime Cleaner Spec Shape Examples.
Import FloatFacts FrameFacts CleanerFacts CleanerTheorems.
Local Open Scope string_scope.
Local Open Scope list_scope.

Ltac distinct_names :=
  repeat (apply NoDup_cons; [cbn; intuition discriminate|]); apply NoDup_nil.

Ltac by_column H :=
  cbn in H;
  repeat (destruct H as [H|H]; [injection H as <- <-|]); [..|destruct H].

(** *** Imputing twice *)

Lemma fillna_nan (v : list float) :
  map (fun x => if isna x then nan else x) v = v.
Proof.
  induction v as [|x v IH]; cbn; [reflexivity|]. rewrite IH.
  destruct (isna x) eqn:E; [|reflexivity]. now rewrite (is_nan_eq x E).
Qed.

Lemma imputed_idempotent (c : Series) : imputed (imputed c) = imputed c.
Proof.
  destruct c as [v|v|v|v|v].
  - destruct (isna (median v)) eqn:E.
    + assert (Hid : imputed (Number v) = Number v)
        by (cbn [imputed]; now rewrite (is_nan_eq _ E), fillna_nan).
      now rewrite !Hid.
    + apply imputed_unchanged. cbn [imputed isnull_any]. now apply fillna_complete.
  - reflexivity.
  - destruct (mode_first String.eqb String.leb (present v)) eqn:E.
    + apply imputed_unchanged. cbn [imputed]. rewrite E. cbn. apply fill_complete.
    + assert (Hid : imputed (Object v) = Object v) by (cbn [imputed]; now rewrite E).
      now rewrite !Hid.
  - destruct (mode_first String.eqb String.leb (present v)) eqn:E.
    + apply imputed_unchanged. cbn [imputed]. rewrite E. cbn. apply fill_complete.
    + assert (Hid : imputed (Category v) = Category v) by (cbn [imputed]; now rewrite E).
      now rewrite !Hid.
  - destruct (mode_first Z.eqb Z.leb (present v)) eqn:E.
    + apply imputed_unchanged. cbn [imputed]. rewrite E. cbn. apply fill_complete.
    + assert (Hid : imputed (Datetime v) = Datetime v) by (cbn [imputed]; now rewrite E).
      now rewrite !Hid.
Qed.

Lemma imputed_frame_idempotent (df : DataFrame) :
  imputed_frame (imputed_frame df) = imputed_frame df.
Proof.
  unfold imputed_frame. rewrite map_map. apply map_ext.
  intros [n c]. cbn. now rewrite imputed_idempotent.
Qed.

Lemma imputed_fillable (c : Series) : fillable c -> fillable (imputed c).
Proof.
  intros Hf. destruct c as [v|v|v|v|v]; cbn [imputed];
    try (intros Hn; discriminate Hn);
    (destruct (mode_first _ _ _);
     [intros _ Hnull; cbn in Hnull; rewrite fill_complete in Hnull; discriminate
     | exact Hf]).
Qed.

(** [clean_dataframe] is idempotent: cleaning the frame it returned gives a
    second new frame with the same content, and leaves the first as it is. *)
Theorem clean_dataframe_idempotent (w : world) (r : ref) (df : DataFrame) :
  frame_at w r = Some df ->
  NoDup (columns df) ->
  (forall n c, In (n, c) df -> is_numeric_dtype c = false ->
               isnull_any c = true -> has_present c = true) ->
  exists (r1 r2 : ref) (w1 w2 : world) (cleaned : DataFrame),
    clean_dataframe r w = (Ok r1, w1)
    /\ clean_dataframe r1 w1 = (Ok r2, w2)
    /\ r2 <> r1
    /\ frame_at w1 r1 = Some cleaned
    /\ frame_at w2 r1 = Some cleaned
    /\ frame_at w2 r2 = Some cleaned.
Proof.
  destruct w as [F C]. unfold frame_at at 1. cbn [frames].
  intros HF ND Hfill.
  destruct (clean_dataframe_run F C r df HF ND Hfill) as [C1 E1].
  destruct (clean_dataframe_run (F ++ [imputed_frame df]) C1 (length F)
              (imputed_frame df) (nth_error_last F _)) as [C2 E2].
  { now rewrite columns_imputed_frame. }
  { intros n c Hin. unfold imputed_frame in Hin.
    apply in_map_iff in Hin as ([n0 c0] & [= <- <-] & Hin).
    apply imputed_fillable. exact (Hfill n0 c0 Hin). }
  rewrite imputed_frame_idempotent in E2.
  eexists. eexists. eexists. eexists. exists (imputed_frame df).
  split; [exact E1|]. split; [exact E2|].
  split; [rewrite length_app; cbn; lia|].
  unfold frame_at. cbn [frames].
  split; [apply nth_error_last|].
  split; [apply nth_error_old, nth_error_last | apply nth_error_last].
Qed.

Lemma clean_dataframe_idempotent_witness :
  exists (r1 r2 : ref) (w1 w2 : world) (cleaned : DataFrame),
    clean_dataframe 0 (store_of gaps) = (Ok r1, w1)
    /\ clean_dataframe r1 w1 = (Ok r2, w2)
    /\ frame_at w2 r1 = Some cleaned
    /\ frame_at w2 r2 = Some cleaned.
Proof.
  destruct (clean_dataframe_idempotent (store_of gaps) 0 gaps)
    as (r1 & r2 & w1 & w2 & cleaned & E1 & E2 & _ & _ & H1 & H2).
  - reflexivity.
  - distinct_names.
  - intros n c H _ _. by_column H; reflexivity.
  - exists r1, r2, w1, w2, cleaned. repeat split; assumption.
Defined.

(** *** What cleaning keeps *)

Lemma fillna_keeps (m : float) (v : list float) (i : nat) (x : float) :
  nth_error v i = Some x -> isna x = false ->
  nth_error (map (fun y => if isna y then m else y) v) i = Some x.
Proof.
  intros H Hx. rewrite nth_error_map, H. cbn. now rewrite Hx.
Qed.

Lemma fill_keeps {A : Type} (m : A) (v : list (option A)) (i : nat) (s : A) :
  nth_error v i = Some (Some s) -> nth_error (fill m v) i = Some (Some s).
Proof.
  intros H. unfold fill. now rewrite nth_error_map, H.
Qed.

Lemma imputed_keeps_present (c : Series) : keeps_present c (imputed c).
Proof.
  destruct c as [v|v|v|v|v]; cbn.
  - intros i x. apply fillna_keeps.
  - reflexivity.
  - destruct (mode_first _ _ _); [intros i y; apply fill_keeps | intros i y H; exact H].
  - destruct (mode_first _ _ _); [intros i y; apply fill_keeps | intros i y H; exact H].
  - destruct (mode_first _ _ _); [intros i y; apply fill_keeps | intros i y H; exact H].
Qed.

Lemma imputed_rows (c : Series) : rows (imputed c) = rows c.
Proof.
  destruct c as [v|v|v|v|v]; cbn; try reflexivity;
    try (destruct (mode_first _ _ _); cbn; unfold fill);
    now rewrite ?length_map.
Qed.

(** [clean_dataframe] keeps the shape of the data: the frame it returns has
    the columns of the input in the same order, every column with its dtype
    and number of rows, and every entry that was present is in its row
    unchanged.  Only missing entries are written. *)
Theorem clean_dataframe_keeps_present (w : world) (r : ref) (df : DataFrame) :
  frame_at w r = Some df ->
  NoDup (columns df) ->
  (forall n c, In (n, c) df -> is_numeric_dtype c = false ->
               isnull_any c = true -> has_present c = true) ->
  exists (r' : ref) (w' : world) (cleaned : DataFrame),
    clean_dataframe r w = (Ok r', w')
    /\ frame_at w' r' = Some cleaned
    /\ columns cleaned = columns df
    /\ forall n c, getitem df n = Some c ->
         exists c', getitem cleaned n = Some c'
                    /\ rows c' = rows c
                    /\ keeps_present c c'.
Proof.
  destruct w as [F C]. unfold frame_at at 1. cbn [frames].
  intros HF ND Hfill.
  destruct (clean_dataframe_run F C r df HF ND Hfill) as [C1 E1].
  eexists. eexists. exists (imputed_frame df).
  split; [exact E1|].
  split; [unfold frame_at; cbn [frames]; apply nth_error_last|].
  split; [apply columns_imputed_frame|].
  intros n c Hg. exists (imputed c).
  rewrite getitem_imputed_frame, Hg.
  split; [reflexivity|]. split; [apply imputed_rows | apply imputed_keeps_present].
Qed.

Lemma clean_dataframe_keeps_present_witness :
  exists (r' : ref) (w' : world) (cleaned : DataFrame),
    clean_dataframe 0 (store_of gaps) = (Ok r', w')
    /\ frame_at w' r' = Some cleaned
    /\ columns cleaned = ["x"; "city"; "seen"].
Proof.
  destruct (clean_dataframe_keeps_present (store_of gaps) 0 gaps)
    as (r' & w' & cleaned & E & Hf & Hc & _).
  - reflexivity.
  - distinct_names.
  - intros n c H _ _. by_column H; reflexivity.
  - exists r', w', cleaned. repeat split; assumption.
Defined.

(** *** The column that cannot be filled *)

Lemma present_empty {A : Type} (v : list (option A)) :
  existsb (fun e => negb (isnull e)) v = false -> present v = [].
Proof.
  induction v as [|[x|] v IH]; cbn; try discriminate; auto.
Qed.

Lemma unfillable_mode0 (c : Series) : unfillable c = true -> mode0 c = None.
Proof.
  unfold unfillable. intros H.
  apply andb_true_iff in H as [H Hp]. apply andb_true_iff in H as [Hn _].
  apply negb_true_iff in Hp.
  destruct c as [v|v|v|v|v]; cbn in *; try discriminate;
    now rewrite (present_empty v Hp).
Qed.

Lemma not_unfillable (c : Series) : unfillable c = false -> fillable c.
Proof.
  unfold unfillable, fillable. intros H Hn Hnull. rewrite Hn, Hnull in H.
  cbn in H. now apply negb_false_iff in H.
Qed.

Lemma clean_column_raises (Fs : list DataFrame) (C : list event) (r : ref)
      (d : DataFrame) (n : string) (c : Series) :
  nth_error Fs r = Some d -> getitem d n = Some c -> unfillable c = true ->
  clean_column r n {| frames := Fs; calls := C |}
  = (Raise (KeyError "0"),
     {| frames := Fs; calls := C ++ [Reduction "mode" n] |}).
Proof.
  intros HF Hg Hu. pose proof (unfillable_mode0 c Hu) as Hm.
  unfold unfillable in Hu.
  apply andb_true_iff in Hu as [Hu _]. apply andb_true_iff in Hu as [Hn Hnull].
  apply negb_true_iff in Hn.
  unfold clean_column, bind, column_of, bind, deref, frame_at. cbn [frames].
  rewrite HF, Hg. cbn [ret]. rewrite Hnull, Hn.
  unfold mode_of, bind, column_of, bind, deref, frame_at, log. cbn [frames calls].
  rewrite HF, Hg. cbn [ret frames calls]. now rewrite Hm.
Qed.

Lemma clean_loop_raises (F : list DataFrame) (post : DataFrame) :
  forall (pre : DataFrame) (C : list event),
    NoDup (columns (pre ++ post)) ->
    existsb (fun nc => unfillable (snd nc)) post = true ->
    exists (d' : DataFrame) (C' : list event),
      for_each (columns post) (clean_column (length F))
               {| frames := F ++ [imputed_frame pre ++ post]; calls := C |}
      = (Raise (KeyError "0"), {| frames := F ++ [d']; calls := C' |}).
Proof.
  induction post as [|[n c] post IH]; intros pre C ND Hex; [discriminate|].
  cbn [columns map fst for_each]. unfold bind.
  assert (Hnotin : ~ In n (columns (imputed_frame pre))).
  { rewrite columns_imputed_frame. unfold columns in *. rewrite map_app in ND.
    cbn in ND. apply NoDup_remove_2 in ND. intros Hin. apply ND.
    apply in_or_app. now left. }
  assert (Hg : getitem (imputed_frame pre ++ (n, c) :: post) n = Some c).
  { rewrite getitem_app_skip by exact Hnotin. cbn. now rewrite String.eqb_refl. }
  destruct (unfillable c) eqn:Hu.
  - pose proof (clean_column_raises (F ++ [imputed_frame pre ++ (n, c) :: post]) C
                  (length F) _ n c (nth_error_last F _) Hg Hu) as E.
    rewrite E. eauto.
  - cbn [existsb snd] in Hex. rewrite Hu in Hex. cbn [orb] in Hex.
    destruct (clean_column_run (F ++ [imputed_frame pre ++ (n, c) :: post]) C
                (length F) _ n c (nth_error_last F _) Hg (not_unfillable c Hu))
      as [C1 E].
    rewrite E. rewrite replace_nth_last.
    rewrite setitem_app_skip by exact Hnotin. cbn [setitem].
    rewrite String.eqb_refl.
    specialize (IH (pre ++ [(n, c)]) C1).
    replace (imputed_frame pre ++ (n, imputed c) :: post)
      with (imputed_frame (pre ++ [(n, c)]) ++ post).
    2:{ unfold imputed_frame. rewrite map_app. cbn. now rewrite <- app_assoc. }
    rewrite <- app_assoc in IH. cbn [app] in IH.
    apply IH; assumption.
Qed.

(** [clean_dataframe] raises [KeyError] as soon as the dataset has a column
    that is not numeric, has a missing entry and has no present one (an
    object or datetime column of nothing but gaps): the mode of such a column
    is empty and [mode()[0]] fails.  No frame is returned; the input frame is
    as it was. *)
Theorem clean_dataframe_raises_on_empty_column
        (w : world) (r : ref) (df : DataFrame) :
  frame_at w r = Some df ->
  NoDup (columns df) ->
  existsb (fun nc => unfillable (snd nc)) df = true ->
  exists w' : world,
    clean_dataframe r w = (Raise (KeyError "0"), w')
    /\ (forall r0 d, frame_at w r0 = Some d -> frame_at w' r0 = Some d).
Proof.
  destruct w as [F C]. unfold frame_at at 1. cbn [frames].
  intros HF ND Hex.
  destruct (clean_loop_raises F df [] C ND Hex) as (d' & C' & E).
  change (imputed_frame [] ++ df) with df in E.
  exists {| frames := F ++ [d']; calls := C' |}. split.
  - unfold clean_dataframe, bind, copy, bind, deref, frame_at. cbn [frames].
    rewrite HF. cbn [frames calls].
    unfold columns_of, bind, deref, frame_at. cbn [frames].
    rewrite nth_error_last. cbn [ret]. unfold DataFrame in *. now rewrite E.
  - unfold frame_at. cbn [frames]. intros r0 d H. now apply nth_error_old.
Qed.

Lemma clean_dataframe_raises_on_empty_column_witness :
  exists w' : world,
    clean_dataframe 0 (store_of empty_columns) = (Raise (KeyError "0"), w')
    /\ frame_at w' 0 = Some empty_columns.
Proof.
  destruct (clean_dataframe_raises_on_empty_column
              (store_of empty_columns) 0 empty_columns) as (w' & E & H).
  - reflexivity.
  - distinct_names.
  - reflexivity.
  - exists w'. split; [exact E|]. now apply H.
Defined.

End CleanerExtras.

(** ** The pipeline *)

Module PipelineExtras.

Import Pandas Runtime Cleaner Profiler Orchestrator Pipeline Spec Shape Examples.
Import FloatFacts FrameFacts CleanerFacts CleanerTheorems ProfilerFacts.
Import OrchestratorFacts CleanerExtras.
Local Open Scope string_scope.
Local Open Scope list_scope.

Lemma profile_of_any (Fs : list DataFrame) (C : list event) (r : ref)
      (d : DataFrame) :
  nth_error Fs r = Some d ->
  profile_of r {| frames := Fs; calls := C |}
  = (profile_dataframe d, {| frames := Fs; calls := C ++ [Profiling] |}).
Proof.
  intros HF. unfold profile_of.
  rewrite (bind_ok _ _ _ _ _ (deref_run Fs C r d HF)).
  unfold bind, log, lift. cbn [frames calls]. now destruct (profile_dataframe d).
Qed.

Lemma number_columns_imputed (df : DataFrame) :
  map fst (number_columns (imputed_frame df)) = map fst (number_columns df).
Proof.
  induction df as [|[n c] df IH]; [reflexivity|].
  destruct c as [v|v|v|v|v]; cbn [imputed_frame map fst snd imputed];
    try destruct (mode_first _ _ _); cbn [number_columns map fst];
    fold (imputed_frame df); now rewrite ?IH.
Qed.

(** A run of the pipeline, when the cleaner gets through. *)
Lemma pipeline_run (analyzer_chain : full_profile -> outcome string)
      (F : list DataFrame) (C : list event) (r : ref) (df : DataFrame) :
  nth_error F r = Some df ->
  NoDup (columns df) ->
  (forall n c, In (n, c) df -> fillable c) ->
  exists C' : list event,
    forall chain : full_profile -> outcome string,
      run_pipeline chain r {| frames := F; calls := C |}
      = match profile_dataframe (imputed_frame df) with
        | Ok p =>
          (match chain p with
           | Ok insights_report => Ok (insights_report, length F)
           | Raise e => Raise e
           end,
           {| frames := F ++ [imputed_frame df];
              calls := (C' ++ [Profiling]) ++ [Analysis] |})
        | Raise e =>
          (Raise e,
           {| frames := F ++ [imputed_frame df]; calls := C' ++ [Profiling] |})
        end.
Proof.
  intros HF ND Hfill.
  destruct (clean_dataframe_run F C r df HF ND Hfill) as [C' E].
  exists C'. intros chain. unfold run_pipeline.
  rewrite (bind_ok _ _ _ _ _ E).
  unfold bind at 1.
  rewrite (profile_of_any _ C' (length F) _ (nth_error_last F _)).
  destruct (profile_dataframe (imputed_frame df)) as [p|e]; [|reflexivity].
  unfold bind. rewrite invoke_run. now destruct (chain p).
Qed.

(** [run_pipeline] returns the analyzer's text for the profile of the cleaned
    frame, together with the cleaned frame: a new frame, the input with its
    gaps filled.  The input frame is as it was. *)
Theorem run_pipeline_returns_report_and_cleaned_frame
        (analyzer_chain : full_profile -> outcome string)
        (w : world) (r : ref) (df : DataFrame) (insights : string) :
  frame_at w r = Some df ->
  NoDup (columns df) ->
  (forall n c, In (n, c) df -> is_numeric_dtype c = false ->
               isnull_any c = true -> has_present c = true) ->
  existsb (fun nc => is_number (snd nc)) df = true ->
  (forall p, profile_dataframe (imputed_frame df) = Ok p ->
             analyzer_chain p = Ok insights) ->
  exists (cleaned_df : ref) (w' : world),
    run_pipeline analyzer_chain r w = (Ok (insights, cleaned_df), w')
    /\ frame_at w cleaned_df = None
    /\ frame_at w' cleaned_df = Some (imputed_frame df)
    /\ frame_at w' r = Some df.
Proof.
  destruct w as [F C]. unfold frame_at at 1. cbn [frames].
  intros HF ND Hfill Hnum Hchain.
  destruct (pipeline_run analyzer_chain F C r df HF ND Hfill) as [C' E].
  specialize (E analyzer_chain).
  assert (Hne : number_columns (imputed_frame df) <> []).
  { intros X. pose proof (number_columns_imputed df) as N. rewrite X in N.
    apply existsb_exists in Hnum as ([n c] & Hin & Hc). cbn in Hc.
    destruct c; try discriminate. apply In_number_columns in Hin.
    destruct (number_columns df); [exact Hin | discriminate]. }
  assert (NDi : NoDup (columns (imputed_frame df)))
    by now rewrite columns_imputed_frame.
  rewrite (profile_ok _ NDi Hne) in E.
  rewrite (Hchain _ (profile_ok _ NDi Hne)) in E.
  eexists. eexists. split; [exact E|].
  split; [apply frame_at_fresh|]. unfold frame_at. cbn [frames].
  split; [apply nth_error_last | now apply nth_error_old].
Qed.

Lemma run_pipeline_returns_report_and_cleaned_frame_witness :
  exists (cleaned_df : ref) (w' : world),
    run_pipeline answering 0 (store_of staff) = (Ok ("narrative", cleaned_df), w')
    /\ frame_at w' 0 = Some staff.
Proof.
  destruct (run_pipeline_returns_report_and_cleaned_frame
              answering (store_of staff) 0 staff "narrative")
    as (cleaned_df & w' & E & _ & _ & H).
  - reflexivity.
  - distinct_names.
  - intros n c H _ _. by_column H; reflexivity.
  - reflexivity.
  - intros p _. reflexivity.
  - exists cleaned_df, w'. split; assumption.
Defined.

(** On a dataset without an int64/float64 column [run_pipeline] raises the
    [ValueError] of [describe()], after cleaning; the analyzer plays no part
    in the run, which ends in the same way and the same store whatever the
    analyzer is. *)
Theorem run_pipeline_raises_without_number_column
        (w : world) (r : ref) (df : DataFrame) :
  frame_at w r = Some df ->
  NoDup (columns df) ->
  (forall n c, In (n, c) df -> is_numeric_dtype c = false ->
               isnull_any c = true -> has_present c = true) ->
  existsb (fun nc => is_number (snd nc)) df = false ->
  exists w' : world,
    frame_at w' r = Some df
    /\ forall analyzer_chain : full_profile -> outcome string,
        run_pipeline analyzer_chain r w
        = (Raise (ValueError "Cannot describe a DataFrame without columns"), w').
Proof.
  destruct w as [F C]. unfold frame_at at 1. cbn [frames].
  intros HF ND Hfill Hnum.
  destruct (pipeline_run answering F C r df HF ND Hfill) as [C' E].
  assert (Hnone : number_columns (imputed_frame df) = []).
  { pose proof (number_columns_imputed df) as N.
    assert (X : number_columns df = []).
    { destruct (number_columns df) as [|[n v] l] eqn:Y; [reflexivity|].
      assert (Hin : In (n, v) (number_columns df)) by (rewrite Y; now left).
      apply In_number_columns in Hin.
      assert (T : existsb (fun nc => is_number (snd nc)) df = true)
        by (apply existsb_exists; exists (n, Number v); split; [exact Hin | reflexivity]).
      congruence. }
    rewrite X in N. destruct (number_columns (imputed_frame df)); [reflexivity | discriminate]. }
  assert (P : profile_dataframe (imputed_frame df)
              = Raise (ValueError "Cannot describe a DataFrame without columns"))
    by (unfold profile_dataframe; now rewrite Hnone).
  rewrite P in E. eexists. split; [|exact E].
  unfold frame_at. cbn [frames]. now apply nth_error_old.
Qed.

Lemma run_pipeline_raises_without_number_column_witness :
  exists w' : world,
    run_pipeline answering 0 (store_of [("city", Object [Some "Pune"; None])])
    = (Raise (ValueError "Cannot describe a DataFrame without columns"), w').
Proof.
  destruct (run_pipeline_raises_without_number_column
              (store_of [("city", Object [Some "Pune"; None])]) 0
              [("city", Object [Some "Pune"; None])]) as (w' & _ & E).
  - reflexivity.
  - distinct_names.
  - intros n c H _ _. by_column H; reflexivity.
  - reflexivity.
  - exists w'. apply E.
Defined.

(** A failure of the analyzer leaves [run_pipeline] as the exception it is:
    nothing is caught, no text is returned (where [run_what_if_scenario]
    returns a message).  The cleaning has happened by then; the input frame
    is as it was. *)
Theorem run_pipeline_propagates_analyzer_failure
        (analyzer_chain : full_profile -> outcome string)
        (w : world) (r : ref) (df : DataFrame) (e : exn) :
  frame_at w r = Some df ->
  NoDup (columns df) ->
  (forall n c, In (n, c) df -> is_numeric_dtype c = false ->
               isnull_any c = true -> has_present c = true) ->
  existsb (fun nc => is_number (snd nc)) df = true ->
  (forall p, profile_dataframe (imputed_frame df) = Ok p ->
             analyzer_chain p = Raise e) ->
  exists w' : world,
    run_pipeline analyzer_chain r w = (Raise e, w')
    /\ frame_at w' r = Some df
    /\ frame_at w' (length (frames w)) = Some (imputed_frame df).
Proof.
  destruct w as [F C]. unfold frame_at at 1. cbn [frames].
  intros HF ND Hfill Hnum Hchain.
  destruct (pipeline_run analyzer_chain F C r df HF ND Hfill) as [C' E].
  specialize (E analyzer_chain).
  assert (Hne : number_columns (imputed_frame df) <> []).
  { intros X. pose proof (number_columns_imputed df) as N. rewrite X in N.
    apply existsb_exists in Hnum as ([n c] & Hin & Hc). cbn in Hc.
    destruct c; try discriminate. apply In_number_columns in Hin.
    destruct (number_columns df); [exact Hin | discriminate]. }
  assert (NDi : NoDup (columns (imputed_frame df)))
    by now rewrite columns_imputed_frame.
  rewrite (profile_ok _ NDi Hne) in E.
  rewrite (Hchain _ (profile_ok _ NDi Hne)) in E.
  eexists. split; [exact E|]. unfold frame_at. cbn [frames].
  split; [now apply nth_error_old | apply nth_error_last].
Qed.

Lemma run_pipeline_propagates_analyzer_failure_witness :
  exists w' : world,
    run_pipeline failing 0 (store_of staff)
    = (Raise (ExternalError "504 Deadline Exceeded"), w')
    /\ frame_at w' 0 = Some staff.
Proof.
  destruct (run_pipeline_propagates_analyzer_failure
              failing (store_of staff) 0 staff (ExternalError "504 Deadline Exceeded"))
    as (w' & E & H & _).
  - reflexivity.
  - distinct_names.
  - intros n c H _ _. by_column H; reflexivity.
  - reflexivity.
  - intros p _. reflexivity.
  - exists w'. split; assumption.
Defined.

End PipelineExtras.

(** ** The what-if engine, beyond its contract *)

Module WhatIfExtras.

Import Pandas Runtime Cleaner Profiler Orchestrator Spec Shape Examples App.
Import FloatFacts FrameFacts ProfilerFacts OrchestratorFacts OrchestratorTheorems.
Import CleanerExtras.
Local Open Scope string_scope.
Local Open Scope list_scope.

(** *** Multiplying by [-1] *)

Lemma minus_one_SF : Prim2SF (-1)%float = S754_finite true 4503599627370496 (-52).
Proof. reflexivity. Qed.

Lemma mul_minus_one (x : float) : (x * -1 = - x)%float.
Proof.
  apply Prim2SF_inj. rewrite mul_spec, opp_spec, minus_one_SF.
  pose proof (Prim2SF_valid x) as V.
  destruct (Prim2SF x) as [s|s| |s m e]; unfold SF64mul, SFmul;
    rewrite ?xorb_true_r; try reflexivity.
  cbn [SFopp]. simpl in V. pose proof V as B. unfold bounded in B.
  apply andb_true_iff in B as [Hc He].
  unfold binary_round_aux. rewrite (shr_fexp_shift52 m e Hc). simpl.
  rewrite (shr_fexp_canonical m e Hc). simpl.
  change (e <=? 971)%Z with (e <=? emax - prec)%Z. now rewrite He.
Qed.

(** *** Every path of a run *)

Lemma numeric_values (c : Series) :
  is_numeric_dtype c = true -> exists t, to_float c = Some t.
Proof. destruct c; cbn; try discriminate; eauto. Qed.

Lemma apply_modification_unknown (w : world) (r : ref) (col ct : string)
      (val : float) :
  known_change ct = false ->
  apply_modification r col ct val w = (Ok None, w).
Proof.
  unfold known_change, apply_modification. intros H.
  apply orb_false_iff in H as [H H3]. apply orb_false_iff in H as [H1 H2].
  now rewrite H1, H2, H3.
Qed.

Lemma five_stats_calls (Fs : list DataFrame) (C : list event) (r : ref)
      (d : DataFrame) (col : string) (c : Series) (v : list float) :
  nth_error Fs r = Some d -> getitem d col = Some c -> to_float c = Some v ->
  five_stats r col {| frames := Fs; calls := C |}
  = (Ok (five v),
     {| frames := Fs;
        calls := C ++ [Reduction "mean" col; Reduction "median" col;
                       Reduction "std" col; Reduction "min" col;
                       Reduction "max" col] |}).
Proof.
  intros HF Hg Hv. unfold five_stats.
  repeat (erewrite bind_ok; [|now apply (reduce_run _ _ Fs _ r d col c v)]).
  cbn [ret]. now rewrite <- !app_assoc.
Qed.

(** A change type that is none of the three. *)
Lemma unknown_change_run (analyzer_chain : full_profile -> outcome string)
      (F : list DataFrame) (C : list event) (r : ref) (df : DataFrame)
      (m : Modifications) (c : Series) (t : list float) :
  nth_error F r = Some df ->
  getitem df (column m) = Some c -> to_float c = Some t ->
  known_change (change_type m) = false ->
  run_what_if_scenario analyzer_chain r m {| frames := F; calls := C |}
  = (Ok (Message (unknown_change_type (change_type m))),
     {| frames := (F ++ [df]) ++ [df];
        calls := C ++ [Reduction "mean" (column m); Reduction "median" (column m);
                       Reduction "std" (column m); Reduction "min" (column m);
                       Reduction "max" (column m)] |}).
Proof.
  intros HF Hg Ht Hk.
  unfold run_what_if_scenario, try_except, what_if_body.
  unfold copy at 1. rewrite (bind_ok _ _ _ _ _ (bind_ok _ _ _ _ _ (deref_run F C r df HF))).
  cbn [frames calls].
  unfold copy at 1.
  rewrite (bind_ok _ _ _ _ _
             (bind_ok _ _ _ _ _ (deref_run (F ++ [df]) C r df (nth_error_old F [df] r df HF)))).
  cbn [frames calls].
  unfold columns_of.
  rewrite (bind_ok _ _ _ _ _
             (bind_ok _ _ _ _ _ (deref_run _ C (length F) df (nth_error_first_copy F df df)))).
  cbn [ret].
  assert (Hex : existsb (String.eqb (column m)) (columns df) = true).
  { destruct (existsb _ _) eqn:X; [reflexivity|].
    apply has_column_getitem in X. congruence. }
  rewrite Hex. cbn [negb].
  rewrite (bind_ok _ _ _ _ _
             (column_of_run _ C (length F) df (column m) c (nth_error_first_copy F df df) Hg)).
  assert (Hnum : is_numeric_dtype c = true) by (destruct c; cbn in *; congruence).
  rewrite Hnum. cbn [negb]. unfold analyse.
  rewrite (bind_ok _ _ _ _ _
             (five_stats_calls _ C _ df (column m) c t
                               (nth_error_second_copy F df df df) Hg Ht)).
  now rewrite (bind_ok _ _ _ _ _ (apply_modification_unknown _ _ _ _ _ Hk)).
Qed.

(** Whatever the request, a run ends with text and with the two copies added
    to the store. *)
Lemma any_run (analyzer_chain : full_profile -> outcome string)
      (F : list DataFrame) (C : list event) (r : ref) (df : DataFrame)
      (m : Modifications) :
  nth_error F r = Some df ->
  NoDup (columns df) ->
  exists (result : text) (modified : DataFrame) (C' : list event),
    run_what_if_scenario analyzer_chain r m {| frames := F; calls := C |}
    = (Ok result, {| frames := (F ++ [modified]) ++ [df]; calls := C' |})
    /\ forall (F' : list DataFrame) (C0 : list event),
        nth_error F' r = Some df ->
        fst (run_what_if_scenario analyzer_chain r m {| frames := F'; calls := C0 |})
        = Ok result.
Proof.
  intros HF ND.
  destruct (getitem df (column m)) as [c|] eqn:Hg.
  - destruct (is_numeric_dtype c) eqn:Hnum.
    + destruct (numeric_values c Hnum) as [t Ht].
      destruct (known_change (change_type m)) eqn:Hk.
      * destruct (what_if_run analyzer_chain F C r df m c t HF ND Hg Ht Hk)
          as (p & C' & Hp & E).
        eexists. eexists. eexists. split; [exact E|].
        intros F' C0 HF'.
        destruct (what_if_run analyzer_chain F' C0 r df m c t HF' ND Hg Ht Hk)
          as (p' & C'' & Hp' & E').
        rewrite E'. cbn [fst].
        assert (Hpp : p' = p) by (rewrite Hp in Hp'; now injection Hp').
        now rewrite Hpp.
      * eexists. eexists. eexists.
        split; [apply (unknown_change_run _ F C r df m c t HF Hg Ht Hk)|].
        intros F' C0 HF'.
        now rewrite (unknown_change_run _ F' C0 r df m c t HF' Hg Ht Hk).
    + assert (Hbad : forall c0, getitem df (column m) = Some c0 ->
                                is_numeric_dtype c0 = false)
        by (intros c0 H; congruence).
      eexists. eexists. eexists.
      split; [apply (validation_run _ F C r df m HF Hbad)|].
      intros F' C0 HF'. now rewrite (validation_run _ F' C0 r df m HF' Hbad).
  - assert (Hbad : forall c0, getitem df (column m) = Some c0 ->
                              is_numeric_dtype c0 = false)
      by (intros c0 H; congruence).
    eexists. eexists. eexists.
    split; [apply (validation_run _ F C r df m HF Hbad)|].
    intros F' C0 HF'. now rewrite (validation_run _ F' C0 r df m HF' Hbad).
Qed.

(** [run_what_if_scenario] never raises and never writes to a frame that was
    there: whatever the request (any column name, any change type, any value)
    and whatever the analyzer does, it returns text, the store has two frames
    more (the two copies), and every frame that was in the store, the input
    among them, is as it was. *)
Theorem run_what_if_scenario_never_raises_nor_mutates
        (analyzer_chain : full_profile -> outcome string)
        (w : world) (r : ref) (df : DataFrame) (m : Modifications) :
  frame_at w r = Some df ->
  NoDup (columns df) ->
  exists (result : text) (w' : world),
    run_what_if_scenario analyzer_chain r m w = (Ok result, w')
    /\ length (frames w') = length (frames w) + 2
    /\ forall r0 d, frame_at w r0 = Some d -> frame_at w' r0 = Some d.
Proof.
  destruct w as [F C]. unfold frame_at at 1. cbn [frames].
  intros HF ND.
  destruct (any_run analyzer_chain F C r df m HF ND) as (t & mf & C' & E & _).
  eexists. eexists. split; [exact E|]. cbn [frames].
  split; [rewrite !length_app; cbn; lia|].
  intros r0 d. apply frames_kept.
Qed.

Lemma run_what_if_scenario_never_raises_nor_mutates_witness :
  exists (result : text) (w' : world),
    run_what_if_scenario failing 0 (App.modifications "salary" "Halve" 2) (store_of staff)
    = (Ok result, w')
    /\ length (frames w') = 3
    /\ frame_at w' 0 = Some staff.
Proof.
  destruct (run_what_if_scenario_never_raises_nor_mutates
              failing (store_of staff) 0 staff (App.modifications "salary" "Halve" 2))
    as (result & w' & E & L & H).
  - reflexivity.
  - distinct_names.
  - exists result, w'. split; [exact E|]. split; [exact L|]. now apply H.
Defined.

(** A change type that is none of the three is refused with the message that
    quotes it, but only after the five baseline statistics of the target have
    been computed: they are the only calls of the run; no correlation, no
    profile and no analyzer call follows, and no copy is modified. *)
Theorem unknown_change_type_is_refused_late
        (analyzer_chain : full_profile -> outcome string)
        (w : world) (r : ref) (df : DataFrame) (m : Modifications) (c : Series) :
  frame_at w r = Some df ->
  getitem df (column m) = Some c ->
  is_numeric_dtype c = true ->
  known_change (change_type m) = false ->
  exists w' : world,
    run_what_if_scenario analyzer_chain r m w
    = (Ok (Message ("❌ Error: Unknown change type '" ++ change_type m ++ "'")), w')
    /\ calls w'
       = calls w ++ [Reduction "mean" (column m); Reduction "median" (column m);
                     Reduction "std" (column m); Reduction "min" (column m);
                     Reduction "max" (column m)]
    /\ frames w' = (frames w ++ [df]) ++ [df].
Proof.
  destruct w as [F C]. unfold frame_at at 1. cbn [frames].
  intros HF Hg Hnum Hk. destruct (numeric_values c Hnum) as [t Ht].
  eexists. split; [apply (unknown_change_run _ F C r df m c t HF Hg Ht Hk)|].
  split; reflexivity.
Qed.

Lemma unknown_change_type_is_refused_late_witness :
  exists w' : world,
    run_what_if_scenario answering 0 (App.modifications "salary" "Halve" 2) (store_of staff)
    = (Ok (Message "❌ Error: Unknown change type 'Halve'"), w')
    /\ length (calls w') = 5.
Proof.
  destruct (unknown_change_type_is_refused_late
              answering (store_of staff) 0 staff (App.modifications "salary" "Halve" 2)
              (Number salary)) as (w' & E & Hc & _).
  - reflexivity.
  - reflexivity.
  - reflexivity.
  - reflexivity.
  - exists w'. split; [exact E|]. now rewrite Hc.
Defined.



(** *** Increase and decrease *)

Lemma impact_of_decrease (p mean : float) (t : list float)
      (nv : string * list float) :
  impact_of "Percentage Decrease" p mean t nv
  = (fst (impact_of "Percentage Increase" p mean t nv),
     negated (snd (impact_of "Percentage Increase" p mean t nv))).
Proof.
  unfold impact_of, negated, estimate. cbn -[corr PrimFloat.mul PrimFloat.opp].
  now rewrite mul_one_r, mul_minus_one.
Qed.

(** A percentage decrease is reported as the mirror image of the increase of
    the same magnitude: the two runs list the same related columns, in the
    same order and with the same correlations, and every estimate of the
    decrease is the estimate of the increase with its sign turned. *)
Theorem decrease_estimates_mirror_increase
        (analyzer_chain : full_profile -> outcome string)
        (w : world) (r : ref) (df : DataFrame) (col : string) (p : float)
        (c : Series) (t : list float) (said_up said_down : string) :
  frame_at w r = Some df ->
  NoDup (columns df) ->
  getitem df col = Some c ->
  to_float c = Some t ->
  (forall q, profile_dataframe
               (modified_frame df (modifications col "Percentage Increase" p) t) = Ok q ->
             analyzer_chain q = Ok said_up) ->
  (forall q, profile_dataframe
               (modified_frame df (modifications col "Percentage Decrease" p) t) = Ok q ->
             analyzer_chain q = Ok said_down) ->
  exists (up down : what_if_report) (w1 w2 : world),
    run_what_if_scenario analyzer_chain r
                         (modifications col "Percentage Increase" p) w
    = (Ok (Report up), w1)
    /\ run_what_if_scenario analyzer_chain r
                            (modifications col "Percentage Decrease" p) w
       = (Ok (Report down), w2)
    /\ impact_analysis down
       = map (fun ni => (fst ni, negated (snd ni))) (impact_analysis up).
Proof.
  intros Hw ND Hg Ht Hup Hdown.
  destruct (answered_run analyzer_chain w r df
                         (modifications col "Percentage Increase" p) c t
                         Hw ND Hg Ht said_up eq_refl Hup) as [C1 E1].
  destruct (answered_run analyzer_chain w r df
                         (modifications col "Percentage Decrease" p) c t
                         Hw ND Hg Ht said_down eq_refl Hdown) as [C2 E2].
  eexists. eexists. eexists. eexists.
  split; [exact E1|]. split; [exact E2|].
  cbn [expected_report impact_analysis]. unfold impacts.
  cbn [modifications column change_type value].
  rewrite map_map. apply map_ext. intros nv. apply impact_of_decrease.
Qed.

Lemma decrease_estimates_mirror_increase_witness :
  exists (up down : what_if_report) (w1 w2 : world),
    run_what_if_scenario answering 0 (modifications "t" "Percentage Increase" 20)
                         (store_of ranking)
    = (Ok (Report up), w1)
    /\ run_what_if_scenario answering 0 (modifications "t" "Percentage Decrease" 20)
                            (store_of ranking)
       = (Ok (Report down), w2)
    /\ impact_analysis down
       = map (fun ni => (fst ni, negated (snd ni))) (impact_analysis up).
Proof.
  apply (decrease_estimates_mirror_increase
           answering (store_of ranking) 0 ranking "t" 20
           (Number [1; 2; 3; 4]%float) [1; 2; 3; 4]%float "narrative" "narrative").
  - reflexivity.
  - distinct_names.
  - reflexivity.
  - reflexivity.
  - intros q _. reflexivity.
  - intros q _. reflexivity.
Defined.

(** *** Set to value *)

Lemma ltb_irrefl (x : float) : (x <? x)%float = false.
Proof.
  rewrite ltb_spec. unfold SFltb.
  destruct (is_nan x) eqn:E.
  - apply is_nan_spec in E. now rewrite E.
  - apply is_nan_false in E. now rewrite (SFcompare_refl _ E).
Qed.

Lemma dropna_constant {A : Type} (val : float) (v : list A) :
  is_nan val = false -> dropna (map (fun _ => val) v) = map (fun _ => val) v.
Proof.
  intros H. unfold dropna. induction v as [|x v IH]; [reflexivity|].
  cbn [map filter]. unfold notna at 1, isna. rewrite H. cbn [negb].
  now rewrite IH.
Qed.

Lemma min_constant {A : Type} (val : float) (v : list A) :
  is_nan val = false -> v <> [] -> Pandas.min (map (fun _ => val) v) = val.
Proof.
  intros H Hne. unfold Pandas.min. rewrite (dropna_constant val v H).
  destruct v as [|x v]; [congruence|]. cbn [map]. clear Hne.
  induction v as [|y v IH]; cbn; [reflexivity|].
  unfold fmin at 2. now rewrite ltb_irrefl.
Qed.

Lemma max_constant {A : Type} (val : float) (v : list A) :
  is_nan val = false -> v <> [] -> Pandas.max (map (fun _ => val) v) = val.
Proof.
  intros H Hne. unfold Pandas.max. rewrite (dropna_constant val v H).
  destruct v as [|x v]; [congruence|]. cbn [map]. clear Hne.
  induction v as [|y v IH]; cbn; [reflexivity|].
  unfold fmax at 2. now rewrite ltb_irrefl.
Qed.

(** After [Set to Value] with a value that is a number, on a column that has
    a row, the modified copy holds the value in every row of the target, and
    the report gives it as the new minimum and the new maximum; the baseline
    statistics are those of the column as it was. *)
Theorem set_to_value_flattens_column
        (analyzer_chain : full_profile -> outcome string)
        (w : world) (r : ref) (df : DataFrame) (m : Modifications)
        (c : Series) (t : list float) (narrative : string) :
  frame_at w r = Some df ->
  NoDup (columns df) ->
  getitem df (column m) = Some c ->
  to_float c = Some t ->
  change_type m = "Set to Value" ->
  is_nan (value m) = false ->
  t <> [] ->
  (forall p, profile_dataframe (modified_frame df m t) = Ok p ->
             analyzer_chain p = Ok narrative) ->
  exists (rep : what_if_report) (w' : world),
    run_what_if_scenario analyzer_chain r m w = (Ok (Report rep), w')
    /\ frame_at w' (length (frames w))
       = Some (setitem df (column m) (Number (map (fun _ => value m) t)))
    /\ change_description rep = SetTo (column m) (value m)
    /\ original_stats rep = five t
    /\ s_min (new_stats rep) = value m
    /\ s_max (new_stats rep) = value m.
Proof.
  intros Hw ND Hg Ht Hct Hval Hne Hchain.
  assert (Hk : known_change (change_type m) = true) by now rewrite Hct.
  destruct (answered_run analyzer_chain w r df m c t Hw ND Hg Ht narrative Hk Hchain)
    as [C' E].
  eexists. eexists. split; [exact E|].
  cbn [expected_report change_description original_stats new_stats].
  unfold modified_frame, new_values, describe_change. rewrite Hct.
  cbn [String.eqb Ascii.eqb Bool.eqb]. cbn [five s_min s_max].
  split; [|split; [reflexivity|split; [reflexivity|split]]].
  - unfold frame_at. cbn [frames]. apply nth_error_first_copy.
  - now apply min_constant.
  - now apply max_constant.
Qed.

Lemma set_to_value_flattens_column_witness :
  exists (rep : what_if_report) (w' : world),
    run_what_if_scenario answering 0 (set_to "salary" 40000) (store_of staff)
    = (Ok (Report rep), w')
    /\ s_min (new_stats rep) = 40000%float
    /\ s_max (new_stats rep) = 40000%float.
Proof.
  destruct (set_to_value_flattens_column
              answering (store_of staff) 0 staff (set_to "salary" 40000)
              (Number salary) salary "narrative")
    as (rep & w' & E & _ & _ & _ & Hmin & Hmax).
  - reflexivity.
  - distinct_names.
  - reflexivity.
  - reflexivity.
  - reflexivity.
  - reflexivity.
  - discriminate.
  - intros p _. reflexivity.
  - exists rep, w'. split; [exact E|]. split; assumption.
Defined.

(** *** Set to the mean: the default of the value box *)

Lemma clip_not_infinite (x : float) (s : bool) :
  Prim2SF (clip x) <> S754_infinity s.
Proof.
  unfold clip.
  destruct (x <? -1)%float eqn:A; [rewrite minus_one_SF; discriminate|].
  destruct (1 <? x)%float eqn:B; [rewrite one_SF; discriminate|].
  intros E. rewrite ltb_spec in A, B. rewrite E, ?minus_one_SF, ?one_SF in A, B.
  destruct s; cbn in A, B; discriminate.
Qed.

Lemma corr_not_infinite (a b : list float) (s : bool) :
  Prim2SF (corr a b) <> S754_infinity s.
Proof.
  unfold corr. destruct (pairwise_valid a b); [discriminate|].
  apply clip_not_infinite.
Qed.

Lemma material_not_nan (x : float) : material x = true -> Prim2SF x <> S754_nan.
Proof.
  unfold material. rewrite ltb_spec, abs_spec. intros H E. rewrite E in H.
  discriminate.
Qed.

Lemma eqb_zero (x : float) (s : bool) :
  Prim2SF x = S754_zero s -> (x =? 0)%float = true.
Proof. intros E. rewrite eqb_spec, E. now destruct s. Qed.

(** The implied percentage change of a column set to its own mean. *)
Lemma implied_change_of_mean (x : float) :
  is_finite x = true -> (x =? 0)%float = false ->
  exists s, Prim2SF ((x - x) / x * 100)%float = S754_zero s.
Proof.
  intros H Hz. rewrite (sub_diag_finite x H).
  rewrite mul_spec, div_spec. rewrite eqb_spec in Hz.
  destruct (is_finite_spec x H) as [[s E] | (s & m & e & E & _)]; rewrite E in *.
  - destruct s; discriminate.
  - destruct s; eexists; reflexivity.
Qed.

Lemma estimate_of_mean (x c : float) :
  is_finite x = true -> (x =? 0)%float = false ->
  material c = true -> (forall s, Prim2SF c <> S754_infinity s) ->
  (estimate "Set to Value" x x c =? 0)%float = true.
Proof.
  intros H Hz Hm Hinf. unfold estimate.
  cbn [is_percentage String.eqb Ascii.eqb Bool.eqb orb].
  destruct (implied_change_of_mean x H Hz) as [s E].
  pose proof (material_not_nan c Hm) as Hn.
  assert (Z : exists s', Prim2SF (c * ((x - x) / x * 100))%float = S754_zero s').
  { rewrite mul_spec, E.
    destruct (Prim2SF c) as [s0|s0| |s0 m0 e0]; cbn.
    - eexists; reflexivity.
    - now destruct (Hinf s0).
    - congruence.
    - eexists; reflexivity. }
  destruct Z as [s' Z]. exact (eqb_zero _ s' Z).
Qed.

(** The value box of the what-if tab starts at the mean of the selected
    column.  A [Set to Value] run with that value, on a column whose mean is
    finite and not zero, reports no propagated effect: the estimate of every
    related column is zero. *)
Theorem set_to_mean_estimates_no_impact
        (analyzer_chain : full_profile -> outcome string)
        (w : world) (r : ref) (df : DataFrame) (m : Modifications)
        (c : Series) (t : list float) (narrative : string) :
  frame_at w r = Some df ->
  NoDup (columns df) ->
  getitem df (column m) = Some c ->
  to_float c = Some t ->
  change_type m = "Set to Value" ->
  value m = mean t ->
  is_finite (mean t) = true ->
  (mean t =? 0)%float = false ->
  (forall p, profile_dataframe (modified_frame df m t) = Ok p ->
             analyzer_chain p = Ok narrative) ->
  exists (rep : what_if_report) (w' : world),
    run_what_if_scenario analyzer_chain r m w = (Ok (Report rep), w')
    /\ forall other i,
        In (other, i) (impact_analysis rep) ->
        (estimated_impact i =? 0)%float = true.
Proof.
  intros Hw ND Hg Ht Hct Hval Hfin Hnz Hchain.
  assert (Hk : known_change (change_type m) = true) by now rewrite Hct.
  destruct (answered_run analyzer_chain w r df m c t Hw ND Hg Ht narrative Hk Hchain)
    as [C' E].
  eexists. eexists. split; [exact E|].
  cbn [expected_report impact_analysis]. unfold impacts.
  intros other i Hin. apply in_map_iff in Hin as ([n v] & Hi & Hin).
  apply filter_In in Hin as [_ Hrel].
  unfold related in Hrel. apply andb_true_iff in Hrel as [_ Hmat].
  unfold impact_of in Hi. injection Hi as _ <-. cbn [estimated_impact snd] in *.
  rewrite Hct, Hval.
  apply estimate_of_mean; try assumption. intros s. apply corr_not_infinite.
Qed.

Lemma set_to_mean_estimates_no_impact_witness :
  exists (rep : what_if_report) (w' : world),
    run_what_if_scenario answering 0 (set_to "salary" 225200) (store_of staff)
    = (Ok (Report rep), w')
    /\ impact_analysis rep <> []
    /\ forall other i,
        In (other, i) (impact_analysis rep) ->
        (estimated_impact i =? 0)%float = true.
Proof.
  destruct (set_to_mean_estimates_no_impact
              answering (store_of staff) 0 staff (set_to "salary" 225200)
              (Number salary) salary "narrative")
    as (rep & w' & E & H).
  - reflexivity.
  - distinct_names.
  - reflexivity.
  - reflexivity.
  - reflexivity.
  - reflexivity.
  - reflexivity.
  - reflexivity.
  - intros p _. reflexivity.
  - exists rep, w'. split; [exact E|]. split; [|exact H].
    vm_compute in E. injection E as <- _. discriminate.
Defined.

End WhatIfExtras.

(** ** The inference tools and the profiler *)

Module InferenceToolsExtras.

Import Pandas Runtime Cleaner Profiler Orchestrator Spec Shape Examples.
Import InferenceTools.
Import FloatFacts FrameFacts ProfilerFacts OrchestratorFacts OrchestratorTheorems.
Import CleanerExtras.
Local Open Scope string_scope.
Local Open Scope list_scope.

Lemma dict_of_nil {V W : Type} (f : V -> W) (cols : list (string * V)) :
  NoDup (map fst cols) -> dict_of f cols = [] -> cols = [].
Proof.
  intros ND. rewrite (dict_of_map f cols ND). now destruct cols.
Qed.

Lemma NoDup_label_columns (df : DataFrame) :
  NoDup (columns df) -> NoDup (map fst (label_columns df)).
Proof.
  intros ND. rewrite label_columns_names. now apply NoDup_select_dtypes.
Qed.

(** The three tools and the profiler are the same computations behind
    different guards.  Where [profile_dataframe] returns a profile, the
    statistics tool and the outlier tool return its numeric parts, and the
    categorical tool returns its categorical part when there is one and a
    message when it is empty.  Where [profile_dataframe] raises, the frame has
    no number column, and the two numeric tools return their messages
    instead. *)
Theorem tools_agree_with_profiler (df : DataFrame) :
  NoDup (columns df) ->
  (forall p, profile_dataframe df = Ok p ->
     get_basic_statistics df = Statistics (basic_statistics p)
     /\ detect_outliers df = OutliersCount (outliers_count p)
     /\ analyze_categorical_data df
        = match categorical_analysis p with
          | [] => CategoricalMessage "No categorical columns found."
          | found => CategoricalAnalysis found
          end)
  /\ (forall e, profile_dataframe df = Raise e ->
        number_columns df = []
        /\ get_basic_statistics df = StatisticsMessage "No numerical columns found."
        /\ detect_outliers df
           = ToolMessage "No numerical columns found for outlier detection.").
Proof.
  intros ND. unfold profile_dataframe, get_basic_statistics, detect_outliers,
               analyze_categorical_data.
  split.
  - intros p Hp. destruct (number_columns df) as [|nv ncs] eqn:N; [discriminate|].
    injection Hp as <-. cbn [basic_statistics outliers_count categorical_analysis].
    cbn [length Nat.eqb]. split; [reflexivity|]. split; [reflexivity|].
    destruct (label_columns df) as [|lv lcs] eqn:L; [reflexivity|].
    cbn [length Nat.eqb].
    destruct (dict_of analyze (lv :: lcs)) eqn:D; [|reflexivity].
    apply dict_of_nil in D; [discriminate|].
    rewrite <- L. now apply NoDup_label_columns.
  - intros e He. destruct (number_columns df) as [|nv ncs] eqn:N; [|discriminate].
    repeat split; reflexivity.
Qed.

Lemma tools_agree_with_profiler_witness :
  (exists p, profile_dataframe staff = Ok p
             /\ get_basic_statistics staff = Statistics (basic_statistics p)
             /\ detect_outliers staff = OutliersCount (outliers_count p)
             /\ analyze_categorical_data staff
                = CategoricalAnalysis (categorical_analysis p))
  /\ get_basic_statistics [("city", Object [Some "Pune"; None])]
     = StatisticsMessage "No numerical columns found.".
Proof.
  split.
  - destruct (tools_agree_with_profiler staff) as [H _].
    + distinct_names.
    + destruct (profile_dataframe staff) as [p|e] eqn:E; [|discriminate E].
      exists p. split; [reflexivity|].
      destruct (H p eq_refl) as (H1 & H2 & H3).
      split; [exact H1|]. split; [exact H2|].
      rewrite H3. vm_compute in E. injection E as <-. reflexivity.
  - destruct (tools_agree_with_profiler [("city", Object [Some "Pune"; None])])
      as [_ H].
    + distinct_names.
    + now destruct (H (ValueError "Cannot describe a DataFrame without columns")
                      eq_refl) as (_ & H1 & _).
Defined.

(** *** The tool set's copy *)

Lemma nth_error_replace_other {A : Type} (l : list A) (r n : nat) (x : A) :
  n <> r -> nth_error (replace_nth r x l) n = nth_error l n.
Proof.
  revert r n. induction l as [|y l IH]; intros [|r] [|n] H; cbn;
    try reflexivity; try congruence.
  apply IH. congruence.
Qed.

Lemma nth_error_replace_same {A : Type} (l : list A) (r : nat) (x y : A) :
  nth_error l r = Some y -> nth_error (replace_nth r x l) r = Some x.
Proof.
  revert r. induction l as [|z l IH]; intros [|r]; cbn; try discriminate.
  - reflexivity.
  - apply IH.
Qed.

(** Column assignments to one frame leave another frame as it is. *)
Lemma writes_run (writes : list (string * Series)) (r self : ref)
      (snapshot : DataFrame) :
  self <> r ->
  forall (Fs : list DataFrame) (C : list event) (d : DataFrame),
    nth_error Fs r = Some d ->
    nth_error Fs self = Some snapshot ->
    exists Fs',
      for_each writes (fun nc => assign r (fst nc) (snd nc))
               {| frames := Fs; calls := C |}
      = (Ok tt, {| frames := Fs'; calls := C |})
      /\ nth_error Fs' self = Some snapshot
      /\ nth_error Fs' r
         = Some (fold_left (fun f nc => setitem f (fst nc) (snd nc)) writes d).
Proof.
  intros Hne. induction writes as [|[col c] writes IH]; intros Fs C d Hr Hs.
  - exists Fs. cbn. now repeat split.
  - cbn [for_each fst snd fold_left].
    rewrite (bind_ok _ _ _ _ _ (assign_run Fs C r d col c Hr)).
    apply IH.
    + now apply (nth_error_replace_same Fs r _ d).
    + now rewrite nth_error_replace_other.
Qed.

(** [InferenceToolSet(df)] keeps a copy: whatever is assigned to columns of
    [df] afterwards, the three tools answer from the frame as it was when the
    tool set was made. *)
Theorem tool_set_answers_from_its_copy (w : world) (r : ref) (df : DataFrame)
        (writes : list (string * Series)) :
  frame_at w r = Some df ->
  exists (self : ref) (w1 w2 : world),
    InferenceToolSet r w = (Ok self, w1)
    /\ for_each writes (fun nc => assign r (fst nc) (snd nc)) w1 = (Ok tt, w2)
    /\ frame_at w2 r
       = Some (fold_left (fun f nc => setitem f (fst nc) (snd nc)) writes df)
    /\ get_basic_statistics_of self w2 = (Ok (get_basic_statistics df), w2)
    /\ detect_outliers_of self w2 = (Ok (detect_outliers df), w2)
    /\ analyze_categorical_data_of self w2 = (Ok (analyze_categorical_data df), w2).
Proof.
  destruct w as [F C]. unfold frame_at at 1. cbn [frames]. intros HF.
  assert (Hlt : r < length F) by (apply nth_error_Some; congruence).
  destruct (writes_run writes r (length F) df (ltac:(lia)) (F ++ [df]) C df
                       (nth_error_old F [df] r df HF) (nth_error_last F df))
    as (Fs' & E & Hs & Hr).
  exists (length F), {| frames := F ++ [df]; calls := C |},
         {| frames := Fs'; calls := C |}.
  split.
  { unfold InferenceToolSet, copy.
    now rewrite (bind_ok _ _ _ _ _ (deref_run F C r df HF)). }
  split; [exact E|]. split; [exact Hr|].
  unfold get_basic_statistics_of, detect_outliers_of, analyze_categorical_data_of.
  rewrite !(bind_ok _ _ _ _ _ (deref_run Fs' C (length F) df Hs)).
  repeat split; reflexivity.
Qed.

Lemma tool_set_answers_from_its_copy_witness :
  exists (self : ref) (w1 w2 : world),
    InferenceToolSet 0 (store_of staff) = (Ok self, w1)
    /\ for_each [("salary", Number [0; 0; 0; 0; 0]%float)]
                (fun nc => assign 0 (fst nc) (snd nc)) w1 = (Ok tt, w2)
    /\ detect_outliers_of self w2 = (Ok (detect_outliers staff), w2).
Proof.
  destruct (tool_set_answers_from_its_copy
              (store_of staff) 0 staff [("salary", Number [0; 0; 0; 0; 0]%float)])
    as (self & w1 & w2 & E1 & E2 & _ & _ & H & _).
  - reflexivity.
  - exists self, w1, w2. split; [exact E1|]. split; [exact E2 | exact H].
Defined.

(** *** Outliers and counts *)

(** In a profile, the outlier count of a number column is at most the count
    that the statistics give for it: only present entries are outliers. *)
Theorem outlier_count_within_count (df : DataFrame) (name : string)
        (v : list float) :
  NoDup (columns df) ->
  getitem df name = Some (Number v) ->
  exists (p : full_profile) (k : nat) (d : Pandas.description),
    profile_dataframe df = Ok p
    /\ dict_get (outliers_count p) name = Some k
    /\ dict_get (basic_statistics p) name = Some d
    /\ d_count d = of_nat (count v)
    /\ k <= count v.
Proof.
  intros ND Hg.
  assert (Hin : In (name, v) (number_columns df))
    by (apply In_number_columns; now apply getitem_In).
  assert (Hne : number_columns df <> [])
    by (intros E; rewrite E in Hin; exact Hin).
  pose proof (NoDup_number_columns df ND) as NDn.
  eexists. eexists. eexists. split; [apply (profile_ok df ND Hne)|].
  cbn [outliers_count basic_statistics].
  split; [apply (dict_get_map outliers _ name v NDn Hin)|].
  split; [apply (dict_get_map describe_series _ name v NDn Hin)|].
  split; [reflexivity|].
  unfold outliers, count.
  rewrite length_filter_map, filter_fences_dropna. apply filter_length_le.
Qed.

Lemma outlier_count_within_count_witness :
  exists (p : full_profile) (k : nat),
    profile_dataframe staff = Ok p
    /\ dict_get (outliers_count p) "salary" = Some k
    /\ k <= 5.
Proof.
  destruct (outlier_count_within_count staff "salary" salary)
    as (p & k & d & E & Hk & _ & _ & Hle).
  - distinct_names.
  - reflexivity.
  - exists p, k. split; [exact E|]. split; [exact Hk | exact Hle].
Defined.

End InferenceToolsExtras.

(** ** The what-if tab *)

Module AppExtras.

Import Pandas Runtime Cleaner Profiler Orchestrator Spec Shape Examples App.
Import FloatFacts FrameFacts ProfilerFacts OrchestratorFacts OrchestratorTheorems.
Import CleanerExtras.
Local Open Scope string_scope.
Local Open Scope list_scope.

Lemma offered_column (df : DataFrame) (selected_column : string) :
  NoDup (columns df) ->
  In selected_column (numerical_columns df) ->
  exists v, getitem df selected_column = Some (Number v).
Proof.
  intros ND H. unfold numerical_columns in H.
  apply in_map_iff in H as ([n v] & <- & H). exists v.
  apply In_number_columns in H. now apply In_getitem.
Qed.

(** A request made with the controls of the what-if tab, a column of the
    first select box and a change type of the second, with any value, is
    never answered by a validation message or by the unknown-change message:
    the run gets as far as the analyzer call, and returns the report when the
    analyzer answers. *)
Theorem tab_requests_reach_the_analyzer
        (analyzer_chain : full_profile -> outcome string)
        (w : world) (cleaned_df : ref) (df : DataFrame)
        (selected_column change_type : string) (change_value : float) :
  frame_at w cleaned_df = Some df ->
  NoDup (columns df) ->
  In selected_column (numerical_columns df) ->
  In change_type change_types ->
  let request := modifications selected_column change_type change_value in
  exists (v : list float) (p : full_profile) (w' : world),
    getitem df selected_column = Some (Number v)
    /\ profile_dataframe (modified_frame df request v) = Ok p
    /\ run_what_if_scenario analyzer_chain cleaned_df request w
       = (Ok (match analyzer_chain p with
              | Ok narrative => Report (expected_report df request v narrative)
              | Raise e => Message (error_during_analysis e)
              end), w').
Proof.
  intros Hw ND Hsel Hct request.
  destruct (offered_column df selected_column ND Hsel) as [v Hg].
  assert (Hk : known_change change_type = true).
  { cbn in Hct. destruct Hct as [<-|[<-|[<-|[]]]]; reflexivity. }
  destruct w as [F C]. unfold frame_at in Hw. cbn [frames] in Hw.
  destruct (what_if_run analyzer_chain F C cleaned_df df request (Number v) v
                        Hw ND Hg eq_refl Hk) as (p & C' & Hp & E).
  exists v, p. eexists. split; [exact Hg|]. split; [exact Hp|]. exact E.
Qed.

Lemma tab_requests_reach_the_analyzer_witness :
  exists (v : list float) (p : full_profile) (w' : world),
    getitem staff "bonus" = Some (Number v)
    /\ profile_dataframe
         (modified_frame staff (modifications "bonus" "Percentage Decrease" 15) v)
       = Ok p
    /\ run_what_if_scenario answering 0
                            (modifications "bonus" "Percentage Decrease" 15)
                            (store_of staff)
       = (Ok (Report (expected_report
                        staff (modifications "bonus" "Percentage Decrease" 15)
                        v "narrative")), w').
Proof.
  destruct (tab_requests_reach_the_analyzer
              answering (store_of staff) 0 staff "bonus" "Percentage Decrease" 15)
    as (v & p & w' & Hg & Hp & E).
  - reflexivity.
  - distinct_names.
  - cbn. tauto.
  - cbn. tauto.
  - exists v, p, w'. split; [exact Hg|]. split; [exact Hp | exact E].
Defined.

End AppExtras.

(** ** The labels of the report *)

Module FormatterExtras.

Import Pandas Runtime Cleaner Profiler Orchestrator Spec Shape Examples Formatter.
Import FloatFacts FrameFacts ProfilerFacts OrchestratorFacts OrchestratorTheorems.
Import CleanerExtras.
Local Open Scope string_scope.
Local Open Scope list_scope.

Lemma material_sign (c : float) :
  material c = true -> (0 <? c)%float = false -> (c <? 0)%float = true.
Proof.
  unfold material. rewrite !ltb_spec, abs_spec.
  change (Prim2SF 0) with (S754_zero false).
  destruct (Prim2SF c) as [s|s| |s m e]; intros H P;
    try (vm_compute in H; discriminate H);
    destruct s; try reflexivity; discriminate P.
Qed.

(** The report labels a related variable [negative] whenever its correlation
    is not above zero, which would take in a correlation of zero and one that
    is not a number.  It never does: every variable the report lists has a
    material correlation, so a variable labelled [negative] has a correlation
    below zero, and one labelled [positive] a correlation above zero. *)
Theorem listed_direction_is_the_sign
        (analyzer_chain : full_profile -> outcome string)
        (w : world) (r : ref) (df : DataFrame) (m : Modifications)
        (c : Series) (t : list float) (narrative : string) :
  frame_at w r = Some df ->
  NoDup (columns df) ->
  getitem df (column m) = Some c ->
  to_float c = Some t ->
  known_change (change_type m) = true ->
  (forall p, profile_dataframe (modified_frame df m t) = Ok p ->
             analyzer_chain p = Ok narrative) ->
  exists (rep : what_if_report) (w' : world),
    run_what_if_scenario analyzer_chain r m w = (Ok (Report rep), w')
    /\ forall other i,
        In (other, i) (impact_analysis rep) ->
        (direction (correlation i) = "positive"
         /\ (0 <? correlation i)%float = true)
        \/ (direction (correlation i) = "negative"
            /\ (correlation i <? 0)%float = true).
Proof.
  intros Hw ND Hg Ht Hk Hchain.
  destruct (answered_run analyzer_chain w r df m c t Hw ND Hg Ht narrative Hk Hchain)
    as [C' E].
  eexists. eexists. split; [exact E|].
  cbn [expected_report impact_analysis]. unfold impacts.
  intros other i Hin. apply in_map_iff in Hin as ([n v] & Hi & Hin).
  apply filter_In in Hin as [_ Hrel].
  unfold related in Hrel. apply andb_true_iff in Hrel as [_ Hmat].
  unfold impact_of in Hi. injection Hi as _ <-. cbn [correlation snd] in *.
  unfold direction. destruct (0 <? corr t v)%float eqn:P.
  - left. split; reflexivity.
  - right. split; [reflexivity|]. now apply material_sign.
Qed.

Lemma listed_direction_is_the_sign_witness :
  exists (rep : what_if_report) (w' : world),
    run_what_if_scenario answering 0 (increase "t" 20) (store_of ranking)
    = (Ok (Report rep), w')
    /\ forall other i,
        In (other, i) (impact_analysis rep) ->
        (direction (correlation i) = "positive"
         /\ (0 <? correlation i)%float = true)
        \/ (direction (correlation i) = "negative"
            /\ (correlation i <? 0)%float = true).
Proof.
  apply (listed_direction_is_the_sign
           answering (store_of ranking) 0 ranking (increase "t" 20)
           (Number [1; 2; 3; 4]%float) [1; 2; 3; 4]%float "narrative").
  - reflexivity.
  - distinct_names.
  - reflexivity.
  - reflexivity.
  - reflexivity.
  - intros p _. reflexivity.
Defined.

End FormatterExtras.
